(** * Photocopy ML service (Resources/Python/photocopier.py)

    A shallow embedding of the service class [PhotocopyMLService] and of the
    command line dispatcher [main], followed by the properties of the
    specification that concern them.

    - Python values of the shapes that occur in the program (the values a
      JSON decoder produces, and the dictionaries built from them) are the
      inductive type [value]; dictionaries keep their insertion order.
    - Mutable state ([self], the dictionary passed as [custom_settings], the
      process output) is threaded explicitly through a state monad whose
      computations may raise; a raised exception keeps the state reached so
      far, as in Python.
    - Library and system calls (the JSON decoder, the filesystem, the image
      library, the model library, the clock, standard input) are parameters
      of the development, gathered in the records [PyLib] and [Env]. *)

From Stdlib Require Import String Ascii List ZArith Bool Arith Lia.
From Stdlib Require Import Floats.
Import ListNotations.

Local Open Scope string_scope.
Local Open Scope list_scope.

(** ** Python values *)

Module Py.

(** Strings are sequences of characters with code point below 256. *)
#[warnings="-register-all"]
Inductive value : Type :=
| PNone
| PBool (b : bool)
| PInt (n : Z)
| PFloat (f : float)
| PStr (s : string)
| PList (l : list value)
| PDict (d : list (value * value)).

(** A dictionary: its items in insertion order, each key once. *)
Definition dict := list (value * value).

(** [bool(v)], the test behind [if v], [not v] and [a or b]. *)
Definition truthy (v : value) : bool :=
  match v with
  | PNone => false
  | PBool b => b
  | PInt n => negb (Z.eqb n 0)
  | PFloat f => negb (PrimFloat.eqb f 0%float)
  | PStr s => negb (String.eqb s "")
  | PList l => match l with [] => false | _ => true end
  | PDict d => match d with [] => false | _ => true end
  end.

(** Lists and dictionaries cannot be dictionary keys. *)
Definition hashable (v : value) : bool :=
  match v with
  | PList _ | PDict _ => false
  | _ => true
  end.

(** [len(v)] where it is defined. *)
Definition py_len (v : value) : option nat :=
  match v with
  | PStr s => Some (String.length s)
  | PList l => Some (List.length l)
  | PDict d => Some (List.length d)
  | _ => None
  end.

(** *** Dictionaries, looked up by a string key *)

Fixpoint dict_get (d : dict) (k : string) : option value :=
  match d with
  | [] => None
  | (PStr k', v) :: r => if String.eqb k k' then Some v else dict_get r k
  | _ :: r => dict_get r k
  end.

Definition has_key (d : dict) (k : string) : bool :=
  match dict_get d k with Some _ => true | None => false end.

(** [d.get(k, default)] *)
Definition dict_get_default (d : dict) (k : string) (default : value) : value :=
  match dict_get d k with Some v => v | None => default end.

Definition is_key (k : string) (kv : value * value) : bool :=
  match fst kv with PStr k' => String.eqb k k' | _ => false end.

Definition dict_remove (d : dict) (k : string) : dict :=
  filter (fun kv => negb (is_key k kv)) d.

(** [d.pop(k, default)]: the value returned and the dictionary left. *)
Definition dict_pop (d : dict) (k : string) (default : value) : value * dict :=
  (dict_get_default d k default, dict_remove d k).

(** *** Strings *)

(** [str.isspace] on one character. *)
Definition is_space (c : ascii) : bool :=
  let n := nat_of_ascii c in
  (((9 <=? n) && (n <=? 13)) || ((28 <=? n) && (n <=? 32))
   || (n =? 133) || (n =? 160))%nat.

Fixpoint lstrip (s : string) : string :=
  match s with
  | EmptyString => EmptyString
  | String c r => if is_space c then lstrip r else s
  end.

Fixpoint rstrip (s : string) : string :=
  match s with
  | EmptyString => EmptyString
  | String c r =>
      match rstrip r with
      | EmptyString => if is_space c then EmptyString else String c EmptyString
      | r' => String c r'
      end
  end.

(** [s.strip()] *)
Definition strip (s : string) : string := rstrip (lstrip s).

(** [s.split(",")]: never empty, and the segments may be. *)
Fixpoint split_comma (s : string) : list string :=
  match s with
  | EmptyString => [EmptyString]
  | String c r =>
      if Ascii.eqb c ","%char then EmptyString :: split_comma r
      else match split_comma r with
           | h :: t => String c h :: t
           | [] => [String c EmptyString]
           end
  end.

(** [[tag.strip() for tag in s.split(",") if tag.strip()]] *)
Definition comma_tags (s : string) : list string :=
  filter (fun t => negb (String.eqb t "")) (map strip (split_comma s)).

(** The suffix of [s] that starts at its first opening brace. *)
Fixpoint from_open_brace (s : string) : option string :=
  match s with
  | EmptyString => None
  | String c r => if Ascii.eqb c "{"%char then Some r else from_open_brace r
  end.

(** The longest prefix of [s] that ends with a closing brace. *)
Fixpoint upto_last_close (s : string) : option string :=
  match s with
  | EmptyString => None
  | String c r =>
      match upto_last_close r with
      | Some m => Some (String c m)
      | None => if Ascii.eqb c "}"%char then Some (String c EmptyString) else None
      end
  end.

(** [re.search(r'\{.*\}', s, re.DOTALL)]: the text of the match, which runs
    from the first opening brace to the last closing brace after it. *)
Definition search_braces (s : string) : option string :=
  match from_open_brace s with
  | None => None
  | Some r =>
      match upto_last_close r with
      | Some m => Some (String "{"%char m)
      | None => None
      end
  end.

End Py.
Export Py.

(** ** Exceptions, events and the monad of the program *)

(** The exceptions (subclasses of [Exception]) that the program can meet.
    The first six are raised by the interpreter on a value of the wrong
    type; [str(e)] is given by the library record below. *)
Inductive exn : Type :=
| NoAttribute (v : value) (attr : string)   (* AttributeError: v has no such attribute *)
| BadCall (v : value) (meth : string)       (* TypeError: wrong arguments for v.meth *)
| NotSubscriptable (v : value)              (* v[:15] on a value without slices *)
| NotIterable (v : value)                   (* TypeError: v is not iterable *)
| Unhashable (v : value)                    (* TypeError: v cannot be a key *)
| BadUpdateElement (i : nat) (item : value) (* dict.update: element i is not a pair *)
| BadPath (v : value)                       (* TypeError of os.stat *)
| JSONDecodeError (msg : string)            (* json.JSONDecodeError *)
| LibraryError (msg : string).              (* any other Exception of a library or system call *)

Definition is_JSONDecodeError (e : exn) : bool :=
  match e with JSONDecodeError _ => true | _ => false end.

(** A loaded model and an opened image are handles of the libraries. *)
Record Model : Type := mkModel { model_id : nat }.
Record Image : Type := mkImage { image_id : nat; image_size : Z * Z }.

Inductive Level : Type := INFO | WARNING | ERROR.

(** What the process does to the outside world, in order. Log records and
    debug lines carry the format string and the values filled in. *)
Inductive Event : Type :=
| EvTime                                        (* time.time() *)
| EvLog (lvl : Level) (fmt : string) (args : list value)
| EvStderr (fmt : string) (args : list value)   (* print(..., file=sys.stderr) *)
| EvStdout (doc : value) (indent : option nat)  (* print(json.dumps(doc, indent=...)) *)
| EvStdin                                       (* sys.stdin read to its end *)
| EvFromPretrained (repo trust : value)         (* AutoModelForCausalLM.from_pretrained *)
| EvQuery (m : Model) (img : Image) (prompt : string).  (* model.query *)

(** The trace of a run, latest event first. *)
Definition Trace := list Event.

Definition is_time (e : Event) : bool :=
  match e with EvTime => true | _ => false end.
Definition is_load (e : Event) : bool :=
  match e with EvFromPretrained _ _ => true | _ => false end.
Definition is_query (e : Event) : bool :=
  match e with EvQuery _ _ _ => true | _ => false end.
Definition is_stdin (e : Event) : bool :=
  match e with EvStdin => true | _ => false end.

Definition count (p : Event -> bool) (t : Trace) : nat := length (filter p t).

(** The documents printed on standard output, first one first. *)
Definition stdout_of (t : Trace) : list value :=
  rev (flat_map (fun e => match e with EvStdout d _ => [d] | _ => [] end) t).

(** Computations over a state [S] that return an [A] or raise. *)
Definition M (S A : Type) : Type := S -> (exn + A) * S.

Definition ret {S A} (a : A) : M S A := fun s => (inr a, s).
Definition raise {S A} (e : exn) : M S A := fun s => (inl e, s).
Definition bind {S A B} (m : M S A) (k : A -> M S B) : M S B :=
  fun s => match m s with
           | (inr a, s') => k a s'
           | (inl e, s') => (inl e, s')
           end.
Definition lift {S A} (r : exn + A) : M S A := fun s => (r, s).

(** [try: m  except Exception as e: h e] *)
Definition try_except {S A} (m : M S A) (h : exn -> M S A) : M S A :=
  fun s => match m s with
           | (inr a, s') => (inr a, s')
           | (inl e, s') => h e s'
           end.

(** [try: m  except json.JSONDecodeError: h] *)
Definition try_except_json {S A} (m : M S A) (h : M S A) : M S A :=
  fun s => match m s with
           | (inl e, s') => if is_JSONDecodeError e then h s' else (inl e, s')
           | r => r
           end.

Declare Scope py_scope.
Delimit Scope py_scope with py.
Notation "x <- m ;; k" := (bind m (fun x => k))
  (at level 61, m at next level, right associativity) : py_scope.
Notation "m ;; k" := (bind m (fun _ => k))
  (at level 61, right associativity) : py_scope.
Local Open Scope py_scope.

(** ** The libraries and the outside world *)

(** Pure functions of the Python runtime and standard library. *)
Record PyLib : Type := mkPyLib {
  json_loads : string -> exn + value;     (* json.loads *)
  py_str : value -> string;               (* str(v) of a value that is not a string *)
  exn_str : exn -> string;                (* str(e) *)
  format_exc : exn -> string;             (* traceback.format_exc() while e is handled *)
  key_eqb : value -> value -> bool        (* == on two keys that are not strings *)
}.

(** The environment of one run. Calls whose answer may change from one call
    to the next take the number of earlier calls of the same kind. *)
Record Env : Type := mkEnv {
  import_error : option string;                       (* the ImportError of lines 24-27 *)
  path_exists : string -> bool;                       (* os.path.exists on a string *)
  fd_exists : Z -> exn + bool;                        (* os.path.exists on an integer *)
  read_text : string -> exn + string;                 (* open(path, 'r') and read *)
  stdin_text : exn + string;                          (* sys.stdin.read() *)
  image_open : string -> exn + Image;                 (* PIL.Image.open on a path *)
  from_pretrained : nat -> value -> value -> exn + Model;
  model_query : nat -> Model -> Image -> string -> exn + value;
  clock : nat -> float                                (* time.time() *)
}.

(** ** The service *)

(** The attributes of a [PhotocopyMLService] object. *)
Record Service : Type := mkService {
  config : dict;
  model : option Model;
  device : value;
  _model_loaded : bool
}.

(** The state of the process while a method runs: the service object, the
    object bound to the [custom_settings] argument of [analyze_image] (it is
    mutated in place, so it lives in the store and not in the call), and the
    trace. *)
Record Proc : Type := mkProc {
  self : Service;
  caller_settings : value;
  trace : Trace
}.

(** Line breaks and double quotes of the prompt text. *)
Definition nl : string := String "010"%char EmptyString.
Definition q (s : string) : string :=
  String "034"%char (s ++ String "034"%char EmptyString).

(** A dictionary display with string keys. *)
Definition obj (items : list (string * value)) : dict :=
  map (fun kv => (PStr (fst kv), snd kv)) items.

#[warnings="-inexact-float"]
Definition default_config : dict :=
  obj [ ("pythonVersion", PStr "3.11");
        ("architecture", PStr "arm64");
        ("model", PDict (obj [ ("name", PStr "moondream2");
                               ("repository", PStr "vikhyatk/moondream2");
                               ("trustRemoteCode", PBool true);
                               ("device", PStr "mps") ]));
        ("generationSettings", PDict (obj [ ("temperature", PFloat 0.5%float);
                                            ("maxTokens", PInt 768);
                                            ("topP", PFloat 0.3%float);
                                            ("length", PStr "short") ]));
        ("timeout", PInt 60) ].

Definition caption_prompt : string :=
  "Describe this image in a concise, natural way.".

Definition tags_prompt : string :=
  "Analyze this image and return a JSON object with the following structure:" ++ nl ++
  "{" ++ nl ++
  "  " ++ q "tags" ++ ": [" ++ q "tag1" ++ ", " ++ q "tag2" ++ ", " ++ q "tag3" ++ ", ...]," ++ nl ++
  "  " ++ q "objects" ++ ": [" ++ q "object1" ++ ", " ++ q "object2" ++ ", ...]," ++ nl ++
  "  " ++ q "scene" ++ ": " ++ q "scene description" ++ "," ++ nl ++
  "  " ++ q "colors" ++ ": [" ++ q "color1" ++ ", " ++ q "color2" ++ ", ...]," ++ nl ++
  "  " ++ q "actions" ++ ": [" ++ q "action1" ++ ", " ++ q "action2" ++ ", ...]" ++ nl ++
  "}" ++ nl ++
  nl ++
  "Focus on the most important and relevant tags. Limit tags to 10-15 items total.".

(** The local variables that the parse of the tag response assigns. *)
Record TagData : Type := mkTagData {
  tags : value;
  objects : value;
  scene : value;
  colors : value;
  actions : value
}.

(** The command line as the user typed it, flag by flag, and the namespace
    that [parser.parse_args()] returns. A command line is one that holds
    only the three flags of the parser, each with its value. On any other
    one ([-h] or [--help], an unknown argument, a flag without its value)
    argparse ends the process inside [parse_args()] at line 238, with its
    help on standard output and status 0 or with a usage error and status
    2, before [main] prints or builds anything: those runs are outside
    [Argv]. *)
Record Argv : Type := mkArgv {
  opt_config : option string;
  opt_mode : option string;
  opt_image : option string
}.

Record Namespace : Type := mkNamespace {
  args_config : option string;
  args_mode : string;
  args_image : option string
}.

Definition opt_value (o : option string) : value :=
  match o with Some s => PStr s | None => PNone end.

(** [v == s] for a string literal [s]. *)
Definition eq_str (v : value) (s : string) : bool :=
  match v with PStr s' => String.eqb s' s | _ => false end.

(** [v.get(k, default)]: only a dictionary has the method. *)
Definition py_get (v : value) (k : string) (default : value) : exn + value :=
  match v with
  | PDict d => inr (dict_get_default d k default)
  | _ => inl (NoAttribute v "get")
  end.

(** [v.strip()]: only a string has the method. *)
Definition py_strip (v : value) : exn + string :=
  match v with
  | PStr s => inr (strip s)
  | _ => inl (NoAttribute v "strip")
  end.

(** [v[:15]] *)
Definition slice15 (v : value) : exn + value :=
  match v with
  | PList l => inr (PList (firstn 15 l))
  | PStr s => inr (PStr (substring 0 15 s))
  | _ => inl (NotSubscriptable v)
  end.

(** The tags of the fall-back: the comma separated segments. *)
Definition fallback_tags (tags_response : string) : TagData :=
  mkTagData (PList (map PStr (comma_tags tags_response)))
            (PList []) (PStr "") (PList []) (PList []).

Definition emit (e : Event) : M Proc unit :=
  fun p => (inr tt, mkProc (self p) (caller_settings p) (e :: trace p)).

Definition emit_t (e : Event) : M Trace unit :=
  fun t => (inr tt, e :: t).

Definition get_self : M Proc Service := fun p => (inr (self p), p).

Definition set_self (s : Service) : M Proc unit :=
  fun p => (inr tt, mkProc s (caller_settings p) (trace p)).

Definition get_caller_settings : M Proc value :=
  fun p => (inr (caller_settings p), p).

Definition set_caller_settings (v : value) : M Proc unit :=
  fun p => (inr tt, mkProc (self p) v (trace p)).

(** Runs a computation of the service from a trace, the service object
    being a local variable of the caller. *)
Definition with_service {A} (service : Service) (m : M Proc A) : M Trace A :=
  fun t => let r := m (mkProc service PNone t) in (fst r, trace (snd r)).

(** The arguments [model_repo] and [trust_remote_code] that [_load_model]
    computes from the configuration (lines 84-85). *)
Definition load_args (cfg : dict) : exn + (value * value) :=
  match py_get (dict_get_default cfg "model" (PDict []))
               "repository" (PStr "vikhyatk/moondream2") with
  | inl e => inl e
  | inr model_repo =>
      match py_get (dict_get_default cfg "model" (PDict []))
                   "trustRemoteCode" (PBool true) with
      | inl e => inl e
      | inr trust_remote_code => inr (model_repo, trust_remote_code)
      end
  end.

(** Where the first part of the try of [analyze_image] ends: at one of its
    two returns, or with the image opened and the two answers of the model
    stripped. *)
Inductive Progress : Type :=
| Returned (result : dict)
| Answered (image : Image) (caption tags_response : string).

(** The object that the local variable [settings] of [analyze_image] is
    bound to: the caller's dictionary, the value stored under
    [generationSettings] in [self.config], or the fresh [{}] of the default. *)
Inductive SettingsRef : Type := InCaller | InConfig | Fresh.

Section Photocopier.

Variable py : PyLib.
Variable env : Env.

(** *** Dictionary update *)

(** [a == b] on keys: a string equals only the same string. *)
Definition key_eq (a b : value) : bool :=
  match a, b with
  | PStr x, PStr y => String.eqb x y
  | PStr _, _ => false
  | _, PStr _ => false
  | _, _ => key_eqb py a b
  end.

(** [d[k] = v]: an existing key keeps its place (and its key object). *)
Fixpoint dict_set (d : dict) (k v : value) : dict :=
  match d with
  | [] => [(k, v)]
  | kv :: r => if key_eq k (fst kv) then (fst kv, v) :: r
               else kv :: dict_set r k v
  end.

Definition update_pair (k v : value) : M dict unit :=
  fun d => if hashable k then (inr tt, dict_set d k v)
           else (inl (Unhashable k), d).

(** One element of the argument of [dict.update] when the argument is not a
    mapping: it must be a sequence of length two, key then value. *)
Definition update_element (i : nat) (item : value) : M dict unit :=
  match item with
  | PList [k; v] => update_pair k v
  | PStr (String a (String b EmptyString)) =>
      update_pair (PStr (String a EmptyString)) (PStr (String b EmptyString))
  | PDict [(k1, _); (k2, _)] => update_pair k1 k2
  | _ => raise (BadUpdateElement i item)
  end.

Fixpoint update_seq (i : nat) (items : list value) : M dict unit :=
  match items with
  | [] => ret tt
  | x :: r => update_element i x ;; update_seq (S i) r
  end.

(** [d.update(other)], on the dictionary held in the state: the items set
    before an exception stay. *)
Definition dict_update (other : value) : M dict unit :=
  match other with
  | PDict items =>
      fun d => (inr tt, fold_left (fun acc kv => dict_set acc (fst kv) (snd kv)) items d)
  | PList items => update_seq 0 items
  | PStr s =>
      update_seq 0 (map (fun c => PStr (String c EmptyString)) (list_ascii_of_string s))
  | _ => raise (NotIterable other)
  end.

(** [str(v)] inside an f-string. *)
Definition fmt_value (v : value) : string :=
  match v with PStr s => s | _ => py_str py v end.

(** *** _load_config (lines 47-75) *)

Definition _load_config (config_path : option string) : M Trace dict :=
  match config_path with
  | Some path =>
      if negb (String.eqb path "") && path_exists env path then
        fun t =>
          (* the body of the try, on the local default_config *)
          let body : M dict unit :=
            text <- lift (read_text env path) ;;
            loaded_config <- lift (json_loads py text) ;;
            dict_update loaded_config in
          match body default_config with
          | (inr _, cfg) => (inr cfg, t)
          | (inl e, cfg) =>
              (inr cfg,
               EvLog WARNING "Failed to load config from {}: {}"
                     [PStr path; PStr (exn_str py e)] :: t)
          end
      else ret default_config
  | None => ret default_config
  end.

(** *** __init__ (lines 40-45) *)

Definition __init__ (config_path : option string) : M Trace Service :=
  cfg <- _load_config config_path ;;
  ret (mkService cfg None PNone false).

(** *** _load_model (lines 77-103) *)

Definition call_from_pretrained (repo trust : value) : M Proc Model :=
  fun p =>
    (from_pretrained env (count is_load (trace p)) repo trust,
     mkProc (self p) (caller_settings p) (EvFromPretrained repo trust :: trace p)).

Definition _load_model : M Proc bool :=
  s <- get_self ;;
  if _model_loaded s then ret true
  else
    try_except
      (emit (EvLog INFO "Loading Moondream2 model..." []) ;;
       model_repo <- lift (py_get (dict_get_default (config s) "model" (PDict []))
                                  "repository" (PStr "vikhyatk/moondream2")) ;;
       trust_remote_code <- lift (py_get (dict_get_default (config s) "model" (PDict []))
                                         "trustRemoteCode" (PBool true)) ;;
       m <- call_from_pretrained model_repo trust_remote_code ;;
       set_self (mkService (config s) (Some m) (device s) (_model_loaded s)) ;;
       set_self (mkService (config s) (Some m) (device s) true) ;;
       emit (EvLog INFO "Model loaded successfully" []) ;;
       ret true)
      (fun e =>
         emit (EvLog ERROR "Failed to load model: {} |||| Filename: {}"
                     [PStr (exn_str py e); PStr "photocopier.py"]) ;;
         emit (EvLog ERROR "{}" [PStr (format_exc py e)]) ;;
         ret false).

(** The two records that the handler of [_load_model] leaves in the trace. *)
Definition load_failure_log (e : exn) : list Event :=
  [ EvLog ERROR "{}" [PStr (format_exc py e)];
    EvLog ERROR "Failed to load model: {} |||| Filename: {}"
          [PStr (exn_str py e); PStr "photocopier.py"] ].

(** *** analyze_image (lines 105-210) *)

Definition time_time : M Proc float :=
  fun p => (inr (clock env (count is_time (trace p))),
            mkProc (self p) (caller_settings p) (EvTime :: trace p)).

(** [os.path.exists(p)]: a string is a path, an integer (and so a boolean)
    is a file descriptor, anything else is a TypeError. *)
Definition os_path_exists (p : value) : exn + bool :=
  match p with
  | PStr s => inr (path_exists env s)
  | PInt n => fd_exists env n
  | PBool b => fd_exists env (if b then 1%Z else 0%Z)
  | _ => inl (BadPath p)
  end.

(** [Image.open(p)]: what is not a path is read as a file object. *)
Definition Image_open (p : value) : exn + Image :=
  match p with
  | PStr s => image_open env s
  | _ => inl (NoAttribute p "read")
  end.

(** [self.model.query(image, prompt)] *)
Definition query (image : Image) (prompt : string) : M Proc value :=
  fun p =>
    match model (self p) with
    | Some m =>
        (model_query env (count is_query (trace p)) m image prompt,
         mkProc (self p) (caller_settings p) (EvQuery m image prompt :: trace p))
    | None => (inl (NoAttribute PNone "query"), p)
    end.

(** [custom_settings or self.config.get("generationSettings", {})] *)
Definition bind_settings : M Proc SettingsRef :=
  fun p =>
    (inr (if truthy (caller_settings p) then InCaller
          else if has_key (config (self p)) "generationSettings" then InConfig
          else Fresh), p).

Definition read_ref (r : SettingsRef) : M Proc value :=
  fun p =>
    (inr match r with
         | InCaller => caller_settings p
         | InConfig => dict_get_default (config (self p)) "generationSettings" (PDict [])
         | Fresh => PDict []
         end, p).

Definition write_ref (r : SettingsRef) (v : value) : M Proc unit :=
  fun p =>
    (inr tt,
     match r with
     | InCaller => mkProc (self p) v (trace p)
     | InConfig =>
         let s := self p in
         mkProc (mkService (dict_set (config s) (PStr "generationSettings") v)
                           (model s) (device s) (_model_loaded s))
                (caller_settings p) (trace p)
     | Fresh => p
     end).

(** [settings.pop("length", "short")], in place. *)
Definition pop_length (r : SettingsRef) : M Proc value :=
  settings <- read_ref r ;;
  match settings with
  | PDict d =>
      let popped := dict_pop d "length" (PStr "short") in
      write_ref r (PDict (snd popped)) ;;
      ret (fst popped)
  | PList _ => raise (BadCall settings "pop")
  | _ => raise (NoAttribute settings "pop")
  end.

(** The parse of the tag response (lines 154-181). *)
Definition parse_tags (tags_response : string) : M Proc TagData :=
  try_except_json
    (match search_braces tags_response with
     | Some text =>
         tags_data <- lift (json_loads py text) ;;
         tags <- lift (py_get tags_data "tags" (PList [])) ;;
         objects <- lift (py_get tags_data "objects" (PList [])) ;;
         scene <- lift (py_get tags_data "scene" (PStr "")) ;;
         colors <- lift (py_get tags_data "colors" (PList [])) ;;
         actions <- lift (py_get tags_data "actions" (PList [])) ;;
         ret (mkTagData tags objects scene colors actions)
     | None => ret (fallback_tags tags_response)
     end)
    (emit (EvLog WARNING "Failed to parse tags JSON: {}" [PStr tags_response]) ;;
     ret (fallback_tags tags_response)).

Definition size_value (image : Image) : value :=
  PList [PInt (fst (image_size image)); PInt (snd (image_size image))].

(** Lines 110-152 of the try: the checks, the load, the settings and the
    two queries. *)
Definition analyze_queries (image_path : value) : M Proc Progress :=
  found <- lift (os_path_exists image_path) ;;
  if negb found then
    ret (Returned
           (obj [ ("error", PStr ("Image file not found: " ++ fmt_value image_path));
                  ("status", PStr "file_error") ]))
  else
    image <- lift (Image_open image_path) ;;
    emit (EvLog INFO "Loaded image: {} ({})" [image_path; size_value image]) ;;
    loaded <- _load_model ;;
    if negb loaded then
      ret (Returned
             (obj [ ("error", PStr "Failed to load ML model");
                    ("status", PStr "model_error") ]))
    else
      settings <- bind_settings ;;
      length <- pop_length settings ;;
      emit (EvLog INFO "Generating analysis..." []) ;;
      caption_result <- query image caption_prompt ;;
      caption_answer <- lift (py_get caption_result "answer" (PStr "")) ;;
      caption <- lift (py_strip caption_answer) ;;
      tags_result <- query image tags_prompt ;;
      tags_answer <- lift (py_get tags_result "answer" (PStr "")) ;;
      tags_response <- lift (py_strip tags_answer) ;;
      ret (Answered image caption tags_response).

(** Lines 154-202 of the try: the parse of the tag response and the record
    of a success. *)
Definition analyze_result (image_path : value) (start_time : float)
    (image : Image) (caption tags_response : string) : M Proc dict :=
  data <- parse_tags tags_response ;;
  now <- time_time ;;
  let processing_time := PrimFloat.sub now start_time in
  first_tags <- lift (slice15 (tags data)) ;;
  s <- get_self ;;
  name <- lift (py_get (dict_get_default (config s) "model" (PDict []))
                       "name" PNone) ;;
  repository <- lift (py_get (dict_get_default (config s) "model" (PDict []))
                             "repository" PNone) ;;
  ret (obj [ ("status", PStr "success");
             ("caption", PStr caption);
             ("tags", first_tags);
             ("analysis", PDict (obj [ ("objects", objects data);
                                       ("scene", scene data);
                                       ("colors", colors data);
                                       ("actions", actions data) ]));
             ("processing_time", PFloat processing_time);
             ("image_path", image_path);
             ("image_size", size_value image);
             ("model_info", PDict (obj [ ("name", name);
                                         ("repository", repository) ])) ]).

(** The body of the try (lines 110-202). *)
Definition analyze_body (image_path : value) (start_time : float) : M Proc dict :=
  reached <- analyze_queries image_path ;;
  match reached with
  | Returned result => ret result
  | Answered image caption tags_response =>
      analyze_result image_path start_time image caption tags_response
  end.

(** The handler of the try (lines 204-210). *)
Definition analyze_handler (start_time : float) (e : exn) : M Proc dict :=
  emit (EvLog ERROR "Error analyzing image: {}" [PStr (exn_str py e)]) ;;
  now <- time_time ;;
  ret (obj [ ("error", PStr (exn_str py e));
             ("status", PStr "analysis_error");
             ("processing_time", PFloat (PrimFloat.sub now start_time)) ]).

Definition analyze_image (image_path custom_settings : value) : M Proc dict :=
  set_caller_settings custom_settings ;;
  start_time <- time_time ;;
  try_except (analyze_body image_path start_time) (analyze_handler start_time).

(** The state in which the try of [analyze_image] starts, and the reading
    of the clock taken before it. *)
Definition entered (custom : value) (P : Proc) : Proc :=
  mkProc (self P) custom (EvTime :: trace P).

Definition started (P : Proc) : float := clock env (count is_time (trace P)).

(** The state in which [analyze_image] calls [_load_model]: the image is
    open and logged. *)
Definition opened (image_path : value) (image : Image) (P0 : Proc) : Proc :=
  mkProc (self P0) (caller_settings P0)
         (EvLog INFO "Loaded image: {} ({})" [image_path; size_value image]
          :: trace P0).

(** A service whose flag is set got it from [_load_model], which read the
    arguments of the load from the entry [model] of the configuration: that
    entry is a mapping (or is absent). *)
Definition model_entry_ok (s : Service) : Prop :=
  exists m : dict, dict_get_default (config s) "model" (PDict []) = PDict m.

Definition consistent (s : Service) : Prop :=
  _model_loaded s = true -> model_entry_ok s.

(** A computation that leaves a consistent service consistent, whatever it
    returns or raises. *)
Definition stays_consistent {A : Type} (m : M Proc A) : Prop :=
  forall (P P' : Proc) (r : exn + A),
    m P = (r, P') -> consistent (self P) -> consistent (self P').

(** A computation that moreover leaves the configuration and the caller's
    settings as they are. *)
Definition keeps_settings {A : Type} (m : M Proc A) : Prop :=
  forall (P P' : Proc) (r : exn + A),
    m P = (r, P') ->
    config (self P') = config (self P) /\
    caller_settings P' = caller_settings P /\
    (consistent (self P) -> consistent (self P')).

(** *** health_check (lines 212-228) *)

Definition health_check : M Proc dict :=
  loaded <- _load_model ;;
  s <- get_self ;;
  if negb loaded then
    ret (obj [ ("status", PStr "not_healthy");
               ("model_loaded", PBool (_model_loaded s));
               ("device", device s);
               ("config", PDict (config s)) ])
  else
    ret (obj [ ("status", PStr "healthy");
               ("model_loaded", PBool (_model_loaded s));
               ("device", device s);
               ("config", PDict (config s)) ]).

(** *** main (lines 230-313) *)

(** [parser.parse_args()] for the three flags: [--mode] has the choices
    [analyze] and [health] and the default [analyze]. [None] stands for the
    exit of argparse on a value outside the choices; its other exits (the
    help, an argument of a form that the parser does not have) are not
    command lines of [Argv]. *)
Definition parse_args (argv : Argv) : option Namespace :=
  let mode := match opt_mode argv with Some m => m | None => "analyze" end in
  if existsb (String.eqb mode) ["analyze"; "health"] then
    Some (mkNamespace (opt_config argv) mode (opt_image argv))
  else None.

(** [print(json.dumps(doc, indent=...))] *)
Definition print_json (doc : dict) (indent : option nat) : M Proc unit :=
  emit (EvStdout (PDict doc) indent).

(** [0 if result.get("status") == "success" else 1] *)
Definition status_code (result : dict) : Z :=
  if eq_str (dict_get_default result "status" PNone) "success" then 0%Z else 1%Z.

(** The last branch of [main] (lines 269-313): one request read from
    standard input. *)
Definition interactive : M Proc Z :=
  try_except
    (emit EvStdin ;;
     text <- lift (stdin_text env) ;;
     input_data <- lift (json_loads py text) ;;
     action <- lift (py_get input_data "action" PNone) ;;
     if eq_str action "analyze" then
       image_path <- lift (py_get input_data "image_path" PNone) ;;
       custom_settings <- lift (py_get input_data "settings" PNone) ;;
       if negb (truthy image_path) then
         print_json (obj [ ("error", PStr "image_path required");
                           ("status", PStr "missing_image_path") ]) None ;;
         ret 1%Z
       else
         result <- analyze_image image_path custom_settings ;;
         print_json result None ;;
         ret (status_code result)
     else
       action <- lift (py_get input_data "action" PNone) ;;
       if eq_str action "health" then
         result <- health_check ;;
         print_json result None ;;
         ret 0%Z
       else
         action <- lift (py_get input_data "action" PNone) ;;
         print_json (obj [ ("error", PStr ("Unknown action: " ++ fmt_value action));
                           ("status", PStr "unknown_action") ]) None ;;
         ret 1%Z)
    (fun e =>
       if is_JSONDecodeError e then
         print_json (obj [ ("error", PStr "Invalid JSON input");
                           ("status", PStr "json_error") ]) None ;;
         ret 1%Z
       else
         print_json (obj [ ("error", PStr ("Unexpected error: " ++ exn_str py e));
                           ("status", PStr "unexpected_error") ]) None ;;
         ret 1%Z).

(** The value returned is the exit status of the process, which ends with
    [sys.exit(main())]; the exit of argparse is status 2. *)
Definition main (argv : Argv) : M Trace Z :=
  match parse_args argv with
  | None => ret 2%Z
  | Some args =>
      emit_t (EvStderr "DEBUG: Received args: mode={}, image={}, config={}"
                       [ PStr (args_mode args); opt_value (args_image args);
                         opt_value (args_config args) ]) ;;
      service <- __init__ (args_config args) ;;
      with_service service
        (if String.eqb (args_mode args) "health" then
           result <- health_check ;;
           print_json result (Some 2) ;;
           ret 0%Z
         else if String.eqb (args_mode args) "analyze" then
           if negb (truthy (opt_value (args_image args))) then
             print_json (obj [ ("error", PStr "Image path required for analysis mode");
                               ("status", PStr "missing_image") ]) None ;;
             ret 1%Z
           else
             emit (EvStderr "DEBUG: Analyzing image: {}" [opt_value (args_image args)]) ;;
             result <- analyze_image (opt_value (args_image args)) PNone ;;
             emit (EvStderr "DEBUG: Analysis result status: {}"
                            [dict_get_default result "status" PNone]) ;;
             (if truthy (dict_get_default result "tags" PNone) then
                emit (EvStderr "DEBUG: Generated tags: {}"
                               [dict_get_default result "tags" PNone])
              else ret tt) ;;
             print_json result (Some 2) ;;
             ret (status_code result)
         else interactive)
  end.

(** The script: the guarded imports (lines 24-33), then [main]. *)
Definition script (argv : Argv) : M Trace Z :=
  match import_error env with
  | Some msg =>
      emit_t (EvStdout (PDict (obj [ ("error", PStr ("Failed to import required libraries: " ++ msg));
                                     ("status", PStr "import_error") ])) None) ;;
      ret 1%Z
  | None => main argv
  end.

End Photocopier.

(** ** A concrete library and environment for the examples *)

Module Example.

(** A decoder for the fragment of JSON without escapes, fractions and
    exponents, enough for the documents of the examples. *)

Definition dquote : ascii := "034"%char.

Definition json_space (c : ascii) : bool :=
  Ascii.eqb c " "%char || Ascii.eqb c "009"%char
  || Ascii.eqb c "010"%char || Ascii.eqb c "013"%char.

Fixpoint skip_space (s : list ascii) : list ascii :=
  match s with
  | c :: r => if json_space c then skip_space r else s
  | [] => []
  end.

(** The characters up to the closing quote, and what follows it. *)
Fixpoint string_body (s : list ascii) : option (string * list ascii) :=
  match s with
  | [] => None
  | c :: r =>
      if Ascii.eqb c dquote then Some (EmptyString, r)
      else if Ascii.eqb c "\"%char then None
      else match string_body r with
           | Some (t, r') => Some (String c t, r')
           | None => None
           end
  end.

Definition digit (c : ascii) : option Z :=
  let n := nat_of_ascii c in
  if ((48 <=? n) && (n <=? 57))%nat then Some (Z.of_nat (n - 48)) else None.

Fixpoint digits (acc : Z) (s : list ascii) : Z * list ascii :=
  match s with
  | c :: r => match digit c with
              | Some d => digits (10 * acc + d)%Z r
              | None => (acc, s)
              end
  | [] => (acc, [])
  end.

Fixpoint after_prefix (p s : list ascii) : option (list ascii) :=
  match p, s with
  | [], _ => Some s
  | a :: p', b :: s' => if Ascii.eqb a b then after_prefix p' s' else None
  | _ :: _, [] => None
  end.

(** A member in front of the members already decoded: a name met again
    keeps its first place and takes its last value. *)
Definition add_member (k : string) (v : value) (rest : dict) : dict :=
  match dict_get rest k with
  | Some v' => (PStr k, v') :: dict_remove rest k
  | None => (PStr k, v) :: rest
  end.

Fixpoint decode_value (fuel : nat) (s : list ascii) {struct fuel}
  : option (value * list ascii) :=
  match fuel with
  | O => None
  | S n =>
      match skip_space s with
      | [] => None
      | c :: r =>
          if Ascii.eqb c "{"%char then
            match skip_space r with
            | c' :: r' =>
                if Ascii.eqb c' "}"%char then Some (PDict [], r')
                else match decode_members n r with
                     | Some (m, r'') => Some (PDict m, r'')
                     | None => None
                     end
            | [] => None
            end
          else if Ascii.eqb c "["%char then
            match skip_space r with
            | c' :: r' =>
                if Ascii.eqb c' "]"%char then Some (PList [], r')
                else match decode_items n r with
                     | Some (l, r'') => Some (PList l, r'')
                     | None => None
                     end
            | [] => None
            end
          else if Ascii.eqb c dquote then
            match string_body r with
            | Some (t, r') => Some (PStr t, r')
            | None => None
            end
          else if Ascii.eqb c "-"%char then
            match r with
            | d :: _ => match digit d with
                        | Some _ => let zr := digits 0 r in Some (PInt (- fst zr), snd zr)
                        | None => None
                        end
            | [] => None
            end
          else
            match digit c with
            | Some _ => let zr := digits 0 (c :: r) in Some (PInt (fst zr), snd zr)
            | None =>
                match after_prefix (list_ascii_of_string "true") (c :: r) with
                | Some r' => Some (PBool true, r')
                | None =>
                    match after_prefix (list_ascii_of_string "false") (c :: r) with
                    | Some r' => Some (PBool false, r')
                    | None =>
                        match after_prefix (list_ascii_of_string "null") (c :: r) with
                        | Some r' => Some (PNone, r')
                        | None => None
                        end
                    end
                end
            end
      end
  end

with decode_items (fuel : nat) (s : list ascii) {struct fuel}
  : option (list value * list ascii) :=
  match fuel with
  | O => None
  | S n =>
      match decode_value n s with
      | Some (v, r) =>
          match skip_space r with
          | c :: r' =>
              if Ascii.eqb c ","%char then
                match decode_items n r' with
                | Some (l, r'') => Some (v :: l, r'')
                | None => None
                end
              else if Ascii.eqb c "]"%char then Some ([v], r')
              else None
          | [] => None
          end
      | None => None
      end
  end

with decode_members (fuel : nat) (s : list ascii) {struct fuel}
  : option (dict * list ascii) :=
  match fuel with
  | O => None
  | S n =>
      match skip_space s with
      | c :: r =>
          if Ascii.eqb c dquote then
            match string_body r with
            | Some (k, r1) =>
                match skip_space r1 with
                | c1 :: r2 =>
                    if Ascii.eqb c1 ":"%char then
                      match decode_value n r2 with
                      | Some (v, r3) =>
                          match skip_space r3 with
                          | c3 :: r4 =>
                              if Ascii.eqb c3 ","%char then
                                match decode_members n r4 with
                                | Some (m, r5) => Some (add_member k v m, r5)
                                | None => None
                                end
                              else if Ascii.eqb c3 "}"%char then Some ([(PStr k, v)], r4)
                              else None
                          | [] => None
                          end
                      | None => None
                      end
                    else None
                | [] => None
                end
            | None => None
            end
          else None
      | [] => None
      end
  end.

Definition loads (s : string) : exn + value :=
  let cs := list_ascii_of_string s in
  match decode_value (2 * List.length cs + 2) cs with
  | Some (v, r) =>
      match skip_space r with
      | [] => inr v
      | _ => inl (JSONDecodeError "Extra data")
      end
  | None => inl (JSONDecodeError "Expecting value")
  end.

(** The texts of the messages are short stand-ins. *)
Definition str (v : value) : string :=
  match v with
  | PNone => "None"
  | PBool true => "True"
  | PBool false => "False"
  | _ => "..."
  end.

Definition message (e : exn) : string :=
  match e with
  | JSONDecodeError msg => msg
  | LibraryError msg => msg
  | NoAttribute _ attr => "no attribute " ++ attr
  | _ => "wrong type"
  end.

(** Keys that are not strings: None, booleans and integers, by value. *)
Definition number (v : value) : option Z :=
  match v with
  | PBool b => Some (if b then 1%Z else 0%Z)
  | PInt n => Some n
  | _ => None
  end.

Definition same_key (a b : value) : bool :=
  match number a, number b with
  | Some x, Some y => Z.eqb x y
  | _, _ => match a, b with PNone, PNone => true | _, _ => false end
  end.

Definition lib : PyLib := mkPyLib loads str message message same_key.

Fixpoint lookup {A} (k : string) (l : list (string * A)) : option A :=
  match l with
  | [] => None
  | (k', a) :: r => if String.eqb k k' then Some a else lookup k r
  end.

(** An environment given by its text files, its image files, the outcome of
    each call of the model library, and the text on standard input. The
    clock ticks once per reading. *)
Definition world (files : list (string * string))
                 (images : list (string * Image))
                 (loads_ok : nat -> bool)
                 (answers : nat -> exn + value)
                 (input : string) : Env :=
  mkEnv None
        (fun p => match lookup p files, lookup p images with
                  | None, None => false
                  | _, _ => true
                  end)
        (fun fd => inr (Z.leb 0 fd && Z.leb fd 2))
        (fun p => match lookup p files with
                  | Some text => inr text
                  | None => inl (LibraryError "Is a directory")
                  end)
        (inr input)
        (fun p => match lookup p images with
                  | Some img => inr img
                  | None => inl (LibraryError "cannot identify image file")
                  end)
        (fun n _ _ => if loads_ok n then inr (mkModel n)
                      else inl (LibraryError "connection error"))
        (fun n _ _ _ => answers n)
        (fun n => PrimFloat.of_uint63 (Uint63.of_Z (Z.of_nat n))).

(** A model answer. *)
Definition answer (text : string) : exn + value :=
  inr (PDict (obj [("answer", PStr text)])).

(** A service as [__init__] leaves it without a configuration file, and
    the process that holds it before anything else has happened. *)
Definition fresh : Service := mkService default_config None PNone false.
Definition start : Proc := mkProc fresh PNone [].

Definition cat : Image := mkImage 0 (640, 480)%Z.

(** Tag responses: an object inside some prose, an object whose [tags] is
    null, a plain list, and a plain list of sixteen tags. *)
Definition prose_response : string :=
  "Here it is: {" ++ q "tags" ++ ": [" ++ q "cat" ++ ", " ++ q "sofa" ++ "], "
  ++ q "scene" ++ ": " ++ q "indoor" ++ "} I hope it helps.".

Definition null_tags_response : string :=
  "{" ++ q "tags" ++ ": null, " ++ q "objects" ++ ": [" ++ q "cat" ++ "]}".

Definition plain_response : string := "cat, sofa , ,indoor".

Definition sixteen_tags_response : string := "a,b,c,d,e,f,g,h,i,j,k,l,m,n,o,p".

(** A machine with one image, [cat.png], and one file that is not an image;
    the model loads, captions the image and gives [tag_answer] for tags. *)
Definition home (tag_answer : string) : Env :=
  world [("notes.txt", "hello")] [("cat.png", cat)] (fun _ => true)
        (fun n => if Nat.eqb n 0 then answer "A cat on a sofa. " else answer tag_answer)
        "".

(** A machine on which the first load of the model fails and the next
    one succeeds. *)
Definition flaky : Env :=
  world [] [("cat.png", cat)] (fun n => Nat.eqb n 1) (fun _ => answer "") "".

(** A machine with a configuration file and a truncated one. *)
Definition settings_text : string :=
  "{" ++ q "timeout" ++ ": 5, " ++ q "model" ++ ": {" ++ q "name" ++ ": " ++ q "tiny" ++ "}}".

Definition broken_text : string := "{" ++ q "timeout".

Definition configured : Env :=
  world [("settings.json", settings_text); ("broken.json", broken_text)] []
        (fun _ => false) (fun _ => answer "") "".

(** A machine whose standard input holds [input]. *)
Definition asking (input : string) : Env :=
  world [] [("cat.png", cat)] (fun _ => true) (fun _ => answer "") input.

Definition unknown_request : string :=
  "{" ++ q "action" ++ ": " ++ q "frobnicate" ++ "}".

Definition long_settings : value :=
  PDict (obj [("length", PStr "long"); ("maxTokens", PInt 100)]).

(** A library whose [json.loads] raises the [ValueError] of Python on a
    text that holds an integer of more than 4300 digits, and a tag response
    that holds one of 4301. *)
Definition digit_limit : string :=
  "Exceeds the limit (4300 digits) for integer string conversion: "
  ++ "value has 4301 digits; use sys.set_int_max_str_digits() to increase the limit".

Fixpoint long_number (left : nat) (s : string) : bool :=
  match s with
  | EmptyString => false
  | String c r =>
      if ((48 <=? nat_of_ascii c) && (nat_of_ascii c <=? 57))%nat then
        match left with
        | O => true
        | S k => long_number k r
        end
      else long_number 4300 r
  end.

Definition strict : PyLib :=
  mkPyLib (fun text => if long_number 4300 text then inl (LibraryError digit_limit)
                       else json_loads lib text)
          (py_str lib) (exn_str lib) (format_exc lib) (key_eqb lib).

Fixpoint ones (n : nat) : string :=
  match n with
  | O => EmptyString
  | S k => String "1"%char (ones k)
  end.

Definition huge_tags_response : string :=
  "{" ++ q "tags" ++ ": " ++ ones 4301 ++ "}".

(** A configuration file that holds a list: one pair, then a number. *)
Definition pairs_text : string := "[[" ++ q "timeout" ++ ", 5], 7]".

Definition listed : Env :=
  world [("pairs.json", pairs_text)] [] (fun _ => true) (fun _ => answer "") "".

End Example.

(** ** Notions for the further properties *)

(** Whether a character occurs in a string. *)
Fixpoint mentions (c : ascii) (s : string) : bool :=
  match s with
  | EmptyString => false
  | String c' r => Ascii.eqb c c' || mentions c r
  end.

Definition is_stdout (e : Event) : bool :=
  match e with EvStdout _ _ => true | _ => false end.

(** A computation that only adds events to the trace, at most [n] of them
    of the kind [p], whatever it returns or raises. *)
Definition adds_at_most {A : Type} (p : Event -> bool) (n : nat) (m : M Proc A) : Prop :=
  forall (P P' : Proc) (r : exn + A),
    m P = (r, P') ->
    exists new : list Event, trace P' = new ++ trace P /\ count p new <= n.

(** A service is sound when its flag, once set, comes with a model handle,
    and its device is still the [None] of [__init__]. *)
Definition sound (s : Service) : Prop :=
  (_model_loaded s = true -> exists m : Model, model s = Some m) /\
  device s = PNone.

(** A computation that leaves a sound service sound. *)
Definition stays_sound {A : Type} (m : M Proc A) : Prop :=
  forall (P P' : Proc) (r : exn + A),
    m P = (r, P') -> sound (self P) -> sound (self P').

(** A computation that leaves the service object as it is. *)
Definition keeps_self {A : Type} (m : M Proc A) : Prop :=
  forall (P P' : Proc) (r : exn + A), m P = (r, P') -> self P' = self P.

(** The JSON array [[k, v]], one element of a configuration file that
    holds a list of pairs. *)
Definition pair_item (kv : string * value) : value := PList [PStr (fst kv); snd kv].


(** * Properties *)

Section Properties.

Variable py : PyLib.
Variable env : Env.

Ltac run :=
  unfold bind, ret, lift, raise, emit, emit_t, get_self, set_self,
    get_caller_settings, set_caller_settings, try_except, try_except_json,
    print_json, with_service; simpl.

Lemma bind_inv {S A B : Type} (m : M S A) (k : A -> M S B) (s s' : S) (r : exn + B) :
  bind m k s = (r, s') ->
  (exists e, m s = (inl e, s') /\ r = inl e) \/
  (exists a s1, m s = (inr a, s1) /\ k a s1 = (r, s')).
Proof.
  unfold bind. destruct (m s) as [[e|a] s1]; intros H.
  - left. exists e. inversion H; subst. split; reflexivity.
  - right. exists a, s1. split; [reflexivity | exact H].
Qed.

Lemma bind_inr_inv {S A B : Type} (m : M S A) (k : A -> M S B) (s s' : S) (b : B) :
  bind m k s = (inr b, s') ->
  exists a s1, m s = (inr a, s1) /\ k a s1 = (inr b, s').
Proof.
  intros H. destruct (bind_inv m k s s' (inr b) H) as [(e & _ & He) | H'].
  - discriminate.
  - exact H'.
Qed.

Lemma lift_inv {S A : Type} (x : exn + A) (s s' : S) (r : exn + A) :
  lift x s = (r, s') -> r = x /\ s' = s.
Proof. unfold lift. intros H. inversion H. split; reflexivity. Qed.

Ltac inv_bind H :=
  let a := fresh "a" in
  let Q := fresh "Q" in
  let H1 := fresh "Hstep" in
  apply bind_inr_inv in H; destruct H as (a & Q & H1 & H).

(** ** Dictionaries *)

Lemma dict_get_set_str (d : dict) (k x : string) (v : value) :
  dict_get (dict_set py d (PStr x) v) k
  = if String.eqb k x then Some v else dict_get d k.
Proof.
  induction d as [|[k' v'] r IH]; simpl.
  - destruct (String.eqb k x); reflexivity.
  - destruct k'; simpl; try (rewrite IH; reflexivity).
    destruct (String.eqb x s) eqn:Exs; simpl.
    + apply String.eqb_eq in Exs; subst s.
      destruct (String.eqb k x); reflexivity.
    + rewrite IH. destruct (String.eqb k s) eqn:Eks; [|reflexivity].
      apply String.eqb_eq in Eks; subst s.
      rewrite String.eqb_sym in Exs. rewrite Exs. reflexivity.
Qed.



(** ** _load_model *)

Lemma load_model_loaded (P : Proc) :
  _model_loaded (self P) = true -> _load_model py env P = (inr true, P).
Proof.
  intros H. unfold _load_model. run. rewrite H. reflexivity.
Qed.

Lemma load_model_unloaded (P : Proc) :
  _model_loaded (self P) = false ->
  _load_model py env P =
    match load_args (config (self P)) with
    | inl e =>
        (inr false,
         mkProc (self P) (caller_settings P)
                (load_failure_log py e ++
                 EvLog INFO "Loading Moondream2 model..." [] :: trace P))
    | inr (repo, trust) =>
        match from_pretrained env (count is_load (trace P)) repo trust with
        | inr m =>
            (inr true,
             mkProc (mkService (config (self P)) (Some m) (device (self P)) true)
                    (caller_settings P)
                    (EvLog INFO "Model loaded successfully" [] ::
                     EvFromPretrained repo trust ::
                     EvLog INFO "Loading Moondream2 model..." [] :: trace P))
        | inl e =>
            (inr false,
             mkProc (self P) (caller_settings P)
                    (load_failure_log py e ++
                     EvFromPretrained repo trust ::
                     EvLog INFO "Loading Moondream2 model..." [] :: trace P))
        end
    end.
Proof.
  intros H. unfold _load_model, load_args, call_from_pretrained. run. rewrite H.
  destruct (py_get _ "repository" _) as [e|repo]; [reflexivity|].
  destruct (py_get _ "trustRemoteCode" _) as [e|trust]; [reflexivity|].
  unfold count; simpl.
  destruct (from_pretrained env _ repo trust) as [e|m]; reflexivity.
Qed.

Lemma load_model_never_raises (P P' : Proc) (e : exn) :
  _load_model py env P = (inl e, P') -> False.
Proof.
  destruct (_model_loaded (self P)) eqn:Hl.
  - rewrite (load_model_loaded P Hl). discriminate.
  - rewrite (load_model_unloaded P Hl).
    destruct (load_args (config (self P))) as [e'|[repo trust]]; [discriminate|].
    destruct (from_pretrained env _ repo trust); discriminate.
Qed.


(** ** analyze_image *)

Lemma analyze_image_unfold (image_path custom : value) (P : Proc) :
  analyze_image py env image_path custom P =
    match analyze_body py env image_path (started env P) (entered custom P) with
    | (inr result, P1) => (inr result, P1)
    | (inl e, P1) => analyze_handler py env (started env P) e P1
    end.
Proof. reflexivity. Qed.

Lemma analyze_handler_unfold (start : float) (e : exn) (P1 : Proc) :
  analyze_handler py env start e P1 =
    (inr (obj [ ("error", PStr (exn_str py e));
                ("status", PStr "analysis_error");
                ("processing_time",
                 PFloat (PrimFloat.sub (clock env (count is_time (trace P1))) start)) ]),
     mkProc (self P1) (caller_settings P1)
            (EvTime :: EvLog ERROR "Error analyzing image: {}" [PStr (exn_str py e)]
                    :: trace P1)).
Proof. reflexivity. Qed.

(** C7: [analyze_image] never raises. Whatever exception the body of its try
    raises, the call returns the record of an [analysis_error] that carries
    the text of the exception and, as [processing_time], the reading of the
    clock in the handler minus the reading taken when the call started. *)
Theorem analyze_image_never_raises (image_path custom : value) (P : Proc) :
  exists (result : dict) (P' : Proc),
    analyze_image py env image_path custom P = (inr result, P') /\
    forall (e : exn) (P1 : Proc),
      analyze_body py env image_path (started env P) (entered custom P) = (inl e, P1) ->
      result = obj [ ("error", PStr (exn_str py e));
                     ("status", PStr "analysis_error");
                     ("processing_time",
                      PFloat (PrimFloat.sub (clock env (count is_time (trace P1)))
                                            (clock env (count is_time (trace P))))) ].
Proof.
  rewrite analyze_image_unfold.
  destruct (analyze_body py env image_path (started env P) (entered custom P))
    as [[e|result] P1].
  - rewrite analyze_handler_unfold. eexists _, _. split; [reflexivity|].
    intros e' P1' H. inversion H; subst. reflexivity.
  - exists result, P1. split; [reflexivity|]. intros e' P1' H. discriminate.
Qed.

(** C3: when the image path does not exist, [analyze_image] returns the
    record of a [file_error]; the service object is left as it was (model
    handle and loaded flag included) and the model library is not called:
    the call only reads the clock. *)
Theorem missing_image_is_file_error (image_path custom : value) (P : Proc) :
  os_path_exists env image_path = inr false ->
  exists (result : dict) (P' : Proc),
    analyze_image py env image_path custom P = (inr result, P') /\
    dict_get result "status" = Some (PStr "file_error") /\
    self P' = self P /\
    model (self P') = model (self P) /\
    _model_loaded (self P') = _model_loaded (self P) /\
    trace P' = EvTime :: trace P /\
    filter is_load (trace P') = filter is_load (trace P).
Proof.
  intros H. rewrite analyze_image_unfold.
  unfold analyze_body, analyze_queries. run. rewrite H. simpl.
  eexists _, _. split; [reflexivity|]. simpl. repeat split; reflexivity.
Qed.

Lemma substring_length_le (n : nat) (s : string) :
  String.length (substring 0 n s) <= n.
Proof.
  revert s. induction n as [|n IH]; intros [|c s]; simpl; try lia.
  specialize (IH s). lia.
Qed.

Lemma slice15_bound (v w : value) :
  slice15 v = inr w ->
  (exists l, w = PList l /\ List.length l <= 15) \/
  (exists s, w = PStr s /\ String.length s <= 15).
Proof.
  destruct v; try discriminate; intros H.
  - right. exists (substring 0 15 s). split; [|apply substring_length_le].
    change (inr (PStr (substring 0 15 s)) = inr (A:=exn) w) in H. congruence.
  - left. exists (firstn 15 l). split; [|apply firstn_le_length].
    change (inr (PList (firstn 15 l)) = inr (A:=exn) w) in H. congruence.
Qed.

Lemma analyze_queries_returned (image_path : value) (P0 P1 : Proc) (d : dict) :
  analyze_queries py env image_path P0 = (inr (Returned d), P1) ->
  dict_get d "status" = Some (PStr "file_error") \/
  dict_get d "status" = Some (PStr "model_error").
Proof.
  unfold analyze_queries. intros H.
  inv_bind H. destruct a.
  - simpl in H. inv_bind H. inv_bind H. inv_bind H. destruct a1; simpl in H.
    + repeat inv_bind H. inversion H.
    + inversion H; subst. right. reflexivity.
  - simpl in H. inversion H; subst. left. reflexivity.
Qed.

Lemma analyze_result_tags (image_path : value) (start : float) (image : Image)
    (caption tags_response : string) (P1 P' : Proc) (result : dict) :
  analyze_result py env image_path start image caption tags_response P1
  = (inr result, P') ->
  exists data first_tags,
    slice15 (tags data) = inr first_tags /\
    dict_get result "status" = Some (PStr "success") /\
    dict_get result "tags" = Some first_tags /\
    dict_get result "analysis"
    = Some (PDict (obj [ ("objects", objects data); ("scene", scene data);
                         ("colors", colors data); ("actions", actions data) ])).
Proof.
  unfold analyze_result. intros H.
  inv_bind H. inv_bind H. inv_bind H. inv_bind H. inv_bind H. inv_bind H.
  apply lift_inv in Hstep1. destruct Hstep1 as [Hs _].
  unfold ret in H. injection H as <- _.
  exists a, a1. split; [symmetry; exact Hs|]. repeat split; reflexivity.
Qed.

(** C5: in a result of [analyze_image] whose status is [success], the entry
    [tags] has a length, and it is at most 15. The entry is the slice
    [tags[:15]]: a list of at most 15 tags, or, when the model gave a string
    under [tags], a string of at most 15 characters. *)
Theorem success_has_at_most_15_tags
    (image_path custom : value) (P P' : Proc) (result : dict) :
  analyze_image py env image_path custom P = (inr result, P') ->
  dict_get result "status" = Some (PStr "success") ->
  exists (v : value) (n : nat),
    dict_get result "tags" = Some v /\
    py_len v = Some n /\ n <= 15 /\
    ((exists l, v = PList l) \/ (exists s, v = PStr s)).
Proof.
  intros H Hs. rewrite analyze_image_unfold in H.
  destruct (analyze_body py env image_path (started env P) (entered custom P))
    as [[e|d] P1] eqn:Hb.
  - rewrite analyze_handler_unfold in H. injection H as <- _. discriminate.
  - injection H as -> ->. unfold analyze_body in Hb. inv_bind Hb.
    destruct a as [d|image caption tags_response].
    + unfold ret in Hb. injection Hb as -> _.
      destruct (analyze_queries_returned _ _ _ _ Hstep) as [E|E];
        rewrite E in Hs; discriminate.
    + destruct (analyze_result_tags _ _ _ _ _ _ _ _ Hb)
        as (data & first_tags & Hsl & _ & Ht & _).
      destruct (slice15_bound _ _ Hsl) as [(l & -> & Hn) | (s & -> & Hn)].
      * exists (PList l), (List.length l). repeat split; try assumption.
        left. exists l. reflexivity.
      * exists (PStr s), (String.length s). repeat split; try assumption.
        right. exists s. reflexivity.
Qed.

(** ** What [analyze_image] does to the settings *)

Lemma keeps_ret {A : Type} (a : A) : keeps_settings (ret a).
Proof. intros P P' r H. inversion H; subst. repeat split; auto. Qed.

Lemma keeps_raise {A : Type} (e : exn) : keeps_settings (raise (A:=A) e).
Proof. intros P P' r H. inversion H; subst. repeat split; auto. Qed.

Lemma keeps_lift {A : Type} (x : exn + A) : keeps_settings (lift x).
Proof. intros P P' r H. inversion H; subst. repeat split; auto. Qed.

Lemma keeps_emit (e : Event) : keeps_settings (emit e).
Proof. intros P P' r H. inversion H; subst. repeat split; auto. Qed.

Lemma keeps_get_self : keeps_settings get_self.
Proof. intros P P' r H. inversion H; subst. repeat split; auto. Qed.

Lemma keeps_time_time : keeps_settings (time_time env).
Proof. intros P P' r H. inversion H; subst. repeat split; auto. Qed.

Lemma keeps_query (image : Image) (prompt : string) :
  keeps_settings (query env image prompt).
Proof.
  intros P P' r H. unfold query in H.
  destruct (model (self P)); inversion H; subst; repeat split; auto.
Qed.

Lemma keeps_bind {A B : Type} (m : M Proc A) (k : A -> M Proc B) :
  keeps_settings m -> (forall a, keeps_settings (k a)) -> keeps_settings (bind m k).
Proof.
  intros Hm Hk P P' r H.
  destruct (bind_inv m k P P' r H) as [(e & H1 & _) | (a & Q & H1 & H2)].
  - exact (Hm _ _ _ H1).
  - destruct (Hm _ _ _ H1) as (E1 & E2 & E3).
    destruct (Hk a _ _ _ H2) as (E4 & E5 & E6).
    split; [congruence|]. split; [congruence | auto].
Qed.

Lemma keeps_try_except {A : Type} (m : M Proc A) (h : exn -> M Proc A) :
  keeps_settings m -> (forall e, keeps_settings (h e)) ->
  keeps_settings (try_except m h).
Proof.
  intros Hm Hh P P' r H. unfold try_except in H.
  destruct (m P) as [[e|a] Q] eqn:E.
  - destruct (Hm _ _ _ E) as (E1 & E2 & E3).
    destruct (Hh e _ _ _ H) as (E4 & E5 & E6).
    split; [congruence|]. split; [congruence | auto].
  - inversion H; subst. exact (Hm _ _ _ E).
Qed.

Lemma keeps_try_except_json {A : Type} (m h : M Proc A) :
  keeps_settings m -> keeps_settings h -> keeps_settings (try_except_json m h).
Proof.
  intros Hm Hh P P' r H. unfold try_except_json in H.
  destruct (m P) as [[e|a] Q] eqn:E.
  - destruct (Hm _ _ _ E) as (E1 & E2 & E3). destruct (is_JSONDecodeError e).
    + destruct (Hh _ _ _ H) as (E4 & E5 & E6).
      split; [congruence|]. split; [congruence | auto].
    + inversion H; subst. repeat split; assumption.
  - inversion H; subst. exact (Hm _ _ _ E).
Qed.

(** A load that succeeds has read its arguments from the entry [model]. *)
Lemma load_model_consistent (P P' : Proc) (r : exn + bool) :
  _load_model py env P = (r, P') ->
  consistent (self P) -> consistent (self P').
Proof.
  intros H Hc. destruct (_model_loaded (self P)) eqn:Hl.
  - rewrite (load_model_loaded P Hl) in H. injection H as _ <-. exact Hc.
  - rewrite (load_model_unloaded P Hl) in H. unfold load_args in H.
    destruct (dict_get_default (config (self P)) "model" (PDict [])) eqn:Em;
      simpl in H;
      try (injection H as _ <-; intros Hf; simpl in Hf; congruence).
    destruct (from_pretrained env _ _ _); injection H as _ <-.
    + intros Hf. simpl in Hf. congruence.
    + intros _. exists d. simpl. exact Em.
Qed.

Lemma keeps_load_model : keeps_settings (_load_model py env).
Proof.
  intros P P' r H. split; [|split; [|exact (load_model_consistent _ _ _ H)]];
    destruct (_model_loaded (self P)) eqn:Hl.
  - rewrite (load_model_loaded P Hl) in H. inversion H; subst. reflexivity.
  - rewrite (load_model_unloaded P Hl) in H.
    destruct (load_args (config (self P))) as [e|[repo trust]].
    + inversion H; subst. reflexivity.
    + destruct (from_pretrained env _ repo trust);
        inversion H; subst; reflexivity.
  - rewrite (load_model_loaded P Hl) in H. inversion H; subst. reflexivity.
  - rewrite (load_model_unloaded P Hl) in H.
    destruct (load_args (config (self P))) as [e|[repo trust]].
    + inversion H; subst. reflexivity.
    + destruct (from_pretrained env _ repo trust);
        inversion H; subst; reflexivity.
Qed.

Create HintDb keeps.

#[local] Hint Resolve keeps_ret keeps_raise keeps_lift keeps_emit keeps_get_self
  keeps_time_time keeps_query keeps_bind keeps_try_except keeps_try_except_json
  keeps_load_model : keeps.

Lemma keeps_parse_tags (tags_response : string) :
  keeps_settings (parse_tags py tags_response).
Proof.
  unfold parse_tags. apply keeps_try_except_json; [|auto with keeps].
  destruct (search_braces tags_response); auto 12 with keeps.
Qed.

Lemma keeps_analyze_result (image_path : value) (start : float) (image : Image)
    (caption tags_response : string) :
  keeps_settings (analyze_result py env image_path start image caption tags_response).
Proof.
  unfold analyze_result. pose proof keeps_parse_tags. auto 16 with keeps.
Qed.

Lemma keeps_analyze_handler (start : float) (e : exn) :
  keeps_settings (analyze_handler py env start e).
Proof. unfold analyze_handler. auto with keeps. Qed.

(** What the first part of the try does once the image is open: unless the
    load fails, it binds [settings] and pops [length] from it, and nothing
    after the pop touches the configuration or the caller's dictionary. *)
Lemma analyze_queries_settings (image_path : value) (image : Image)
    (P0 Q : Proc) (rq : exn + Progress) :
  analyze_queries py env image_path P0 = (rq, Q) ->
  os_path_exists env image_path = inr true ->
  Image_open env image_path = inr image ->
  (exists d, rq = inr (Returned d) /\
             dict_get d "status" = Some (PStr "model_error")) \/
  (exists (Pb Pc : Proc) (ref : SettingsRef) (popped : exn + value),
     _load_model py env (opened image_path image P0) = (inr true, Pb) /\
     bind_settings Pb = (inr ref, Pb) /\
     pop_length py ref Pb = (popped, Pc) /\
     config (self Q) = config (self Pc) /\
     caller_settings Q = caller_settings Pc).
Proof.
  intros Hrun Hex Hop. unfold analyze_queries in Hrun.
  unfold bind at 1 in Hrun. unfold lift at 1 in Hrun. rewrite Hex in Hrun.
  simpl negb in Hrun. cbv iota in Hrun.
  unfold bind at 1 in Hrun. unfold lift at 1 in Hrun. rewrite Hop in Hrun.
  unfold bind at 1 in Hrun. unfold emit at 1 in Hrun.
  apply bind_inv in Hrun.
  destruct Hrun as [(e & Hl & _) | (b & Pb & Hl & Hrun)].
  - destruct (load_model_never_raises _ _ _ Hl).
  - destruct b; simpl negb in Hrun; cbv iota in Hrun.
    + right. apply bind_inv in Hrun.
      destruct Hrun as [(e & Hb & _) | (ref & Pb' & Hb & Hrun)];
        [discriminate|].
      assert (Pb' = Pb) by (inversion Hb; reflexivity). subst Pb'.
      apply bind_inv in Hrun.
      destruct Hrun as [(e & Hp & _) | (len & Pc & Hp & Hrun)].
      * exists Pb, Q, ref, (inl e). repeat split; assumption.
      * exists Pb, Pc, ref, (inr len). split; [exact Hl|].
        split; [exact Hb|]. split; [exact Hp|].
        match type of Hrun with
        | ?m Pc = _ =>
            assert (K : keeps_settings m) by auto 20 with keeps;
            destruct (K _ _ _ Hrun) as (K1 & K2 & _); split; assumption
        end.
    + left. inversion Hrun; subst. eexists. split; reflexivity.
Qed.


Lemma load_model_flag (P P' : Proc) (b : bool) :
  _load_model py env P = (inr b, P') ->
  _model_loaded (self P') = b /\ device (self P') = device (self P).
Proof.
  intros H. destruct (_model_loaded (self P)) eqn:Hl.
  - rewrite (load_model_loaded P Hl) in H. inversion H; subst. split; [exact Hl | reflexivity].
  - rewrite (load_model_unloaded P Hl) in H.
    destruct (load_args (config (self P))) as [e|[repo trust]].
    + inversion H; subst. split; [exact Hl | reflexivity].
    + destruct (from_pretrained env _ repo trust);
        inversion H; subst; split; (exact Hl || reflexivity).
Qed.

(** [health_check] never raises; its record echoes the configuration and
    the device, and reports the flag that the load attempt leaves. *)
Lemma health_check_record (P : Proc) :
  exists (b : bool) (P' : Proc),
    _load_model py env P = (inr b, P') /\
    health_check py env P
    = (inr (obj [ ("status", PStr (if b then "healthy" else "not_healthy"));
                  ("model_loaded", PBool b);
                  ("device", device (self P));
                  ("config", PDict (config (self P))) ]), P').
Proof.
  unfold health_check. unfold bind at 1.
  destruct (_load_model py env P) as [[e|b] P'] eqn:Hl.
  - destruct (load_model_never_raises _ _ _ Hl).
  - destruct (load_model_flag _ _ _ Hl) as [Hf Hd].
    destruct (keeps_load_model _ _ _ Hl) as [Hc _].
    exists b, P'. split; [reflexivity|]. run.
    rewrite Hf, Hd, Hc. destruct b; reflexivity.
Qed.


(** ** The parse of the tag response *)

Lemma load_model_entry (P P' : Proc) :
  consistent (self P) ->
  _load_model py env P = (inr true, P') ->
  model_entry_ok (self P').
Proof.
  intros Hc H. destruct (_model_loaded (self P)) eqn:Hl.
  - rewrite (load_model_loaded P Hl) in H. injection H as <-. exact (Hc Hl).
  - rewrite (load_model_unloaded P Hl) in H. unfold load_args in H.
    unfold model_entry_ok.
    destruct (dict_get_default (config (self P)) "model" (PDict [])) eqn:Em;
      simpl in H; try discriminate.
    destruct (from_pretrained env _ _ _); [discriminate|].
    injection H as <-. simpl. rewrite Em. eexists. reflexivity.
Qed.

Lemma pop_length_model (ref : SettingsRef) (Pb Pc : Proc) (r : exn + value) :
  pop_length py ref Pb = (r, Pc) ->
  dict_get (config (self Pc)) "model" = dict_get (config (self Pb)) "model" /\
  _model_loaded (self Pc) = _model_loaded (self Pb).
Proof.
  unfold pop_length, bind, read_ref. cbv beta iota.
  destruct ref;
    try match goal with
        | |- context [match ?v with PNone => _ | _ => _ end] => destruct v
        end;
    unfold raise, write_ref, ret; cbv beta iota; intros H;
    injection H as _ <-; simpl; try (split; reflexivity).
  rewrite dict_get_set_str. split; reflexivity.
Qed.

Lemma parse_tags_none (resp : string) (P1 : Proc) :
  search_braces resp = None ->
  parse_tags py resp P1 = (inr (fallback_tags resp), P1).
Proof. intros H. unfold parse_tags, try_except_json. rewrite H. reflexivity. Qed.

Lemma parse_tags_decode_error (resp text msg : string) (P1 : Proc) :
  search_braces resp = Some text ->
  json_loads py text = inl (JSONDecodeError msg) ->
  parse_tags py resp P1
  = (inr (fallback_tags resp),
     mkProc (self P1) (caller_settings P1)
            (EvLog WARNING "Failed to parse tags JSON: {}" [PStr resp] :: trace P1)).
Proof.
  intros H H'. unfold parse_tags, try_except_json. rewrite H.
  unfold bind at 1. unfold lift at 1. rewrite H'. reflexivity.
Qed.

(** An exception of [json.loads] that is not a [json.JSONDecodeError] (the
    [ValueError] on an integer beyond the digit limit, a [RecursionError])
    passes the handler of line 174. *)
Lemma parse_tags_other_error (resp text : string) (e : exn) (P1 : Proc) :
  search_braces resp = Some text ->
  json_loads py text = inl e ->
  is_JSONDecodeError e = false ->
  parse_tags py resp P1 = (inl e, P1).
Proof.
  intros H H' He. unfold parse_tags, try_except_json. rewrite H.
  unfold bind at 1. unfold lift at 1. rewrite H'. rewrite He. reflexivity.
Qed.

Lemma parse_tags_object (resp text : string) (data : dict) (P1 : Proc) :
  search_braces resp = Some text ->
  json_loads py text = inr (PDict data) ->
  parse_tags py resp P1
  = (inr (mkTagData (dict_get_default data "tags" (PList []))
                    (dict_get_default data "objects" (PList []))
                    (dict_get_default data "scene" (PStr ""))
                    (dict_get_default data "colors" (PList []))
                    (dict_get_default data "actions" (PList []))), P1).
Proof.
  intros H H'. unfold parse_tags, try_except_json. rewrite H.
  unfold bind at 1. unfold lift at 1. rewrite H'. reflexivity.
Qed.

(** The rest of the call once the tag response is parsed. *)
Lemma analyze_result_after_parse (image_path : value) (start : float) (image : Image)
    (caption resp : string) (P1 Q : Proc) (data : TagData) (m : dict) :
  parse_tags py resp P1 = (inr data, Q) ->
  dict_get_default (config (self Q)) "model" (PDict []) = PDict m ->
  analyze_result py env image_path start image caption resp P1 =
    match slice15 (tags data) with
    | inl e => (inl e, mkProc (self Q) (caller_settings Q) (EvTime :: trace Q))
    | inr first_tags =>
        (inr (obj [ ("status", PStr "success");
                    ("caption", PStr caption);
                    ("tags", first_tags);
                    ("analysis", PDict (obj [ ("objects", objects data);
                                              ("scene", scene data);
                                              ("colors", colors data);
                                              ("actions", actions data) ]));
                    ("processing_time",
                     PFloat (PrimFloat.sub (clock env (count is_time (trace Q))) start));
                    ("image_path", image_path);
                    ("image_size", size_value image);
                    ("model_info",
                     PDict (obj [ ("name", dict_get_default m "name" PNone);
                                  ("repository", dict_get_default m "repository" PNone) ])) ]),
         mkProc (self Q) (caller_settings Q) (EvTime :: trace Q))
    end.
Proof.
  intros Hp Hm. unfold analyze_result. unfold bind at 1. rewrite Hp.
  unfold bind at 1. unfold time_time at 1. unfold bind at 1. unfold lift at 1.
  destruct (slice15 (tags data)) as [e|first_tags]; [reflexivity|].
  unfold bind at 1. unfold get_self at 1. cbv beta iota.
  cbn [self]. rewrite Hm. reflexivity.
Qed.

Lemma analyze_queries_answered (image_path : value) (image : Image)
    (caption resp : string) (P0 P1 : Proc) :
  analyze_queries py env image_path P0 = (inr (Answered image caption resp), P1) ->
  os_path_exists env image_path = inr true /\
  Image_open env image_path = inr image.
Proof.
  unfold analyze_queries. intros H. inv_bind H.
  apply lift_inv in Hstep. destruct Hstep as [Hex _].
  destruct a; simpl negb in H; cbv iota in H; [|discriminate].
  inv_bind H. apply lift_inv in Hstep. destruct Hstep as [Hop _].
  inv_bind H. inv_bind H. destruct a1; simpl negb in H; cbv iota in H; [|discriminate].
  repeat inv_bind H. unfold ret in H. injection H as <- _ _ _.
  split; symmetry; assumption.
Qed.

Lemma analyze_queries_entry (image_path : value) (image : Image)
    (caption resp : string) (P0 P1 : Proc) :
  consistent (self P0) ->
  analyze_queries py env image_path P0 = (inr (Answered image caption resp), P1) ->
  model_entry_ok (self P1).
Proof.
  intros Hc H. destruct (analyze_queries_answered _ _ _ _ _ _ H) as [Hex Hop].
  destruct (analyze_queries_settings _ _ _ _ _ H Hex Hop)
    as [(d & Hd & _) | (Pb & Pc & ref & popped & Hl & _ & Hp & Ec & _)];
    [discriminate|].
  destruct (load_model_entry (opened image_path image P0) _ Hc Hl) as [m Hm].
  destruct (pop_length_model _ _ _ _ Hp) as [Hpm _].
  exists m. unfold dict_get_default in *. rewrite Ec, Hpm. exact Hm.
Qed.

(** ** The invariant of the service

    [__init__] makes a consistent service and the methods keep it so: on a
    service that the program has made and used, the hypothesis of
    consistency below always holds. *)

Lemma init_consistent (config_path : option string) (t t' : Trace) (s : Service) :
  __init__ py env config_path t = (inr s, t') -> consistent s.
Proof.
  unfold __init__, bind.
  destruct (_load_config py env config_path t) as [[e|cfg] t1]; [discriminate|].
  unfold ret. intros H. injection H as <- _. intros Hf. discriminate.
Qed.

Lemma stays_of_keeps {A : Type} (m : M Proc A) :
  keeps_settings m -> stays_consistent m.
Proof. intros Hk P P' r H. exact (proj2 (proj2 (Hk _ _ _ H))). Qed.

Lemma stays_bind {A B : Type} (m : M Proc A) (k : A -> M Proc B) :
  stays_consistent m -> (forall a, stays_consistent (k a)) ->
  stays_consistent (bind m k).
Proof.
  intros Hm Hk P P' r H Hc.
  destruct (bind_inv m k P P' r H) as [(e & H1 & _) | (a & Q & H1 & H2)].
  - exact (Hm _ _ _ H1 Hc).
  - exact (Hk a _ _ _ H2 (Hm _ _ _ H1 Hc)).
Qed.

Lemma stays_try_except {A : Type} (m : M Proc A) (h : exn -> M Proc A) :
  stays_consistent m -> (forall e, stays_consistent (h e)) ->
  stays_consistent (try_except m h).
Proof.
  intros Hm Hh P P' r H Hc. unfold try_except in H.
  destruct (m P) as [[e|a] Q] eqn:E.
  - exact (Hh e _ _ _ H (Hm _ _ _ E Hc)).
  - injection H as _ <-. exact (Hm _ _ _ E Hc).
Qed.

Lemma stays_set_caller_settings (v : value) :
  stays_consistent (set_caller_settings v).
Proof. intros P P' r H Hc. injection H as _ <-. exact Hc. Qed.

Lemma stays_bind_settings : stays_consistent bind_settings.
Proof. intros P P' r H Hc. injection H as _ <-. exact Hc. Qed.

Lemma stays_pop_length (ref : SettingsRef) : stays_consistent (pop_length py ref).
Proof.
  intros P P' r H Hc Hf.
  destruct (pop_length_model _ _ _ _ H) as [Hm Hl]. rewrite Hl in Hf.
  destruct (Hc Hf) as [m Em]. exists m.
  unfold dict_get_default in *. rewrite Hm. exact Em.
Qed.

#[local] Hint Resolve stays_of_keeps stays_bind stays_try_except
  stays_set_caller_settings stays_bind_settings stays_pop_length : keeps.

Lemma stays_analyze_queries (image_path : value) :
  stays_consistent (analyze_queries py env image_path).
Proof.
  unfold analyze_queries.
  apply stays_bind; [auto with keeps|]. intros found.
  destruct found; simpl negb; cbv iota; [|auto with keeps].
  apply stays_bind; [auto with keeps|]. intros image.
  apply stays_bind; [auto with keeps|]. intros _.
  apply stays_bind; [auto with keeps|]. intros loaded.
  destruct loaded; simpl negb; cbv iota; [|auto with keeps].
  apply stays_bind; [auto with keeps|]. intros ref.
  apply stays_bind; [auto with keeps|]. intros _.
  apply stays_of_keeps. auto 20 with keeps.
Qed.

Lemma stays_analyze_image (image_path custom : value) :
  stays_consistent (analyze_image py env image_path custom).
Proof.
  unfold analyze_image, analyze_body.
  pose proof keeps_analyze_result. pose proof keeps_analyze_handler.
  pose proof stays_analyze_queries.
  apply stays_bind; [auto with keeps|]. intros _.
  apply stays_bind; [auto with keeps|]. intros start_time.
  apply stays_try_except; [|auto with keeps].
  apply stays_bind; [auto with keeps|]. intros [d|image caption resp];
    auto with keeps.
Qed.

Lemma stays_health_check : stays_consistent (health_check py env).
Proof.
  unfold health_check. apply stays_of_keeps.
  apply keeps_bind; [auto with keeps|]. intros loaded.
  apply keeps_bind; [auto with keeps|]. intros s.
  destruct loaded; simpl negb; cbv iota; auto with keeps.
Qed.

(** The call in terms of its second part, once the queries are answered. *)
Lemma analyze_image_answered (image_path custom : value) (image : Image)
    (caption resp : string) (P P1 : Proc) :
  analyze_queries py env image_path (entered custom P)
  = (inr (Answered image caption resp), P1) ->
  analyze_image py env image_path custom P
  = match analyze_result py env image_path (started env P) image caption resp P1 with
    | (inr result, P2) => (inr result, P2)
    | (inl e, P2) => analyze_handler py env (started env P) e P2
    end.
Proof.
  intros Hq. rewrite analyze_image_unfold. unfold analyze_body. unfold bind at 1.
  rewrite Hq. reflexivity.
Qed.

(** An object whose [tags] cannot be sliced (null, a number, a boolean, an
    object): the slice raises inside the try and the call ends as an
    [analysis_error], with none of the fields of a success. *)
Lemma unsliceable_tags_is_analysis_error
    (image_path custom : value) (image : Image) (caption resp text : string)
    (data : dict) (e : exn) (P P1 : Proc) :
  consistent (self P) ->
  analyze_queries py env image_path (entered custom P)
  = (inr (Answered image caption resp), P1) ->
  search_braces resp = Some text ->
  json_loads py text = inr (PDict data) ->
  slice15 (dict_get_default data "tags" (PList [])) = inl e ->
  exists (result : dict) (P' : Proc),
    analyze_image py env image_path custom P = (inr result, P') /\
    dict_get result "status" = Some (PStr "analysis_error") /\
    dict_get result "tags" = None /\
    dict_get result "analysis" = None.
Proof.
  intros Hc Hq Hs Hj Hsl.
  destruct (analyze_queries_entry _ _ _ _ (entered custom P) _ Hc Hq) as [m Hm].
  rewrite (analyze_image_answered _ _ _ _ _ _ _ Hq).
  rewrite (analyze_result_after_parse _ _ _ _ _ _ _ _ m
             (parse_tags_object _ _ _ P1 Hs Hj) Hm).
  cbn [tags]. rewrite Hsl. rewrite analyze_handler_unfold.
  eexists _, _. split; [reflexivity|]. repeat split; reflexivity.
Qed.

(** C4 (as amended): what the tag response becomes in the result. Take a
    call of [analyze_image] on a consistent service that gets as far as the
    tag response [resp].
    - If the text from the first opening brace of [resp] to its last closing
      brace decodes to an object whose [tags] entry (a list when absent) is
      a list or a string, then the call succeeds; [tags] is the first 15
      items of that entry, and [objects], [scene], [colors] and [actions]
      are the entries of the object, or the empty list (the empty string for
      [scene]) where the object has none.
    - If [resp] holds no such text, or [json.loads] rejects the text with
      a [json.JSONDecodeError], then the call succeeds; [tags] is the first
      15 of the comma separated segments of [resp], stripped, without the
      empty ones, and the four other fields are empty.
    - If [json.loads] raises any other exception on the text (the
      [ValueError] on an integer beyond the digit limit, a
      [RecursionError]), the handler of line 174 does not catch it: the call
      ends as an [analysis_error] that carries the text of the exception,
      without [tags] and without the four fields. *)
Theorem tag_response_parse
    (image_path custom : value) (image : Image) (caption resp : string)
    (P P1 : Proc) :
  consistent (self P) ->
  analyze_queries py env image_path (entered custom P)
  = (inr (Answered image caption resp), P1) ->
  (forall (text : string) (data : dict) (first_tags : value),
     search_braces resp = Some text ->
     json_loads py text = inr (PDict data) ->
     slice15 (dict_get_default data "tags" (PList [])) = inr first_tags ->
     exists (result : dict) (P' : Proc),
       analyze_image py env image_path custom P = (inr result, P') /\
       dict_get result "status" = Some (PStr "success") /\
       dict_get result "tags" = Some first_tags /\
       dict_get result "analysis"
       = Some (PDict (obj [ ("objects", dict_get_default data "objects" (PList []));
                            ("scene", dict_get_default data "scene" (PStr ""));
                            ("colors", dict_get_default data "colors" (PList []));
                            ("actions", dict_get_default data "actions" (PList [])) ]))) /\
  (search_braces resp = None \/
   (exists text msg, search_braces resp = Some text /\
                     json_loads py text = inl (JSONDecodeError msg)) ->
   exists (result : dict) (P' : Proc),
     analyze_image py env image_path custom P = (inr result, P') /\
     dict_get result "status" = Some (PStr "success") /\
     dict_get result "tags" = Some (PList (map PStr (firstn 15 (comma_tags resp)))) /\
     dict_get result "analysis"
     = Some (PDict (obj [ ("objects", PList []); ("scene", PStr "");
                          ("colors", PList []); ("actions", PList []) ]))) /\
  (forall (text : string) (e : exn),
     search_braces resp = Some text ->
     json_loads py text = inl e ->
     is_JSONDecodeError e = false ->
     exists (result : dict) (P' : Proc),
       analyze_image py env image_path custom P = (inr result, P') /\
       dict_get result "status" = Some (PStr "analysis_error") /\
       dict_get result "error" = Some (PStr (exn_str py e)) /\
       dict_get result "tags" = None /\
       dict_get result "analysis" = None).
Proof.
  intros Hc Hq.
  destruct (analyze_queries_entry _ _ _ _ (entered custom P) _ Hc Hq) as [m Hm].
  rewrite (analyze_image_answered _ _ _ _ _ _ _ Hq).
  split; [|split].
  3:{ intros text e Hs Hj He. unfold analyze_result. unfold bind at 1.
      rewrite (parse_tags_other_error _ _ _ P1 Hs Hj He).
      rewrite analyze_handler_unfold.
      eexists _, _. split; [reflexivity|]. repeat split; reflexivity. }
  - intros text data first_tags Hs Hj Hsl.
    rewrite (analyze_result_after_parse _ _ _ _ _ _ _ _ m
               (parse_tags_object _ _ _ P1 Hs Hj) Hm).
    cbn [tags]. rewrite Hsl. eexists _, _. split; [reflexivity|].
    repeat split; reflexivity.
  - intros [Hs | (text & msg & Hs & Hj)].
    + rewrite (analyze_result_after_parse _ _ _ _ _ _ _ _ m
                 (parse_tags_none _ P1 Hs) Hm).
      unfold fallback_tags. cbn [tags objects scene colors actions slice15].
      eexists _, _. split; [reflexivity|].
      split; [reflexivity|]. split; [|reflexivity].
      cbn [dict_get obj map fst snd String.eqb Ascii.eqb Bool.eqb].
      rewrite firstn_map. reflexivity.
    + rewrite (analyze_result_after_parse _ _ _ _ _ _ _ _ m
                 (parse_tags_decode_error _ _ _ P1 Hs Hj) Hm).
      unfold fallback_tags. cbn [tags objects scene colors actions slice15].
      eexists _, _. split; [reflexivity|].
      split; [reflexivity|]. split; [|reflexivity].
      cbn [dict_get obj map fst snd String.eqb Ascii.eqb Bool.eqb].
      rewrite firstn_map. reflexivity.
Qed.

(** ** _load_config *)

Lemma dict_get_app (d1 d2 : dict) (k : string) :
  dict_get (d1 ++ d2) k
  = match dict_get d1 k with Some v => Some v | None => dict_get d2 k end.
Proof.
  induction d1 as [|[k' v'] r IH]; simpl; [reflexivity|].
  destruct k'; try exact IH. destruct (String.eqb k s); [reflexivity | exact IH].
Qed.

Lemma dict_get_set (d : dict) (k0 v0 : value) (k : string) :
  dict_get (dict_set py d k0 v0) k
  = match dict_get [(k0, v0)] k with Some v => Some v | None => dict_get d k end.
Proof.
  destruct k0; try (rewrite dict_get_set_str; simpl; destruct (String.eqb k s); reflexivity);
    simpl; (induction d as [|[k' v'] r IH]; simpl; [reflexivity|]);
    (destruct k'; simpl; try exact IH;
     try (match goal with
          | |- context [key_eqb py ?a ?b] => destruct (key_eqb py a b)
          end; simpl; try exact IH; reflexivity));
    rewrite IH; reflexivity.
Qed.

(** A look-up in the dictionary that [update] leaves: the last item of the
    overlay under that key, or else what the dictionary held. *)
Lemma dict_get_overlay (items d : dict) (k : string) :
  dict_get (fold_left (fun acc kv => dict_set py acc (fst kv) (snd kv)) items d) k
  = match dict_get (rev items) k with Some v => Some v | None => dict_get d k end.
Proof.
  revert d. induction items as [|[k0 v0] r IH]; intros d; simpl; [reflexivity|].
  rewrite IH, dict_get_app, dict_get_set.
  destruct (dict_get (rev r) k); reflexivity.
Qed.

(** C6: [_load_config] never raises. Without a path, with an empty path or
    with a path that does not exist it returns the defaults and logs
    nothing. When the file cannot be read or its text does not decode, it
    logs one warning and returns the defaults. When the text decodes to an
    object, the items of the object are stored over the defaults: a key of
    the file takes the value of the file, whole, and every other key keeps
    its default. *)
Theorem load_config_keeps_defaults_on_failure (config_path : option string) (t : Trace) :
  exists (cfg : dict) (t' : Trace),
    _load_config py env config_path t = (inr cfg, t') /\
    (config_path = None \/ config_path = Some "" \/
     (exists path, config_path = Some path /\ path_exists env path = false) ->
     cfg = default_config /\ t' = t) /\
    (forall (path : string) (e : exn),
       config_path = Some path -> path <> "" -> path_exists env path = true ->
       read_text env path = inl e \/
       (exists text, read_text env path = inr text /\ json_loads py text = inl e) ->
       cfg = default_config /\
       t' = EvLog WARNING "Failed to load config from {}: {}"
                  [PStr path; PStr (exn_str py e)] :: t) /\
    (forall (path text : string) (items : dict),
       config_path = Some path -> path <> "" -> path_exists env path = true ->
       read_text env path = inr text ->
       json_loads py text = inr (PDict items) ->
       t' = t /\
       cfg = fold_left (fun acc kv => dict_set py acc (fst kv) (snd kv))
                       items default_config /\
       forall k : string,
         dict_get cfg k = match dict_get (rev items) k with
                          | Some v => Some v
                          | None => dict_get default_config k
                          end).
Proof.
  unfold _load_config.
  destruct config_path as [path|].
  2:{ exists default_config, t. split; [reflexivity|]. split; [auto|].
      split; intros; discriminate. }
  destruct (String.eqb path "") eqn:Ee.
  { apply String.eqb_eq in Ee. subst path.
    exists default_config, t. split; [reflexivity|]. split; [auto|].
    split; intros; match goal with H : Some _ = Some _ |- _ => injection H as <- end;
      contradiction. }
  destruct (path_exists env path) eqn:Ex; simpl.
  2:{ exists default_config, t. split; [reflexivity|]. split; [auto|].
      split; intros; match goal with H : Some _ = Some _ |- _ => injection H as <- end;
        congruence. }
  assert (Hno : ~ (Some path = None \/ Some path = Some "" \/
                   (exists p, Some path = Some p /\ path_exists env p = false))).
  { intros [H | [H | (p & H & Hp)]]; try discriminate.
    - injection H as ->. discriminate.
    - injection H as <-. congruence. }
  unfold bind at 1. unfold lift at 1.
  destruct (read_text env path) as [e|text] eqn:Er.
  { eexists _, _. split; [reflexivity|]. split; [intros H; contradiction|].
    split.
    - intros p e' H _ _ [Hr | (tx & Hr & _)]; injection H as <-.
      + rewrite Er in Hr. injection Hr as <-. split; reflexivity.
      + rewrite Er in Hr. discriminate.
    - intros p tx items H _ _ Hr. injection H as <-. rewrite Er in Hr. discriminate. }
  unfold bind at 1. unfold lift at 1.
  destruct (json_loads py text) as [e|loaded] eqn:Ej.
  { eexists _, _. split; [reflexivity|]. split; [intros H; contradiction|].
    split.
    - intros p e' H _ _ [Hr | (tx & Hr & Hj)]; injection H as <-.
      + rewrite Er in Hr. discriminate.
      + rewrite Er in Hr. injection Hr as <-. rewrite Ej in Hj.
        injection Hj as <-. split; reflexivity.
    - intros p tx items H _ _ Hr Hj. injection H as <-.
      rewrite Er in Hr. injection Hr as <-. rewrite Ej in Hj. discriminate. }
  destruct (dict_update py loaded default_config) as [[e|u] cfg] eqn:Eu.
  - eexists _, _. split; [reflexivity|]. split; [intros H; contradiction|].
    split.
    + intros p e' H _ _ [Hr | (tx & Hr & Hj)]; injection H as <-.
      * rewrite Er in Hr. discriminate.
      * rewrite Er in Hr. injection Hr as <-. rewrite Ej in Hj. discriminate.
    + intros p tx items H _ _ Hr Hj. injection H as <-.
      rewrite Er in Hr. injection Hr as <-. rewrite Ej in Hj. injection Hj as ->.
      simpl in Eu. discriminate.
  - eexists _, _. split; [reflexivity|]. split; [intros H; contradiction|].
    split.
    + intros p e' H _ _ [Hr | (tx & Hr & Hj)]; injection H as <-.
      * rewrite Er in Hr. discriminate.
      * rewrite Er in Hr. injection Hr as <-. rewrite Ej in Hj. discriminate.
    + intros p tx items H _ _ Hr Hj. injection H as <-.
      rewrite Er in Hr. injection Hr as <-. rewrite Ej in Hj. injection Hj as ->.
      simpl in Eu. injection Eu as Eu. subst cfg.
      split; [reflexivity|]. split; [reflexivity|].
      intros k. apply dict_get_overlay.
Qed.

(** ** main *)

Lemma stdout_of_cons (e : Event) (t : Trace) :
  stdout_of (e :: t)
  = stdout_of t ++ match e with EvStdout d _ => [d] | _ => [] end.
Proof.
  unfold stdout_of. simpl. rewrite rev_app_distr.
  destruct e; simpl; rewrite ?app_nil_r; reflexivity.
Qed.

Lemma load_config_returns (config_path : option string) (t : Trace) :
  exists (cfg : dict) (t' : Trace),
    _load_config py env config_path t = (inr cfg, t') /\
    stdout_of t' = stdout_of t.
Proof.
  unfold _load_config. destruct config_path as [path|];
    [|eexists _, _; split; reflexivity].
  destruct (negb (String.eqb path "") && path_exists env path);
    [|eexists _, _; split; reflexivity].
  cbv zeta.
  match goal with
  | |- context [match ?x with pair _ _ => _ end] => destruct x as [[e|u] cfg]
  end; eexists _, _; split; try reflexivity.
Qed.

Lemma load_model_stdout (P P' : Proc) (r : exn + bool) :
  _load_model py env P = (r, P') -> stdout_of (trace P') = stdout_of (trace P).
Proof.
  intros H. destruct (_model_loaded (self P)) eqn:Hl.
  - rewrite (load_model_loaded P Hl) in H. injection H as _ <-. reflexivity.
  - rewrite (load_model_unloaded P Hl) in H.
    destruct (load_args (config (self P))) as [e|[repo trust]].
    + injection H as _ <-. simpl. rewrite !stdout_of_cons, !app_nil_r. reflexivity.
    + destruct (from_pretrained env _ repo trust); injection H as _ <-; simpl;
        rewrite !stdout_of_cons, !app_nil_r; reflexivity.
Qed.

(** C2: the health mode. When the imports succeed and the command line
    asks for the mode [health], the process prints exactly one document, the
    record of the health check ([healthy] with the flag set, or
    [not_healthy] with the flag unset, with the device and the configuration
    that was loaded), and its exit status is 0, whether the model loads or
    not and whatever the configuration file holds. *)
Theorem health_mode_exits_zero (argv : Argv) (t : Trace) :
  import_error env = None ->
  opt_mode argv = Some "health" ->
  exists (cfg : dict) (b : bool) (t0 t' : Trace),
    _load_config py env (opt_config argv)
      (EvStderr "DEBUG: Received args: mode={}, image={}, config={}"
                [PStr "health"; opt_value (opt_image argv); opt_value (opt_config argv)]
       :: t) = (inr cfg, t0) /\
    script py env argv t = (inr 0%Z, t') /\
    stdout_of t'
    = stdout_of t ++
      [PDict (obj [ ("status", PStr (if b then "healthy" else "not_healthy"));
                    ("model_loaded", PBool b);
                    ("device", PNone);
                    ("config", PDict cfg) ])].
Proof.
  intros Himp Hmode. unfold script. rewrite Himp.
  unfold main, parse_args. rewrite Hmode. simpl.
  unfold bind at 1. unfold emit_t at 1.
  unfold bind at 1. unfold __init__. unfold bind at 1.
  match goal with
  | |- context [_load_config py env ?p ?t0] =>
      destruct (load_config_returns p t0) as (cfg & t1 & Hc & Ho)
  end.
  rewrite Hc. unfold ret at 1. cbv beta iota.
  unfold with_service.
  set (P0 := mkProc (mkService cfg None PNone false) PNone t1).
  destruct (health_check_record P0) as (b & P' & Hl & Hh).
  unfold bind. rewrite Hh. unfold print_json, emit, ret. cbn [fst snd trace].
  exists cfg, b, t1. eexists. split; [reflexivity|]. split; [reflexivity|].
  rewrite stdout_of_cons, (load_model_stdout _ _ _ Hl). subst P0. cbn [trace].
  rewrite Ho, stdout_of_cons, app_nil_r. reflexivity.
Qed.

(** C8: the interactive branch on an unknown action. When standard input
    holds a JSON object whose [action] is neither [analyze] nor [health]
    (an absent [action] reads as [None]), the branch prints one error record
    with the status [unknown_action] and returns 1; it leaves the service as
    it was and calls neither the load nor a query of the model. The
    statement is about the branch: [main] has no command line that leads to
    it (C1). *)
Theorem unknown_action_is_rejected (P : Proc) (text : string) (input_data : dict) :
  stdin_text env = inr text ->
  json_loads py text = inr (PDict input_data) ->
  eq_str (dict_get_default input_data "action" PNone) "analyze" = false ->
  eq_str (dict_get_default input_data "action" PNone) "health" = false ->
  exists P' : Proc,
    interactive py env P = (inr 1%Z, P') /\
    self P' = self P /\
    trace P'
    = EvStdout
        (PDict (obj [ ("error",
                       PStr ("Unknown action: " ++
                             fmt_value py (dict_get_default input_data "action" PNone)));
                      ("status", PStr "unknown_action") ])) None
      :: EvStdin :: trace P /\
    filter is_load (trace P') = filter is_load (trace P) /\
    filter is_query (trace P') = filter is_query (trace P).
Proof.
  intros Hin Hj Ha Hh. unfold interactive, try_except.
  unfold bind at 1. unfold emit at 1.
  unfold bind at 1. unfold lift at 1. rewrite Hin.
  unfold bind at 1. unfold lift at 1. rewrite Hj.
  unfold bind at 1. unfold lift at 1. unfold py_get at 1. rewrite Ha.
  unfold bind at 1. unfold lift at 1. unfold py_get at 1. rewrite Hh.
  unfold bind at 1. unfold lift at 1. unfold py_get at 1.
  unfold bind at 1. unfold print_json, emit, ret.
  eexists. split; [reflexivity|]. repeat split; reflexivity.
Qed.

(** C1 (what the code does instead): a command line without [--mode] gets
    the mode [analyze], the default of the flag, and every namespace that
    [parse_args] returns has the mode [analyze] or [health], so [main] never
    reaches its branch that reads standard input. With no flag at all the
    process prints the [missing_image] record and returns 1, whatever
    standard input holds: it is not read. *)
Theorem no_mode_flag_runs_analyze :
  (forall (cfg img : option string) (t : Trace),
     main py env (mkArgv cfg None img) t
     = main py env (mkArgv cfg (Some "analyze") img) t) /\
  (forall (argv : Argv) (args : Namespace),
     parse_args argv = Some args ->
     args_mode args = "analyze" \/ args_mode args = "health") /\
  (forall t : Trace,
     main py env (mkArgv None None None) t
     = (inr 1%Z,
        [ EvStdout (PDict (obj [ ("error", PStr "Image path required for analysis mode");
                                 ("status", PStr "missing_image") ])) None;
          EvStderr "DEBUG: Received args: mode={}, image={}, config={}"
                   [PStr "analyze"; PNone; PNone] ] ++ t) /\
     filter is_stdin (snd (main py env (mkArgv None None None) t))
     = filter is_stdin t).
Proof.
  split; [|split].
  - intros cfg img t. reflexivity.
  - intros argv args. unfold parse_args.
    destruct (opt_mode argv) as [m|]; simpl.
    + destruct (String.eqb m "analyze") eqn:Ea; simpl.
      * intros H. injection H as <-. simpl. left.
        apply String.eqb_eq. exact Ea.
      * destruct (String.eqb m "health") eqn:Eh; simpl; [|discriminate].
        intros H. injection H as <-. simpl. right.
        apply String.eqb_eq. exact Eh.
    + intros H. injection H as <-. left. reflexivity.
  - intros t. split; reflexivity.
Qed.

End Properties.

(** * Further properties *)

Section Further.

Variable py : PyLib.
Variable env : Env.

(** ** The tags of the fall-back (lines 169 and 177) *)

Lemma rstrip_cons (c : ascii) (r : string) :
  rstrip (String c r)
  = match rstrip r with
    | EmptyString => if is_space c then EmptyString else String c EmptyString
    | _ => String c (rstrip r)
    end.
Proof. simpl. destruct (rstrip r); reflexivity. Qed.

Lemma rstrip_idempotent (s : string) : rstrip (rstrip s) = rstrip s.
Proof.
  induction s as [|c r IH]; [reflexivity|].
  rewrite rstrip_cons. destruct (rstrip r) as [|c' r'] eqn:E.
  - destruct (is_space c) eqn:Ec; [reflexivity|].
    simpl. rewrite Ec. reflexivity.
  - rewrite rstrip_cons. rewrite IH. reflexivity.
Qed.

Lemma lstrip_head (s : string) :
  lstrip s = EmptyString \/
  exists c r, lstrip s = String c r /\ is_space c = false.
Proof.
  induction s as [|c r IH]; simpl; [left; reflexivity|].
  destruct (is_space c) eqn:E; [exact IH|].
  right. exists c, r. split; [reflexivity | exact E].
Qed.

Lemma strip_idempotent (s : string) : strip (strip s) = strip s.
Proof.
  unfold strip. destruct (lstrip_head s) as [E | (c & r & E & Hc)]; rewrite E.
  - reflexivity.
  - rewrite rstrip_cons.
    assert (H : forall x, lstrip (String c x) = String c x)
      by (intros x; simpl; rewrite Hc; reflexivity).
    destruct (rstrip r) as [|c' r'] eqn:Er.
    + rewrite Hc. rewrite H. simpl. rewrite Hc. reflexivity.
    + rewrite H. rewrite rstrip_cons. rewrite <- Er. rewrite rstrip_idempotent.
      rewrite Er. reflexivity.
Qed.

Lemma mentions_lstrip (c : ascii) (s : string) :
  mentions c s = false -> mentions c (lstrip s) = false.
Proof.
  induction s as [|c' r IH]; simpl; [auto|].
  intros H. apply orb_false_iff in H. destruct H as [H1 H2].
  destruct (is_space c'); [exact (IH H2)|]. simpl. rewrite H1, H2. reflexivity.
Qed.

Lemma mentions_rstrip (c : ascii) (s : string) :
  mentions c s = false -> mentions c (rstrip s) = false.
Proof.
  induction s as [|c' r IH]; [auto|].
  intros H. simpl in H. apply orb_false_iff in H. destruct H as [H1 H2].
  rewrite rstrip_cons. specialize (IH H2).
  destruct (rstrip r) as [|c2 r2].
  - destruct (is_space c'); [reflexivity|]. simpl. rewrite H1. reflexivity.
  - simpl. simpl in IH. rewrite H1, IH. reflexivity.
Qed.

Lemma mentions_cons (c c' : ascii) (r : string) :
  mentions c (String c' r) = Ascii.eqb c c' || mentions c r.
Proof. reflexivity. Qed.

Lemma split_comma_segments (s : string) :
  Forall (fun seg => mentions ","%char seg = false) (split_comma s).
Proof.
  induction s as [|c r IH]; simpl.
  - constructor; [reflexivity | constructor].
  - destruct (Ascii.eqb c ","%char) eqn:E.
    + constructor; [reflexivity | exact IH].
    + destruct (split_comma r) as [|h t].
      * constructor; [|constructor]. rewrite mentions_cons.
        rewrite Ascii.eqb_sym, E. reflexivity.
      * inversion IH; subst. constructor; [|assumption].
        rewrite mentions_cons. rewrite Ascii.eqb_sym, E. assumption.
Qed.

(** X1: every tag that the fall-back makes of a response is a clean one:
    it is not empty, it has no white space at either end (stripping it
    again changes nothing), and it holds no comma. *)
Theorem fallback_tags_are_clean (response tag : string) :
  In tag (comma_tags response) ->
  tag <> EmptyString /\ strip tag = tag /\ mentions ","%char tag = false.
Proof.
  unfold comma_tags. intros H. apply filter_In in H. destruct H as [Hin Hne].
  apply in_map_iff in Hin. destruct Hin as (seg & <- & Hseg).
  split; [|split].
  - intros E. rewrite E in Hne. discriminate.
  - apply strip_idempotent.
  - unfold strip. apply mentions_rstrip, mentions_lstrip.
    exact (proj1 (Forall_forall _ _) (split_comma_segments response) seg Hseg).
Qed.

(** ** The configuration (lines 47-75) *)

Lemma has_key_set (d : dict) (k0 v0 : value) (k : string) :
  has_key d k = true -> has_key (dict_set py d k0 v0) k = true.
Proof.
  unfold has_key. rewrite dict_get_set.
  destruct (dict_get [(k0, v0)] k); [reflexivity|]. auto.
Qed.

(** A computation on a dictionary that only stores items. *)
Lemma update_pair_keeps (k0 v0 : value) (d d' : dict) (r : exn + unit) (k : string) :
  update_pair py k0 v0 d = (r, d') -> has_key d k = true -> has_key d' k = true.
Proof.
  unfold update_pair. destruct (hashable k0); intros H Hk; injection H as _ <-.
  - apply has_key_set. exact Hk.
  - exact Hk.
Qed.

Lemma update_element_keeps (i : nat) (item : value) (d d' : dict) (r : exn + unit)
    (k : string) :
  update_element py i item d = (r, d') -> has_key d k = true -> has_key d' k = true.
Proof.
  unfold update_element, raise. intros H Hk.
  repeat match type of H with
         | context [match ?x with _ => _ end] => destruct x
         end;
    try (injection H as _ <-; exact Hk);
    exact (update_pair_keeps _ _ _ _ _ _ H Hk).
Qed.

Lemma update_seq_keeps (items : list value) (i : nat) (d d' : dict) (r : exn + unit)
    (k : string) :
  update_seq py i items d = (r, d') -> has_key d k = true -> has_key d' k = true.
Proof.
  revert i d. induction items as [|x rest IH]; intros i d H Hk; simpl in H.
  - injection H as _ <-. exact Hk.
  - apply bind_inv in H. destruct H as [(e & H & _) | (u & d1 & H & H')].
    + exact (update_element_keeps _ _ _ _ _ _ H Hk).
    + exact (IH _ _ H' (update_element_keeps _ _ _ _ _ _ H Hk)).
Qed.

Lemma fold_set_keeps (items d : dict) (k : string) :
  has_key d k = true ->
  has_key (fold_left (fun acc kv => dict_set py acc (fst kv) (snd kv)) items d) k = true.
Proof.
  revert d. induction items as [|kv rest IH]; intros d Hk; simpl; [exact Hk|].
  apply IH. apply has_key_set. exact Hk.
Qed.

Lemma dict_update_keeps (other : value) (d d' : dict) (r : exn + unit) (k : string) :
  dict_update py other d = (r, d') -> has_key d k = true -> has_key d' k = true.
Proof.
  unfold dict_update, raise. intros H Hk. destruct other;
    try (injection H as _ <-; exact Hk);
    try exact (update_seq_keeps _ _ _ _ _ _ H Hk).
  injection H as _ <-. apply fold_set_keeps. exact Hk.
Qed.

(** X2: whatever the configuration file holds, an object or not, no key of
    the defaults is lost: every key of the defaults is a key of the
    configuration that [_load_config] returns. *)
Theorem config_keeps_default_keys (config_path : option string) (t : Trace) :
  exists (cfg : dict) (t' : Trace),
    _load_config py env config_path t = (inr cfg, t') /\
    forall k : string, has_key default_config k = true -> has_key cfg k = true.
Proof.
  unfold _load_config. destruct config_path as [path|];
    [|eexists _, _; split; [reflexivity | auto]].
  destruct (negb (String.eqb path "") && path_exists env path);
    [|eexists _, _; split; [reflexivity | auto]].
  cbv zeta.
  match goal with
  | |- context [match ?x with pair _ _ => _ end] =>
      destruct x as [[e|u] cfg] eqn:E
  end;
    (eexists _, _; split; [reflexivity|]; intros k Hk;
     apply bind_inv in E; destruct E as [(e1 & E & _) | (text & d1 & E & E')];
     [ injection E as _ <-; exact Hk |];
     injection E as _ <-;
     apply bind_inv in E'; destruct E' as [(e2 & E & _) | (loaded & d2 & E & E')];
     [ injection E as _ <-; exact Hk |];
     injection E as _ <-;
     exact (dict_update_keeps _ _ _ _ _ E' Hk)).
Qed.

(** X3: a configuration file of the wrong type. When the file decodes to
    null, a boolean or a number, [update] raises before it stores anything:
    the defaults are returned and one warning is logged. When it decodes to
    an empty object, an empty list or the empty string, [update] has nothing
    to store: the defaults are returned and nothing is logged. *)
Theorem config_of_wrong_type_is_ignored
    (path text : string) (v : value) (t : Trace) :
  path <> "" ->
  path_exists env path = true ->
  read_text env path = inr text ->
  json_loads py text = inr v ->
  (v = PNone \/ (exists b, v = PBool b) \/ (exists n, v = PInt n) \/
   (exists f, v = PFloat f) ->
   _load_config py env (Some path) t
   = (inr default_config,
      EvLog WARNING "Failed to load config from {}: {}"
            [PStr path; PStr (exn_str py (NotIterable v))] :: t)) /\
  (v = PDict [] \/ v = PList [] \/ v = PStr "" ->
   _load_config py env (Some path) t = (inr default_config, t)).
Proof.
  intros Hne Hex Hr Hj.
  assert (Hc : negb (String.eqb path "") && path_exists env path = true).
  { rewrite Hex. destruct (String.eqb path "") eqn:E; [|reflexivity].
    apply String.eqb_eq in E. contradiction. }
  unfold _load_config. rewrite Hc.
  cbv beta iota zeta delta [bind lift]. rewrite Hr. cbv beta iota. rewrite Hj.
  cbv beta iota.
  split.
  - intros [-> | [(b & ->) | [(n & ->) | (f & ->)]]]; reflexivity.
  - intros [-> | [-> | ->]]; reflexivity.
Qed.

(** ** The load of the model (lines 77-103) *)

(** X4: a configuration whose entry [model] is not a mapping. The load
    fails before it reaches the library: [_load_model] returns [False],
    [from_pretrained] is not called and the service stays as it was, so
    every later call fails the same way; [health_check] reports
    [not_healthy]. *)
Theorem misconfigured_model_never_loads (P : Proc) (v : value) :
  _model_loaded (self P) = false ->
  dict_get (config (self P)) "model" = Some v ->
  (forall d : dict, v <> PDict d) ->
  (exists P' : Proc,
     _load_model py env P = (inr false, P') /\
     self P' = self P /\
     filter is_load (trace P') = filter is_load (trace P)) /\
  (exists (h : dict) (P' : Proc),
     health_check py env P = (inr h, P') /\
     dict_get h "status" = Some (PStr "not_healthy") /\
     dict_get h "model_loaded" = Some (PBool false) /\
     self P' = self P /\
     filter is_load (trace P') = filter is_load (trace P)).
Proof.
  intros Hl Hm Hv.
  assert (Ha : load_args (config (self P)) = inl (NoAttribute v "get")).
  { unfold load_args, dict_get_default. rewrite Hm.
    destruct v; try reflexivity. destruct (Hv d eq_refl). }
  assert (Hrun : _load_model py env P
                 = (inr false,
                    mkProc (self P) (caller_settings P)
                           (load_failure_log py (NoAttribute v "get") ++
                            EvLog INFO "Loading Moondream2 model..." [] :: trace P))).
  { rewrite (load_model_unloaded py env P Hl). rewrite Ha. reflexivity. }
  split.
  - eexists. split; [exact Hrun|]. split; reflexivity.
  - destruct (health_check_record py env P) as (b & P' & Hb & Hh).
    rewrite Hrun in Hb. injection Hb as <- <-.
    eexists _, _. split; [exact Hh|]. repeat split; reflexivity.
Qed.

(** ** The events of a call *)

Lemma count_app (p : Event -> bool) (a b : list Event) :
  count p (a ++ b) = count p a + count p b.
Proof. unfold count. rewrite filter_app, length_app. reflexivity. Qed.

Lemma pop_length_frame (ref : SettingsRef) (P P' : Proc) (r : exn + value) :
  pop_length py ref P = (r, P') ->
  trace P' = trace P /\ model (self P') = model (self P) /\
  device (self P') = device (self P) /\
  _model_loaded (self P') = _model_loaded (self P).
Proof.
  unfold pop_length, bind, read_ref. cbv beta iota.
  destruct ref;
    try match goal with
        | |- context [match ?v with PNone => _ | _ => _ end] => destruct v
        end;
    unfold raise, write_ref, ret; cbv beta iota; intros H;
    injection H as _ <-; simpl; repeat split; reflexivity.
Qed.

Section Events.

Variable p : Event -> bool.
Variables loads queries : nat.
Hypothesis p_time : p EvTime = false.
Hypothesis p_log : forall lvl fmt args, p (EvLog lvl fmt args) = false.
Hypothesis p_load : forall repo trust, count p [EvFromPretrained repo trust] <= loads.
Hypothesis p_query : forall m img prompt, count p [EvQuery m img prompt] <= queries.

Lemma adds_weaken {A : Type} (n n' : nat) (m : M Proc A) :
  n <= n' -> adds_at_most p n m -> adds_at_most p n' m.
Proof.
  intros Hn Hm P P' r H. destruct (Hm _ _ _ H) as (new & E & Hc).
  exists new. split; [exact E | lia].
Qed.

Lemma adds_nothing {A : Type} (m : M Proc A) :
  (forall P P' r, m P = (r, P') -> trace P' = trace P) -> adds_at_most p 0 m.
Proof.
  intros Hm P P' r H. exists []. split; [exact (Hm _ _ _ H) | apply Nat.le_refl].
Qed.

Lemma adds_ret {A : Type} (a : A) : adds_at_most p 0 (ret a).
Proof. apply adds_nothing. intros P P' r H. injection H as _ <-. reflexivity. Qed.

Lemma adds_raise {A : Type} (e : exn) : adds_at_most p 0 (raise (A:=A) e).
Proof. apply adds_nothing. intros P P' r H. injection H as _ <-. reflexivity. Qed.

Lemma adds_lift {A : Type} (x : exn + A) : adds_at_most p 0 (lift x).
Proof. apply adds_nothing. intros P P' r H. injection H as _ <-. reflexivity. Qed.

Lemma adds_get_self : adds_at_most p 0 get_self.
Proof. apply adds_nothing. intros P P' r H. injection H as _ <-. reflexivity. Qed.

Lemma adds_set_caller_settings (v : value) : adds_at_most p 0 (set_caller_settings v).
Proof. apply adds_nothing. intros P P' r H. injection H as _ <-. reflexivity. Qed.

Lemma adds_bind_settings : adds_at_most p 0 bind_settings.
Proof. apply adds_nothing. intros P P' r H. injection H as _ <-. reflexivity. Qed.

Lemma adds_pop_length (ref : SettingsRef) : adds_at_most p 0 (pop_length py ref).
Proof.
  apply adds_nothing. intros P P' r H. exact (proj1 (pop_length_frame _ _ _ _ H)).
Qed.

Lemma adds_emit (e : Event) : p e = false -> adds_at_most p 0 (emit e).
Proof.
  intros He P P' r H. injection H as _ <-. exists [e]. split; [reflexivity|].
  unfold count. simpl. rewrite He. apply Nat.le_refl.
Qed.

Lemma adds_time_time : adds_at_most p 0 (time_time env).
Proof.
  intros P P' r H. injection H as _ <-. exists [EvTime]. split; [reflexivity|].
  unfold count. simpl. rewrite p_time. apply Nat.le_refl.
Qed.

Lemma adds_query (image : Image) (prompt : string) :
  adds_at_most p queries (query env image prompt).
Proof.
  intros P P' r H. unfold query in H. destruct (model (self P)) as [m|].
  - injection H as _ <-. exists [EvQuery m image prompt].
    split; [reflexivity | apply p_query].
  - injection H as _ <-. exists []. split; [reflexivity | apply Nat.le_0_l].
Qed.

Lemma adds_load_model : adds_at_most p loads (_load_model py env).
Proof.
  intros P P' r H. destruct (_model_loaded (self P)) eqn:Hl.
  - rewrite (load_model_loaded py env P Hl) in H. injection H as _ <-.
    exists []. split; [reflexivity | apply Nat.le_0_l].
  - rewrite (load_model_unloaded py env P Hl) in H.
    destruct (load_args (config (self P))) as [e|[repo trust]].
    + injection H as _ <-. eexists [_; _; _]. split; [reflexivity|].
      unfold count. simpl. rewrite !p_log. apply Nat.le_0_l.
    + destruct (from_pretrained env _ repo trust); injection H as _ <-.
      * eexists [_; _; _; _]. split; [reflexivity|].
        specialize (p_load repo trust). unfold count in *. simpl in *.
        rewrite !p_log. destruct (p (EvFromPretrained repo trust)); simpl in *; lia.
      * eexists [_; _; _]. split; [reflexivity|].
        specialize (p_load repo trust). unfold count in *. simpl in *.
        rewrite !p_log. destruct (p (EvFromPretrained repo trust)); simpl in *; lia.
Qed.

Lemma adds_bind {A B : Type} (n1 n2 : nat) (m : M Proc A) (k : A -> M Proc B) :
  adds_at_most p n1 m -> (forall a, adds_at_most p n2 (k a)) ->
  adds_at_most p (n1 + n2) (bind m k).
Proof.
  intros Hm Hk P P' r H.
  destruct (bind_inv m k P P' r H) as [(e & H1 & _) | (a & Q & H1 & H2)].
  - destruct (Hm _ _ _ H1) as (new & E & Hc). exists new. split; [exact E | lia].
  - destruct (Hm _ _ _ H1) as (new1 & E1 & Hc1).
    destruct (Hk a _ _ _ H2) as (new2 & E2 & Hc2).
    exists (new2 ++ new1). split.
    + rewrite E2, E1. apply app_assoc.
    + rewrite count_app. lia.
Qed.

Lemma adds_then {A B : Type} (n : nat) (m : M Proc A) (k : A -> M Proc B) :
  adds_at_most p 0 m -> (forall a, adds_at_most p n (k a)) ->
  adds_at_most p n (bind m k).
Proof. intros Hm Hk. exact (adds_bind 0 n m k Hm Hk). Qed.

Lemma adds_last {A B : Type} (n : nat) (m : M Proc A) (k : A -> M Proc B) :
  adds_at_most p n m -> (forall a, adds_at_most p 0 (k a)) ->
  adds_at_most p n (bind m k).
Proof.
  intros Hm Hk. apply (adds_weaken (n + 0)); [lia|]. exact (adds_bind n 0 m k Hm Hk).
Qed.

Lemma adds_try_except {A : Type} (n : nat) (m : M Proc A) (h : exn -> M Proc A) :
  adds_at_most p n m -> (forall e, adds_at_most p 0 (h e)) ->
  adds_at_most p n (try_except m h).
Proof.
  intros Hm Hh P P' r H. unfold try_except in H.
  destruct (m P) as [[e|a] Q] eqn:E.
  - destruct (Hm _ _ _ E) as (new1 & E1 & Hc1).
    destruct (Hh e _ _ _ H) as (new2 & E2 & Hc2).
    exists (new2 ++ new1). split.
    + rewrite E2, E1. apply app_assoc.
    + rewrite count_app. lia.
  - injection H as _ <-. exact (Hm _ _ _ E).
Qed.

Lemma adds_try_except_json {A : Type} (m h : M Proc A) :
  adds_at_most p 0 m -> adds_at_most p 0 h ->
  adds_at_most p 0 (try_except_json m h).
Proof.
  intros Hm Hh P P' r H. unfold try_except_json in H.
  destruct (m P) as [[e|a] Q] eqn:E.
  - destruct (Hm _ _ _ E) as (new1 & E1 & Hc1). destruct (is_JSONDecodeError e).
    + destruct (Hh _ _ _ H) as (new2 & E2 & Hc2).
      exists (new2 ++ new1). split.
      * rewrite E2, E1. apply app_assoc.
      * rewrite count_app. lia.
    + injection H as _ <-. exists new1. split; assumption.
  - injection H as _ <-. exact (Hm _ _ _ E).
Qed.

Lemma adds_parse_tags (tags_response : string) :
  adds_at_most p 0 (parse_tags py tags_response).
Proof.
  unfold parse_tags. apply adds_try_except_json.
  - destruct (search_braces tags_response); [|apply adds_ret].
    repeat (apply adds_then; [apply adds_lift | intros ?]). apply adds_ret.
  - apply adds_then; [apply adds_emit, p_log | intros _; apply adds_ret].
Qed.

Lemma adds_analyze_result (image_path : value) (start : float) (image : Image)
    (caption tags_response : string) :
  adds_at_most p 0
    (analyze_result py env image_path start image caption tags_response).
Proof.
  unfold analyze_result.
  apply adds_then; [apply adds_parse_tags | intros data].
  apply adds_then; [apply adds_time_time | intros now].
  apply adds_then; [apply adds_lift | intros first_tags].
  apply adds_then; [apply adds_get_self | intros s].
  apply adds_then; [apply adds_lift | intros name].
  apply adds_then; [apply adds_lift | intros repository].
  apply adds_ret.
Qed.

Lemma adds_analyze_handler (start : float) (e : exn) :
  adds_at_most p 0 (analyze_handler py env start e).
Proof.
  unfold analyze_handler.
  apply adds_then; [apply adds_emit, p_log | intros _].
  apply adds_then; [apply adds_time_time | intros now]. apply adds_ret.
Qed.

(** The first part of the try, given a bound on what the load adds in the
    state where the call makes it. *)
Lemma adds_analyze_queries_at (image_path : value) (P0 : Proc) (bound : nat) :
  (forall (image : Image) (r : exn + bool) (Pb : Proc),
     _load_model py env (opened image_path image P0) = (r, Pb) ->
     exists new, trace Pb = new ++ trace (opened image_path image P0) /\
                 count p new <= bound) ->
  forall (rq : exn + Progress) (Q : Proc),
    analyze_queries py env image_path P0 = (rq, Q) ->
    exists new, trace Q = new ++ trace P0 /\
                count p new <= bound + (queries + queries).
Proof.
  intros Hload rq Q H. unfold analyze_queries in H.
  apply bind_inv in H. destruct H as [(e & H & _) | (found & Q0 & H & H')].
  { injection H as _ <-. exists []. split; [reflexivity | apply Nat.le_0_l]. }
  apply lift_inv in H. destruct H as [_ ->].
  destruct found; simpl negb in H'; cbv iota in H';
    [|injection H' as _ <-; exists []; split; [reflexivity | apply Nat.le_0_l]].
  apply bind_inv in H'. destruct H' as [(e & H & _) | (image & Q0 & H & H')].
  { injection H as _ <-. exists []. split; [reflexivity | apply Nat.le_0_l]. }
  apply lift_inv in H. destruct H as [_ ->].
  apply bind_inv in H'. destruct H' as [(e & H & _) | (u & Q0 & H & H')];
    [discriminate|].
  injection H as _ <-. fold (opened image_path image P0) in H'.
  apply bind_inv in H'. destruct H' as [(e & H & _) | (loaded & Pb & H & H')].
  { destruct (Hload _ _ _ H) as (new & E & Hc). eexists (new ++ [_]).
    split; [rewrite E; rewrite <- app_assoc; reflexivity|].
    rewrite count_app. unfold count at 2. simpl. rewrite p_log. simpl. lia. }
  destruct (Hload _ _ _ H) as (new1 & E1 & Hc1).
  assert (Hpre : forall new2 n,
             trace Q = new2 ++ trace Pb -> count p new2 <= n -> n <= queries + queries ->
             exists new, trace Q = new ++ trace P0 /\
                         count p new <= bound + (queries + queries)).
  { intros new2 n E2 Hc2 Hn. eexists (new2 ++ new1 ++ [_]). split.
    - rewrite E2, E1. rewrite <- !app_assoc. reflexivity.
    - rewrite !count_app. unfold count at 3. simpl. rewrite p_log. simpl. lia. }
  destruct loaded; simpl negb in H'; cbv iota in H';
    [|injection H' as _ <-; apply (Hpre [] 0); [reflexivity | apply Nat.le_0_l | lia]].
  match type of H' with
  | ?m Pb = _ => assert (K : adds_at_most p (queries + queries) m)
  end.
  { apply adds_then; [apply adds_bind_settings | intros ref].
    apply adds_then; [apply adds_pop_length | intros len].
    apply adds_then; [apply adds_emit, p_log | intros _].
    apply adds_bind; [apply adds_query | intros caption_result].
    apply adds_then; [apply adds_lift | intros caption_answer].
    apply adds_then; [apply adds_lift | intros caption].
    apply adds_last; [apply adds_query | intros tags_result].
    apply adds_then; [apply adds_lift | intros tags_answer].
    apply adds_then; [apply adds_lift | intros tags_response].
    apply adds_ret. }
  destruct (K _ _ _ H') as (new2 & E2 & Hc2).
  exact (Hpre new2 _ E2 Hc2 (Nat.le_refl _)).
Qed.

Lemma adds_analyze_image_at (image_path custom : value) (P : Proc) (bound : nat) :
  (forall (image : Image) (r : exn + bool) (Pb : Proc),
     _load_model py env (opened image_path image (entered custom P)) = (r, Pb) ->
     exists new, trace Pb = new ++ trace (opened image_path image (entered custom P)) /\
                 count p new <= bound) ->
  forall (r : exn + dict) (P' : Proc),
    analyze_image py env image_path custom P = (r, P') ->
    exists new, trace P' = new ++ trace P /\
                count p new <= bound + (queries + queries).
Proof.
  intros Hload r P' H. rewrite analyze_image_unfold in H.
  assert (Hbody : forall rb P1,
             analyze_body py env image_path (started env P) (entered custom P) = (rb, P1) ->
             exists new, trace P1 = new ++ trace P /\
                         count p new <= bound + (queries + queries)).
  { intros rb P1 Hb. unfold analyze_body in Hb. apply bind_inv in Hb.
    assert (Hin : forall new, count p (new ++ [EvTime]) = count p new).
    { intros new. rewrite count_app. unfold count at 2. simpl. rewrite p_time.
      simpl. lia. }
    destruct Hb as [(e & Hq & _) | (reached & Q & Hq & Hk)];
      destruct (adds_analyze_queries_at _ _ _ Hload _ _ Hq) as (new1 & E1 & Hc1).
    - exists (new1 ++ [EvTime]). split; [rewrite E1, <- app_assoc; reflexivity|].
      rewrite Hin. exact Hc1.
    - assert (K : adds_at_most p 0
                    (match reached with
                     | Returned result => ret result
                     | Answered image caption tags_response =>
                         analyze_result py env image_path (started env P)
                                        image caption tags_response
                     end))
        by (destruct reached; [apply adds_ret | apply adds_analyze_result]).
      destruct (K _ _ _ Hk) as (new2 & E2 & Hc2).
      exists (new2 ++ new1 ++ [EvTime]). split.
      + rewrite E2, E1. rewrite <- !app_assoc. reflexivity.
      + rewrite count_app, Hin. lia. }
  destruct (analyze_body py env image_path (started env P) (entered custom P))
    as [[e|d] P1] eqn:Hb.
  - destruct (Hbody _ _ eq_refl) as (new1 & E1 & Hc1).
    destruct (adds_analyze_handler _ e _ _ _ H) as (new2 & E2 & Hc2).
    exists (new2 ++ new1). split; [rewrite E2, E1; apply app_assoc|].
    rewrite count_app. lia.
  - injection H as <- <-. exact (Hbody _ _ eq_refl).
Qed.

Lemma adds_analyze_image (image_path custom : value) :
  adds_at_most p (loads + (queries + queries))
    (analyze_image py env image_path custom).
Proof.
  intros P P' r H.
  exact (adds_analyze_image_at image_path custom P loads
           (fun image r Pb Hl => adds_load_model _ _ _ Hl) r P' H).
Qed.

Lemma adds_health_check : adds_at_most p loads (health_check py env).
Proof.
  unfold health_check.
  apply adds_last; [apply adds_load_model | intros loaded].
  apply adds_then; [apply adds_get_self | intros s].
  destruct loaded; simpl negb; cbv iota; apply adds_ret.
Qed.

End Events.

(** ** The service object across a call *)

Lemma keeps_self_ret {A : Type} (a : A) : keeps_self (ret a).
Proof. intros P P' r H. injection H as _ <-. reflexivity. Qed.

Lemma keeps_self_raise {A : Type} (e : exn) : keeps_self (raise (A:=A) e).
Proof. intros P P' r H. injection H as _ <-. reflexivity. Qed.

Lemma keeps_self_lift {A : Type} (x : exn + A) : keeps_self (lift x).
Proof. intros P P' r H. injection H as _ <-. reflexivity. Qed.

Lemma keeps_self_emit (e : Event) : keeps_self (emit e).
Proof. intros P P' r H. injection H as _ <-. reflexivity. Qed.

Lemma keeps_self_get_self : keeps_self get_self.
Proof. intros P P' r H. injection H as _ <-. reflexivity. Qed.

Lemma keeps_self_set_caller_settings (v : value) : keeps_self (set_caller_settings v).
Proof. intros P P' r H. injection H as _ <-. reflexivity. Qed.

Lemma keeps_self_bind_settings : keeps_self bind_settings.
Proof. intros P P' r H. injection H as _ <-. reflexivity. Qed.

Lemma keeps_self_time_time : keeps_self (time_time env).
Proof. intros P P' r H. injection H as _ <-. reflexivity. Qed.

Lemma keeps_self_query (image : Image) (prompt : string) :
  keeps_self (query env image prompt).
Proof.
  intros P P' r H. unfold query in H.
  destruct (model (self P)); injection H as _ <-; reflexivity.
Qed.

Lemma keeps_self_bind {A B : Type} (m : M Proc A) (k : A -> M Proc B) :
  keeps_self m -> (forall a, keeps_self (k a)) -> keeps_self (bind m k).
Proof.
  intros Hm Hk P P' r H.
  destruct (bind_inv m k P P' r H) as [(e & H1 & _) | (a & Q & H1 & H2)].
  - exact (Hm _ _ _ H1).
  - rewrite (Hk a _ _ _ H2). exact (Hm _ _ _ H1).
Qed.

Lemma keeps_self_try_except_json {A : Type} (m h : M Proc A) :
  keeps_self m -> keeps_self h -> keeps_self (try_except_json m h).
Proof.
  intros Hm Hh P P' r H. unfold try_except_json in H.
  destruct (m P) as [[e|a] Q] eqn:E.
  - destruct (is_JSONDecodeError e).
    + rewrite (Hh _ _ _ H). exact (Hm _ _ _ E).
    + injection H as _ <-. exact (Hm _ _ _ E).
  - injection H as _ <-. exact (Hm _ _ _ E).
Qed.

Lemma keeps_self_parse_tags (tags_response : string) :
  keeps_self (parse_tags py tags_response).
Proof.
  unfold parse_tags. apply keeps_self_try_except_json.
  - destruct (search_braces tags_response); [|apply keeps_self_ret].
    repeat (apply keeps_self_bind; [apply keeps_self_lift | intros ?]).
    apply keeps_self_ret.
  - apply keeps_self_bind; [apply keeps_self_emit | intros _; apply keeps_self_ret].
Qed.

Lemma keeps_self_analyze_result (image_path : value) (start : float) (image : Image)
    (caption tags_response : string) :
  keeps_self (analyze_result py env image_path start image caption tags_response).
Proof.
  unfold analyze_result.
  apply keeps_self_bind; [apply keeps_self_parse_tags | intros data].
  apply keeps_self_bind; [apply keeps_self_time_time | intros now].
  apply keeps_self_bind; [apply keeps_self_lift | intros first_tags].
  apply keeps_self_bind; [apply keeps_self_get_self | intros s].
  apply keeps_self_bind; [apply keeps_self_lift | intros name].
  apply keeps_self_bind; [apply keeps_self_lift | intros repository].
  apply keeps_self_ret.
Qed.

Lemma keeps_self_analyze_handler (start : float) (e : exn) :
  keeps_self (analyze_handler py env start e).
Proof.
  unfold analyze_handler.
  apply keeps_self_bind; [apply keeps_self_emit | intros _].
  apply keeps_self_bind; [apply keeps_self_time_time | intros now].
  apply keeps_self_ret.
Qed.

Lemma sound_of_keeps_self {A : Type} (m : M Proc A) : keeps_self m -> stays_sound m.
Proof. intros Hm P P' r H Hs. rewrite (Hm _ _ _ H). exact Hs. Qed.

Lemma sound_bind {A B : Type} (m : M Proc A) (k : A -> M Proc B) :
  stays_sound m -> (forall a, stays_sound (k a)) -> stays_sound (bind m k).
Proof.
  intros Hm Hk P P' r H Hs.
  destruct (bind_inv m k P P' r H) as [(e & H1 & _) | (a & Q & H1 & H2)].
  - exact (Hm _ _ _ H1 Hs).
  - exact (Hk a _ _ _ H2 (Hm _ _ _ H1 Hs)).
Qed.

Lemma sound_try_except {A : Type} (m : M Proc A) (h : exn -> M Proc A) :
  stays_sound m -> (forall e, stays_sound (h e)) -> stays_sound (try_except m h).
Proof.
  intros Hm Hh P P' r H Hs. unfold try_except in H.
  destruct (m P) as [[e|a] Q] eqn:E.
  - exact (Hh e _ _ _ H (Hm _ _ _ E Hs)).
  - injection H as _ <-. exact (Hm _ _ _ E Hs).
Qed.

Lemma sound_load_model : stays_sound (_load_model py env).
Proof.
  intros P P' r H [Hh Hd]. destruct (_model_loaded (self P)) eqn:Hl.
  - rewrite (load_model_loaded py env P Hl) in H. injection H as _ <-.
    split; [|exact Hd]. intros _. exact (Hh eq_refl).
  - rewrite (load_model_unloaded py env P Hl) in H.
    destruct (load_args (config (self P))) as [e|[repo trust]].
    + injection H as _ <-. split; [|exact Hd]. simpl. intros Hf. congruence.
    + destruct (from_pretrained env _ repo trust) as [e|m]; injection H as _ <-.
      * split; [|exact Hd]. simpl. intros Hf. congruence.
      * split; [|exact Hd]. intros _. exists m. reflexivity.
Qed.

Lemma sound_pop_length (ref : SettingsRef) : stays_sound (pop_length py ref).
Proof.
  intros P P' r H [Hh Hd].
  destruct (pop_length_frame _ _ _ _ H) as (_ & Em & Ed & El).
  split.
  - rewrite El, Em. exact Hh.
  - rewrite Ed. exact Hd.
Qed.

Lemma sound_analyze_queries (image_path : value) :
  stays_sound (analyze_queries py env image_path).
Proof.
  unfold analyze_queries.
  apply sound_bind; [apply sound_of_keeps_self, keeps_self_lift | intros found].
  destruct found; simpl negb; cbv iota;
    [|apply sound_of_keeps_self, keeps_self_ret].
  apply sound_bind; [apply sound_of_keeps_self, keeps_self_lift | intros image].
  apply sound_bind; [apply sound_of_keeps_self, keeps_self_emit | intros _].
  apply sound_bind; [apply sound_load_model | intros loaded].
  destruct loaded; simpl negb; cbv iota;
    [|apply sound_of_keeps_self, keeps_self_ret].
  apply sound_bind; [apply sound_of_keeps_self, keeps_self_bind_settings | intros ref].
  apply sound_bind; [apply sound_pop_length | intros len].
  apply sound_of_keeps_self.
  apply keeps_self_bind; [apply keeps_self_emit | intros _].
  apply keeps_self_bind; [apply keeps_self_query | intros caption_result].
  apply keeps_self_bind; [apply keeps_self_lift | intros caption_answer].
  apply keeps_self_bind; [apply keeps_self_lift | intros caption].
  apply keeps_self_bind; [apply keeps_self_query | intros tags_result].
  apply keeps_self_bind; [apply keeps_self_lift | intros tags_answer].
  apply keeps_self_bind; [apply keeps_self_lift | intros tags_response].
  apply keeps_self_ret.
Qed.

Lemma sound_analyze_image (image_path custom : value) :
  stays_sound (analyze_image py env image_path custom).
Proof.
  unfold analyze_image, analyze_body.
  apply sound_bind;
    [apply sound_of_keeps_self, keeps_self_set_caller_settings | intros _].
  apply sound_bind; [apply sound_of_keeps_self, keeps_self_time_time | intros start].
  apply sound_try_except;
    [|intros e; apply sound_of_keeps_self, keeps_self_analyze_handler].
  apply sound_bind; [apply sound_analyze_queries | intros [d|image caption resp]].
  - apply sound_of_keeps_self, keeps_self_ret.
  - apply sound_of_keeps_self, keeps_self_analyze_result.
Qed.

Lemma sound_health_check : stays_sound (health_check py env).
Proof.
  unfold health_check.
  apply sound_bind; [apply sound_load_model | intros loaded].
  apply sound_bind; [apply sound_of_keeps_self, keeps_self_get_self | intros s].
  destruct loaded; simpl negb; cbv iota; apply sound_of_keeps_self, keeps_self_ret.
Qed.

(** X5: the invariant of the service object. [__init__] always returns,
    and the service that it makes has the flag unset, no model and the
    device [None]: it is sound. [_load_model], [health_check] and
    [analyze_image] leave a sound service sound, however they end: the flag
    is never set without a model handle beside it, and the device stays
    [None]. So the health record of a service that the program made always
    reports the device [None]. *)
Theorem service_stays_sound :
  (forall (config_path : option string) (t : Trace),
     exists (s : Service) (t' : Trace),
       __init__ py env config_path t = (inr s, t') /\
       _model_loaded s = false /\ model s = None /\ device s = PNone /\
       sound s) /\
  (forall (P P' : Proc) (r : exn + bool),
     _load_model py env P = (r, P') -> sound (self P) -> sound (self P')) /\
  (forall (P P' : Proc) (r : exn + dict),
     health_check py env P = (r, P') -> sound (self P) ->
     sound (self P') /\
     forall h, r = inr h -> dict_get h "device" = Some PNone) /\
  (forall (image_path custom : value) (P P' : Proc) (r : exn + dict),
     analyze_image py env image_path custom P = (r, P') -> sound (self P) ->
     sound (self P')).
Proof.
  split; [|split; [|split]].
  - intros config_path t. unfold __init__, bind.
    destruct (load_config_returns py env config_path t) as (cfg & t1 & Hc & _).
    rewrite Hc. unfold ret. eexists _, _. split; [reflexivity|].
    split; [reflexivity|]. split; [reflexivity|]. split; [reflexivity|].
    split; [discriminate | reflexivity].
  - exact sound_load_model.
  - intros P P' r H Hs. split; [exact (sound_health_check _ _ _ H Hs)|].
    intros h ->. destruct (health_check_record py env P) as (b & P1 & _ & Hh).
    rewrite Hh in H. injection H as <- _. simpl. rewrite (proj2 Hs). reflexivity.
  - intros image_path custom. exact (sound_analyze_image image_path custom).
Qed.

(** The flag is never unset. *)
Lemma loaded_load_model (P P' : Proc) (r : exn + bool) :
  _load_model py env P = (r, P') ->
  _model_loaded (self P) = true -> _model_loaded (self P') = true.
Proof.
  intros H Hl. rewrite (load_model_loaded py env P Hl) in H.
  injection H as _ <-. exact Hl.
Qed.

Lemma loaded_stays_loaded (image_path custom : value) (P P' : Proc) (r : exn + dict) :
  analyze_image py env image_path custom P = (r, P') ->
  _model_loaded (self P) = true -> _model_loaded (self P') = true.
Proof.
  intros H Hl. rewrite analyze_image_unfold in H.
  assert (Hq : forall rq Q,
             analyze_queries py env image_path (entered custom P) = (rq, Q) ->
             _model_loaded (self Q) = true).
  { intros rq Q Hrun. unfold analyze_queries in Hrun.
    apply bind_inv in Hrun. destruct Hrun as [(e & H1 & _) | (found & Q0 & H1 & Hrun)].
    { injection H1 as _ <-. exact Hl. }
    apply lift_inv in H1. destruct H1 as [_ ->].
    destruct found; simpl negb in Hrun; cbv iota in Hrun;
      [|injection Hrun as _ <-; exact Hl].
    apply bind_inv in Hrun. destruct Hrun as [(e & H1 & _) | (image & Q0 & H1 & Hrun)].
    { injection H1 as _ <-. exact Hl. }
    apply lift_inv in H1. destruct H1 as [_ ->].
    apply bind_inv in Hrun. destruct Hrun as [(e & H1 & _) | (u & Q0 & H1 & Hrun)];
      [discriminate|].
    injection H1 as _ <-.
    apply bind_inv in Hrun. destruct Hrun as [(e & H1 & _) | (loaded & Pb & H1 & Hrun)].
    { exact (loaded_load_model _ _ _ H1 Hl). }
    pose proof (loaded_load_model _ _ _ H1 Hl) as Hb.
    destruct loaded; simpl negb in Hrun; cbv iota in Hrun;
      [|injection Hrun as _ <-; exact Hb].
    apply bind_inv in Hrun. destruct Hrun as [(e & H2 & _) | (ref & Q0 & H2 & Hrun)];
      [discriminate|].
    injection H2 as _ <-.
    apply bind_inv in Hrun. destruct Hrun as [(e & H2 & _) | (len & Pc & H2 & Hrun)].
    { destruct (pop_length_frame _ _ _ _ H2) as (_ & _ & _ & El). congruence. }
    destruct (pop_length_frame _ _ _ _ H2) as (_ & _ & _ & El).
    match type of Hrun with
    | ?m Pc = _ => assert (K : keeps_self m)
    end.
    { apply keeps_self_bind; [apply keeps_self_emit | intros _].
      apply keeps_self_bind; [apply keeps_self_query | intros caption_result].
      apply keeps_self_bind; [apply keeps_self_lift | intros caption_answer].
      apply keeps_self_bind; [apply keeps_self_lift | intros caption].
      apply keeps_self_bind; [apply keeps_self_query | intros tags_result].
      apply keeps_self_bind; [apply keeps_self_lift | intros tags_answer].
      apply keeps_self_bind; [apply keeps_self_lift | intros tags_response].
      apply keeps_self_ret. }
    rewrite (K _ _ _ Hrun). congruence. }
  assert (Hb : forall rb P1,
             analyze_body py env image_path (started env P) (entered custom P) = (rb, P1) ->
             _model_loaded (self P1) = true).
  { intros rb P1 Hrun. unfold analyze_body in Hrun. apply bind_inv in Hrun.
    destruct Hrun as [(e & H1 & _) | (reached & Q & H1 & H2)].
    - exact (Hq _ _ H1).
    - destruct reached.
      + injection H2 as _ <-. exact (Hq _ _ H1).
      + rewrite (keeps_self_analyze_result _ _ _ _ _ _ _ _ H2). exact (Hq _ _ H1). }
  destruct (analyze_body py env image_path (started env P) (entered custom P))
    as [[e|d] P1] eqn:E.
  - rewrite (keeps_self_analyze_handler _ _ _ _ _ H). exact (Hb _ _ eq_refl).
  - injection H as _ <-. exact (Hb _ _ eq_refl).
Qed.

(** ** What a call may do to the outside world *)

(** What [analyze_image] adds to the trace, given a bound on the calls of
    the library that its load makes. *)
Lemma analyze_image_events_at (image_path custom : value) (P P' : Proc)
    (r : exn + dict) (bound : nat) :
  (forall (image : Image) (rl : exn + bool) (Pb : Proc),
     _load_model py env (opened image_path image (entered custom P)) = (rl, Pb) ->
     exists new, trace Pb = new ++ trace (opened image_path image (entered custom P)) /\
                 count is_load new <= bound) ->
  analyze_image py env image_path custom P = (r, P') ->
  exists new : list Event,
    trace P' = new ++ trace P /\
    count is_load new <= bound /\ count is_query new <= 2 /\
    count is_stdout new = 0 /\ count is_stdin new = 0.
Proof.
  intros Hload H.
  destruct (adds_analyze_image_at is_load 0 eq_refl (fun _ _ _ => eq_refl)
              (fun _ _ _ => Nat.le_refl _) image_path custom P bound Hload r P' H)
    as (new & E & Cl).
  destruct (adds_analyze_image is_query 0 1 eq_refl (fun _ _ _ => eq_refl)
              (fun _ _ => Nat.le_refl _) (fun _ _ _ => Nat.le_refl _)
              image_path custom P P' r H) as (n2 & E2 & Cq).
  destruct (adds_analyze_image is_stdout 0 0 eq_refl (fun _ _ _ => eq_refl)
              (fun _ _ => Nat.le_refl _) (fun _ _ _ => Nat.le_refl _)
              image_path custom P P' r H) as (n3 & E3 & Co).
  destruct (adds_analyze_image is_stdin 0 0 eq_refl (fun _ _ _ => eq_refl)
              (fun _ _ => Nat.le_refl _) (fun _ _ _ => Nat.le_refl _)
              image_path custom P P' r H) as (n4 & E4 & Ci).
  rewrite E in E2, E3, E4.
  apply app_inv_tail in E2, E3, E4. subst n2 n3 n4.
  exists new. split; [exact E|]. simpl in *. repeat split; lia.
Qed.

Lemma analyze_image_events (image_path custom : value) (P P' : Proc) (r : exn + dict) :
  analyze_image py env image_path custom P = (r, P') ->
  exists new : list Event,
    trace P' = new ++ trace P /\
    count is_load new <= 1 /\ count is_query new <= 2 /\
    count is_stdout new = 0 /\ count is_stdin new = 0.
Proof.
  apply analyze_image_events_at. intros image rl Pb Hl.
  exact (adds_load_model is_load 1 (fun _ _ _ => eq_refl)
           (fun _ _ => Nat.le_refl _) _ _ _ Hl).
Qed.

Lemma health_check_events (P P' : Proc) (r : exn + dict) :
  health_check py env P = (r, P') ->
  exists new : list Event,
    trace P' = new ++ trace P /\
    count is_load new <= 1 /\ count is_query new = 0 /\
    count is_stdout new = 0 /\ count is_stdin new = 0.
Proof.
  intros H.
  destruct (adds_health_check is_load 1 (fun _ _ _ => eq_refl)
              (fun _ _ => Nat.le_refl _) P P' r H) as (new & E & Cl).
  destruct (adds_health_check is_query 0 (fun _ _ _ => eq_refl)
              (fun _ _ => Nat.le_refl _) P P' r H) as (n2 & E2 & Cq).
  destruct (adds_health_check is_stdout 0 (fun _ _ _ => eq_refl)
              (fun _ _ => Nat.le_refl _) P P' r H) as (n3 & E3 & Co).
  destruct (adds_health_check is_stdin 0 (fun _ _ _ => eq_refl)
              (fun _ _ => Nat.le_refl _) P P' r H) as (n4 & E4 & Ci).
  rewrite E in E2, E3, E4.
  apply app_inv_tail in E2, E3, E4. subst n2 n3 n4.
  exists new. split; [exact E|]. repeat split; lia.
Qed.

(** X6: what one call of [analyze_image] may do, however it ends. It only
    adds to the trace; it calls [from_pretrained] at most once and the
    model at most twice; it prints nothing on standard output and does not
    read standard input. *)
Theorem analyze_image_effects (image_path custom : value) (P : Proc) :
  exists new : list Event,
    trace (snd (analyze_image py env image_path custom P)) = new ++ trace P /\
    count is_load new <= 1 /\ count is_query new <= 2 /\
    count is_stdout new = 0 /\ count is_stdin new = 0.
Proof.
  destruct (analyze_image py env image_path custom P) as [r P'] eqn:H.
  exact (analyze_image_events _ _ _ _ _ H).
Qed.

(** X7: what one call of [health_check] may do. It never raises; it calls
    [from_pretrained] at most once and never queries the model; it prints
    nothing and reads nothing; and it leaves the configuration and the
    caller's settings as they are. *)
Theorem health_check_effects (P : Proc) :
  exists (h : dict) (P' : Proc) (new : list Event),
    health_check py env P = (inr h, P') /\
    trace P' = new ++ trace P /\
    count is_load new <= 1 /\ count is_query new = 0 /\
    count is_stdout new = 0 /\ count is_stdin new = 0 /\
    config (self P') = config (self P) /\
    caller_settings P' = caller_settings P.
Proof.
  destruct (health_check_record py env P) as (b & P' & Hl & Hh).
  destruct (health_check_events _ _ _ Hh) as (new & E & Cl & Cq & Co & Ci).
  destruct (keeps_load_model py env _ _ _ Hl) as (Ec & Es & _).
  eexists _, P', new. split; [exact Hh|]. repeat split; assumption.
Qed.

(** X8: on a service whose model is loaded, neither method goes to the
    library again. [health_check] returns the [healthy] record and changes
    nothing at all; [analyze_image], however it ends, makes no call of
    [from_pretrained] and leaves the flag set. *)
Theorem loaded_service_is_not_reloaded (P : Proc) :
  _model_loaded (self P) = true ->
  health_check py env P
  = (inr (obj [ ("status", PStr "healthy");
                ("model_loaded", PBool true);
                ("device", device (self P));
                ("config", PDict (config (self P))) ]), P) /\
  (forall (image_path custom : value),
     exists new : list Event,
       trace (snd (analyze_image py env image_path custom P)) = new ++ trace P /\
       count is_load new = 0 /\
       _model_loaded (self (snd (analyze_image py env image_path custom P))) = true).
Proof.
  intros Hl. split.
  - destruct (health_check_record py env P) as (b & P' & Hb & Hh).
    rewrite (load_model_loaded py env P Hl) in Hb. injection Hb as <- <-.
    exact Hh.
  - intros image_path custom.
    destruct (analyze_image py env image_path custom P) as [r P'] eqn:H.
    assert (Hload : forall (image : Image) (rl : exn + bool) (Pb : Proc),
               _load_model py env (opened image_path image (entered custom P)) = (rl, Pb) ->
               exists new,
                 trace Pb = new ++ trace (opened image_path image (entered custom P)) /\
                 count is_load new <= 0).
    { intros image rl Pb Hrun. rewrite load_model_loaded in Hrun by exact Hl.
      injection Hrun as _ <-. exists []. split; [reflexivity | apply Nat.le_refl]. }
    destruct (analyze_image_events_at _ _ _ _ _ 0 Hload H) as (new & E & Cl & _).
    exists new. split; [exact E|]. split; [simpl; lia|].
    simpl. apply (loaded_stays_loaded _ _ _ _ _ H Hl).
Qed.

(** ** The results of [analyze_image] (lines 105-210) *)

Lemma filter_none (p : Event -> bool) (l : list Event) :
  count p l = 0 -> filter p l = [].
Proof. unfold count. intros H. apply length_zero_iff_nil. exact H. Qed.

Lemma query_returns (image : Image) (prompt : string) (P Q : Proc) (v : value) :
  query env image prompt P = (inr v, Q) ->
  exists m : Model,
    model (self P) = Some m /\
    Q = mkProc (self P) (caller_settings P) (EvQuery m image prompt :: trace P).
Proof.
  unfold query. destruct (model (self P)) as [m|]; [|discriminate].
  intros H. injection H as _ <-. exists m. split; reflexivity.
Qed.

(** The two returns of the first part of the try. *)
Lemma analyze_queries_returns (image_path : value) (P0 Q : Proc) (d : dict) :
  analyze_queries py env image_path P0 = (inr (Returned d), Q) ->
  (d = obj [ ("error", PStr ("Image file not found: " ++ fmt_value py image_path));
             ("status", PStr "file_error") ] /\
   os_path_exists env image_path = inr false /\ Q = P0) \/
  (d = obj [ ("error", PStr "Failed to load ML model");
             ("status", PStr "model_error") ] /\
   exists image : Image,
     Image_open env image_path = inr image /\
     _load_model py env (opened image_path image P0) = (inr false, Q)).
Proof.
  unfold analyze_queries. intros H.
  apply bind_inr_inv in H. destruct H as (found & Q0 & H1 & H).
  apply lift_inv in H1. destruct H1 as [Hex ->].
  destruct found; simpl negb in H; cbv iota in H.
  - right. apply bind_inr_inv in H. destruct H as (image & Q0 & H1 & H).
    apply lift_inv in H1. destruct H1 as [Hop ->].
    apply bind_inr_inv in H. destruct H as (u & Q0 & H1 & H).
    injection H1 as _ <-.
    apply bind_inr_inv in H. destruct H as (loaded & Pb & H1 & H).
    destruct loaded; simpl negb in H; cbv iota in H.
    + apply bind_inr_inv in H. destruct H as (ref & Q1 & _ & H).
      apply bind_inr_inv in H. destruct H as (len & Q2 & _ & H).
      apply bind_inr_inv in H. destruct H as (u1 & Q3 & _ & H).
      apply bind_inr_inv in H. destruct H as (cr & Q4 & _ & H).
      apply bind_inr_inv in H. destruct H as (ca & Q5 & _ & H).
      apply bind_inr_inv in H. destruct H as (cp & Q6 & _ & H).
      apply bind_inr_inv in H. destruct H as (tr & Q7 & _ & H).
      apply bind_inr_inv in H. destruct H as (ta & Q8 & _ & H).
      apply bind_inr_inv in H. destruct H as (ts & Q9 & _ & H).
      discriminate.
    + injection H as <- <-. split; [reflexivity|].
      exists image. split; [symmetry; exact Hop | exact H1].
  - left. injection H as <- <-. repeat split. symmetry. exact Hex.
Qed.

(** The first part of the try when it ends with the two answers. *)
Lemma analyze_queries_asked (image_path : value) (image : Image)
    (caption resp : string) (P0 P1 : Proc) :
  analyze_queries py env image_path P0 = (inr (Answered image caption resp), P1) ->
  exists (Pb : Proc) (m : Model),
    _load_model py env (opened image_path image P0) = (inr true, Pb) /\
    model (self Pb) = Some m /\
    model (self P1) = Some m /\
    trace P1 = EvQuery m image tags_prompt :: EvQuery m image caption_prompt
               :: EvLog INFO "Generating analysis..." [] :: trace Pb.
Proof.
  unfold analyze_queries. intros H.
  apply bind_inr_inv in H. destruct H as (found & Q0 & H1 & H).
  apply lift_inv in H1. destruct H1 as [_ ->].
  destruct found; simpl negb in H; cbv iota in H; [|discriminate].
  apply bind_inr_inv in H. destruct H as (image' & Q0 & H1 & H).
  apply lift_inv in H1. destruct H1 as [_ ->].
  apply bind_inr_inv in H. destruct H as (u & Q0 & H1 & H).
  injection H1 as _ <-.
  apply bind_inr_inv in H. destruct H as (loaded & Pb & Hl & H).
  destruct loaded; simpl negb in H; cbv iota in H; [|discriminate].
  apply bind_inr_inv in H. destruct H as (ref & Q1 & H1 & H).
  injection H1 as _ <-.
  apply bind_inr_inv in H. destruct H as (len & Pc & Hp & H).
  destruct (pop_length_frame _ _ _ _ Hp) as (Et & Em & _ & _).
  apply bind_inr_inv in H. destruct H as (u1 & Q3 & H1 & H).
  injection H1 as _ <-.
  apply bind_inr_inv in H. destruct H as (cr & Q4 & H1 & H).
  apply query_returns in H1. destruct H1 as (m & Hm & ->).
  apply bind_inr_inv in H. destruct H as (ca & Q5 & H1 & H).
  apply lift_inv in H1. destruct H1 as [_ ->].
  apply bind_inr_inv in H. destruct H as (cp & Q6 & H1 & H).
  apply lift_inv in H1. destruct H1 as [_ ->].
  apply bind_inr_inv in H. destruct H as (tr & Q7 & H1 & H).
  apply query_returns in H1. destruct H1 as (m' & Hm' & ->).
  apply bind_inr_inv in H. destruct H as (ta & Q8 & H1 & H).
  apply lift_inv in H1. destruct H1 as [_ ->].
  apply bind_inr_inv in H. destruct H as (ts & Q9 & H1 & H).
  apply lift_inv in H1. destruct H1 as [_ ->].
  unfold ret in H. injection H as <- _ _ <-.
  simpl in Hm, Hm'. rewrite Hm in Hm'. injection Hm' as <-.
  exists Pb, m. split; [exact Hl|]. rewrite <- Em. split; [exact Hm|].
  split; [exact Hm|]. simpl. rewrite Et. reflexivity.
Qed.

(** The record of a success, as the second part of the try builds it. *)
Lemma analyze_result_record (image_path : value) (start : float) (image : Image)
    (caption resp : string) (P1 P' : Proc) (result : dict) :
  analyze_result py env image_path start image caption resp P1 = (inr result, P') ->
  exists (first_tags objects scene colors actions name repository : value)
         (elapsed : float),
    result = obj [ ("status", PStr "success");
                   ("caption", PStr caption);
                   ("tags", first_tags);
                   ("analysis", PDict (obj [ ("objects", objects); ("scene", scene);
                                             ("colors", colors); ("actions", actions) ]));
                   ("processing_time", PFloat elapsed);
                   ("image_path", image_path);
                   ("image_size", size_value image);
                   ("model_info", PDict (obj [ ("name", name);
                                               ("repository", repository) ])) ].
Proof.
  unfold analyze_result. intros H.
  apply bind_inr_inv in H. destruct H as (data & Q1 & _ & H).
  apply bind_inr_inv in H. destruct H as (now & Q2 & _ & H).
  apply bind_inr_inv in H. destruct H as (first_tags & Q3 & _ & H).
  apply bind_inr_inv in H. destruct H as (s & Q4 & _ & H).
  apply bind_inr_inv in H. destruct H as (name & Q5 & _ & H).
  apply bind_inr_inv in H. destruct H as (repository & Q6 & _ & H).
  unfold ret in H. injection H as <- _.
  eexists _, _, _, _, _, _, _, _. reflexivity.
Qed.

(** X9: a success has asked the model exactly twice. When [analyze_image]
    returns a success, the image was opened and the service holds a model;
    the call has made two queries, with that image and that model, the
    caption prompt first and the tag prompt second; and the record carries
    the size of that image. *)
Theorem success_asks_twice
    (image_path custom : value) (P P' : Proc) (result : dict) :
  analyze_image py env image_path custom P = (inr result, P') ->
  dict_get result "status" = Some (PStr "success") ->
  exists (m : Model) (image : Image),
    Image_open env image_path = inr image /\
    model (self P') = Some m /\
    filter is_query (trace P')
    = EvQuery m image tags_prompt :: EvQuery m image caption_prompt
      :: filter is_query (trace P) /\
    dict_get result "image_size" = Some (size_value image).
Proof.
  intros H Hs. rewrite analyze_image_unfold in H.
  destruct (analyze_body py env image_path (started env P) (entered custom P))
    as [[e|d] P1] eqn:Hb.
  { rewrite analyze_handler_unfold in H. injection H as <- _. discriminate. }
  injection H as -> ->. unfold analyze_body in Hb.
  apply bind_inr_inv in Hb. destruct Hb as (reached & Q & Hq & Hb).
  destruct reached as [d|image caption resp].
  { unfold ret in Hb. injection Hb as -> _.
    destruct (analyze_queries_returned py env _ _ _ _ Hq) as [E|E];
      rewrite E in Hs; discriminate. }
  destruct (analyze_queries_answered py env _ _ _ _ _ _ Hq) as [_ Hop].
  destruct (analyze_queries_asked _ _ _ _ _ _ Hq) as (Pb & m & Hl & _ & Hm & Et).
  destruct (analyze_result_record _ _ _ _ _ _ _ _ Hb)
    as (ft & ob & sc & co & ac & nm & rp & el & ->).
  exists m, image. split; [exact Hop|].
  split; [rewrite (keeps_self_analyze_result _ _ _ _ _ _ _ _ Hb); exact Hm|].
  split; [|reflexivity].
  destruct (adds_analyze_result is_query eq_refl (fun _ _ _ => eq_refl)
              _ _ _ _ _ _ _ _ Hb) as (new2 & E2 & C2).
  destruct (adds_load_model is_query 0 (fun _ _ _ => eq_refl)
              (fun _ _ => Nat.le_refl _) _ _ _ Hl) as (new1 & E1 & C1).
  rewrite E2, Et, E1. rewrite filter_app.
  rewrite (filter_none is_query new2) by lia.
  simpl. rewrite filter_app. rewrite (filter_none is_query new1) by lia.
  reflexivity.
Qed.

(** X10: a [model_error] has touched nothing. When [analyze_image] returns
    the record of a [model_error], the image had been opened, the flag of
    the service is still unset, no query was made, and the pop of line 129
    did not run: the configuration and the caller's settings are as they
    were. *)
Theorem model_error_touches_nothing
    (image_path custom : value) (P P' : Proc) (result : dict) :
  analyze_image py env image_path custom P = (inr result, P') ->
  dict_get result "status" = Some (PStr "model_error") ->
  result = obj [ ("error", PStr "Failed to load ML model");
                 ("status", PStr "model_error") ] /\
  (exists image, Image_open env image_path = inr image) /\
  _model_loaded (self P') = false /\
  config (self P') = config (self P) /\
  caller_settings P' = custom /\
  filter is_query (trace P') = filter is_query (trace P).
Proof.
  intros H Hs. rewrite analyze_image_unfold in H.
  destruct (analyze_body py env image_path (started env P) (entered custom P))
    as [[e|d] P1] eqn:Hb.
  { rewrite analyze_handler_unfold in H. injection H as <- _. discriminate. }
  injection H as -> ->. unfold analyze_body in Hb.
  apply bind_inr_inv in Hb. destruct Hb as (reached & Q & Hq & Hb).
  destruct reached as [d|image caption resp].
  2:{ destruct (analyze_result_record _ _ _ _ _ _ _ _ Hb)
        as (ft & ob & sc & co & ac & nm & rp & el & ->). discriminate. }
  unfold ret in Hb. injection Hb as -> ->.
  destruct (analyze_queries_returns _ _ _ _ Hq)
    as [(-> & _) | (-> & image & Hop & Hl)]; [discriminate|].
  split; [reflexivity|]. split; [exists image; exact Hop|].
  destruct (load_model_flag py env _ _ _ Hl) as [Hf _].
  destruct (keeps_load_model py env _ _ _ Hl) as (Ec & Es & _).
  destruct (adds_load_model is_query 0 (fun _ _ _ => eq_refl)
              (fun _ _ => Nat.le_refl _) _ _ _ Hl) as (new1 & E1 & C1).
  split; [exact Hf|]. split; [exact Ec|]. split; [exact Es|].
  rewrite E1, filter_app. rewrite (filter_none is_query new1) by lia. reflexivity.
Qed.

(** X11: a failure before the load. When the path exists and [Image.open]
    raises, or when [os.path.exists] itself raises (a path that is neither a
    string nor an integer), the call returns an [analysis_error] with the
    text of that exception and the time between the two readings of the
    clock; the service is left as it was and the model is neither loaded nor
    asked. *)
Theorem failure_before_the_load (image_path custom : value) (P : Proc) (e : exn) :
  os_path_exists env image_path = inl e \/
  (os_path_exists env image_path = inr true /\ Image_open env image_path = inl e) ->
  analyze_image py env image_path custom P
  = (inr (obj [ ("error", PStr (exn_str py e));
                ("status", PStr "analysis_error");
                ("processing_time",
                 PFloat (PrimFloat.sub (clock env (S (count is_time (trace P))))
                                       (clock env (count is_time (trace P))))) ]),
     mkProc (self P) custom
            (EvTime :: EvLog ERROR "Error analyzing image: {}" [PStr (exn_str py e)]
                    :: EvTime :: trace P)).
Proof.
  intros H. rewrite analyze_image_unfold.
  assert (Hb : analyze_body py env image_path (started env P) (entered custom P)
               = (inl e, entered custom P)).
  { unfold analyze_body, analyze_queries.
    cbv beta iota delta [bind lift].
    destruct H as [H | [H H']]; rewrite H; cbv beta iota; [reflexivity|].
    simpl negb. cbv iota. rewrite H'. reflexivity. }
  rewrite Hb. rewrite analyze_handler_unfold. reflexivity.
Qed.

(** X12: the four shapes of a result. [analyze_image] always returns a
    record, and the record is one of four: a [file_error] or a
    [model_error] with a message; an [analysis_error] with a message and a
    processing time; or a success with exactly the eight entries [status],
    [caption], [tags], [analysis] (itself [objects], [scene], [colors],
    [actions]), [processing_time], [image_path] (the argument, as given),
    [image_size] and [model_info] ([name], [repository]). *)
Theorem result_has_one_of_four_shapes (image_path custom : value) (P : Proc) :
  exists result : dict,
    fst (analyze_image py env image_path custom P) = inr result /\
    ((exists msg, result = obj [ ("error", PStr msg); ("status", PStr "file_error") ]) \/
     (exists msg, result = obj [ ("error", PStr msg); ("status", PStr "model_error") ]) \/
     (exists msg elapsed,
        result = obj [ ("error", PStr msg); ("status", PStr "analysis_error");
                       ("processing_time", PFloat elapsed) ]) \/
     (exists (caption : string)
             (first_tags objects scene colors actions size name repository : value)
             (elapsed : float),
        result = obj [ ("status", PStr "success");
                       ("caption", PStr caption);
                       ("tags", first_tags);
                       ("analysis", PDict (obj [ ("objects", objects); ("scene", scene);
                                                 ("colors", colors); ("actions", actions) ]));
                       ("processing_time", PFloat elapsed);
                       ("image_path", image_path);
                       ("image_size", size);
                       ("model_info", PDict (obj [ ("name", name);
                                                   ("repository", repository) ])) ])).
Proof.
  rewrite analyze_image_unfold.
  destruct (analyze_body py env image_path (started env P) (entered custom P))
    as [[e|d] P1] eqn:Hb.
  { rewrite analyze_handler_unfold. eexists. split; [reflexivity|].
    right. right. left. eexists _, _. reflexivity. }
  exists d. split; [reflexivity|]. unfold analyze_body in Hb.
  apply bind_inr_inv in Hb. destruct Hb as (reached & Q & Hq & Hb).
  destruct reached as [d'|image caption resp].
  - unfold ret in Hb. injection Hb as -> _.
    destruct (analyze_queries_returns _ _ _ _ Hq) as [(-> & _) | (-> & _)].
    + left. eexists. reflexivity.
    + right. left. eexists. reflexivity.
  - destruct (analyze_result_record _ _ _ _ _ _ _ _ Hb)
      as (ft & ob & sc & co & ac & nm & rp & el & ->).
    right. right. right. eexists _, _, _, _, _, _, _, _, _, _. reflexivity.
Qed.

(** ** What [analyze_image] changes in the configuration (line 129) *)

Lemma dict_remove_absent (d : dict) (k : string) :
  dict_get d k = None -> dict_remove d k = d.
Proof.
  induction d as [|[k' v'] r IH]; [reflexivity|].
  unfold dict_remove. simpl. unfold is_key at 1. simpl.
  destruct k'; simpl; intros H; try (f_equal; exact (IH H)).
  destruct (String.eqb k s); [discriminate|]. simpl. f_equal. exact (IH H).
Qed.

Lemma dict_set_same (d : dict) (k : string) (v : value) :
  dict_get d k = Some v -> dict_set py d (PStr k) v = d.
Proof.
  induction d as [|[k' v'] r IH]; [discriminate|].
  simpl. destruct k'; simpl; intros H; try (f_equal; exact (IH H)).
  destruct (String.eqb k s).
  - injection H as ->. reflexivity.
  - f_equal. exact (IH H).
Qed.

(** The choice of the settings and the pop, together. *)
Lemma settings_pop_config (P Q Pc : Proc) (ref : SettingsRef) (r : exn + value) :
  bind_settings P = (inr ref, Q) ->
  pop_length py ref Q = (r, Pc) ->
  config (self Pc) = config (self P) \/
  (truthy (caller_settings P) = false /\
   exists gs : dict,
     dict_get (config (self P)) "generationSettings" = Some (PDict gs) /\
     config (self Pc)
     = dict_set py (config (self P)) (PStr "generationSettings")
                (PDict (dict_remove gs "length"))).
Proof.
  unfold bind_settings. intros H. injection H as <- <-.
  unfold pop_length, bind, read_ref. cbv beta iota.
  destruct (truthy (caller_settings P)) eqn:Ht.
  - intros H. left.
    destruct (caller_settings P); unfold raise, write_ref, ret in H;
      cbv beta iota in H; injection H as _ <-; reflexivity.
  - unfold has_key, dict_get_default.
    destruct (dict_get (config (self P)) "generationSettings") as [v|] eqn:Hg.
    + destruct v; unfold raise, write_ref, ret; cbv beta iota; intros H;
        injection H as _ <-; try (left; reflexivity).
      right. split; [reflexivity|]. eexists. split; reflexivity.
    + unfold write_ref, ret. cbv beta iota. intros H. injection H as _ <-.
      left. reflexivity.
Qed.

Lemma analyze_queries_config (image_path : value) (P0 Q : Proc) (r : exn + Progress) :
  analyze_queries py env image_path P0 = (r, Q) ->
  config (self Q) = config (self P0) \/
  (truthy (caller_settings P0) = false /\
   exists gs : dict,
     dict_get (config (self P0)) "generationSettings" = Some (PDict gs) /\
     config (self Q)
     = dict_set py (config (self P0)) (PStr "generationSettings")
                (PDict (dict_remove gs "length"))).
Proof.
  unfold analyze_queries. intros H.
  apply bind_inv in H. destruct H as [(e & H & _) | (found & Q0 & H1 & H)].
  { apply lift_inv in H. destruct H as [_ ->]. left. reflexivity. }
  apply lift_inv in H1. destruct H1 as [_ ->].
  destruct found; simpl negb in H; cbv iota in H.
  2:{ injection H as _ <-. left. reflexivity. }
  apply bind_inv in H. destruct H as [(e & H & _) | (image & Q0 & H1 & H)].
  { apply lift_inv in H. destruct H as [_ ->]. left. reflexivity. }
  apply lift_inv in H1. destruct H1 as [_ ->].
  apply bind_inv in H. destruct H as [(e & H & _) | (u & Q0 & H1 & H)].
  { discriminate. }
  injection H1 as _ <-.
  apply bind_inv in H. destruct H as [(e & H & _) | (loaded & Pb & Hl & H)].
  { destruct (keeps_load_model py env _ _ _ H) as (Ec & _). left. exact Ec. }
  destruct (keeps_load_model py env _ _ _ Hl) as (Ec & Es & _).
  simpl in Ec, Es.
  destruct loaded; simpl negb in H; cbv iota in H.
  2:{ injection H as _ <-. left. exact Ec. }
  apply bind_inv in H. destruct H as [(e & H & _) | (ref & Q1 & Hr & H)].
  { discriminate. }
  assert (Hpop : forall (rp : exn + value) (Pc : Proc),
             pop_length py ref Q1 = (rp, Pc) ->
             config (self Pc) = config (self P0) \/
             (truthy (caller_settings P0) = false /\
              exists gs : dict,
                dict_get (config (self P0)) "generationSettings" = Some (PDict gs) /\
                config (self Pc)
                = dict_set py (config (self P0)) (PStr "generationSettings")
                           (PDict (dict_remove gs "length")))).
  { intros rp Pc Hp. rewrite <- Ec, <- Es.
    exact (settings_pop_config _ _ _ _ _ Hr Hp). }
  apply bind_inv in H. destruct H as [(e & H & _) | (len & Pc & Hp & H)].
  { exact (Hpop _ _ H). }
  assert (Hk : self Q = self Pc).
  { revert H. generalize Pc Q r.
    change (keeps_self
              (emit (EvLog INFO "Generating analysis..." []) ;;
               caption_result <- query env image caption_prompt ;;
               caption_answer <- lift (py_get caption_result "answer" (PStr "")) ;;
               caption <- lift (py_strip caption_answer) ;;
               tags_result <- query env image tags_prompt ;;
               tags_answer <- lift (py_get tags_result "answer" (PStr "")) ;;
               tags_response <- lift (py_strip tags_answer) ;;
               ret (Answered image caption tags_response))).
    apply keeps_self_bind; [apply keeps_self_emit | intros _].
    apply keeps_self_bind; [apply keeps_self_query | intros caption_result].
    apply keeps_self_bind; [apply keeps_self_lift | intros caption_answer].
    apply keeps_self_bind; [apply keeps_self_lift | intros caption].
    apply keeps_self_bind; [apply keeps_self_query | intros tags_result].
    apply keeps_self_bind; [apply keeps_self_lift | intros tags_answer].
    apply keeps_self_bind; [apply keeps_self_lift | intros tags_response].
    apply keeps_self_ret. }
  rewrite Hk. exact (Hpop _ _ Hp).
Qed.

(** X13: all that [analyze_image] ever changes in the configuration is the
    key [length] of the stored generation settings. However the call ends,
    the configuration is afterwards either the same, or (only when no
    custom settings were given and the entry [generationSettings] is a
    mapping) the same with [length] removed from that mapping. So every
    other entry reads as before, and once [length] is gone a further call
    without custom settings changes nothing. *)
Theorem analyze_image_changes_only_length (image_path custom : value) (P : Proc) :
  (config (self (snd (analyze_image py env image_path custom P))) = config (self P) \/
   (truthy custom = false /\
    exists gs : dict,
      dict_get (config (self P)) "generationSettings" = Some (PDict gs) /\
      config (self (snd (analyze_image py env image_path custom P)))
      = dict_set py (config (self P)) (PStr "generationSettings")
                 (PDict (dict_remove gs "length")))) /\
  (forall k : string,
     String.eqb k "generationSettings" = false ->
     dict_get (config (self (snd (analyze_image py env image_path custom P)))) k
     = dict_get (config (self P)) k) /\
  (forall gs : dict,
     dict_get (config (self P)) "generationSettings" = Some (PDict gs) ->
     dict_get gs "length" = None ->
     config (self (snd (analyze_image py env image_path custom P))) = config (self P)).
Proof.
  assert (Hmain :
    config (self (snd (analyze_image py env image_path custom P))) = config (self P) \/
    (truthy custom = false /\
     exists gs : dict,
       dict_get (config (self P)) "generationSettings" = Some (PDict gs) /\
       config (self (snd (analyze_image py env image_path custom P)))
       = dict_set py (config (self P)) (PStr "generationSettings")
                  (PDict (dict_remove gs "length")))).
  { rewrite analyze_image_unfold.
    destruct (analyze_body py env image_path (started env P) (entered custom P))
      as [r P1] eqn:Hb.
    assert (Hc : config (self P1) = config (self P) \/
                 (truthy custom = false /\
                  exists gs : dict,
                    dict_get (config (self P)) "generationSettings" = Some (PDict gs) /\
                    config (self P1)
                    = dict_set py (config (self P)) (PStr "generationSettings")
                               (PDict (dict_remove gs "length")))).
    { unfold analyze_body in Hb. apply bind_inv in Hb.
      destruct Hb as [(e & Hq & _) | (reached & Q & Hq & Hb)].
      - exact (analyze_queries_config _ _ _ _ Hq).
      - assert (Hs : self P1 = self Q).
        { destruct reached as [d|image caption resp].
          + injection Hb as _ <-. reflexivity.
          + exact (keeps_self_analyze_result _ _ _ _ _ _ _ _ Hb). }
        rewrite Hs. exact (analyze_queries_config _ _ _ _ Hq). }
    destruct r as [e|d]; [rewrite analyze_handler_unfold|]; exact Hc. }
  split; [exact Hmain|]. split.
  - intros k Hk. destruct Hmain as [-> | (_ & gs & _ & ->)]; [reflexivity|].
    rewrite (dict_get_set_str py). rewrite Hk. reflexivity.
  - intros gs Hg Hn. destruct Hmain as [E | (_ & gs' & Hg' & E)]; [exact E|].
    rewrite E. rewrite Hg in Hg'. injection Hg' as <-.
    rewrite (dict_remove_absent _ _ Hn). apply dict_set_same. exact Hg.
Qed.

(** ** The process: the guarded imports and [main] (lines 24-33, 230-268) *)

Lemma count_cons (p : Event -> bool) (e : Event) (l : list Event) :
  count p (e :: l) = (if p e then 1 else 0) + count p l.
Proof. unfold count. simpl. destruct (p e); reflexivity. Qed.

Lemma stdout_of_app (a b : list Event) :
  stdout_of (a ++ b) = stdout_of b ++ stdout_of a.
Proof. unfold stdout_of. rewrite flat_map_app, rev_app_distr. reflexivity. Qed.

Lemma stdout_of_none (l : list Event) : count is_stdout l = 0 -> stdout_of l = [].
Proof.
  induction l as [|e l IH]; [reflexivity|].
  rewrite count_cons, stdout_of_cons.
  destruct e; simpl; intros H; try (rewrite (IH H); reflexivity).
  discriminate.
Qed.

(** [_load_config] writes at most one warning to the log. *)
Lemma load_config_events (config_path : option string) (t : Trace) :
  exists (cfg : dict) (new : list Event),
    _load_config py env config_path t = (inr cfg, new ++ t) /\
    forall p : Event -> bool,
      (forall lvl fmt args, p (EvLog lvl fmt args) = false) -> count p new = 0.
Proof.
  unfold _load_config. destruct config_path as [path|];
    [|exists default_config, []; split; reflexivity].
  destruct (negb (String.eqb path "") && path_exists env path);
    [|exists default_config, []; split; reflexivity].
  cbv zeta.
  match goal with
  | |- context [match ?x with pair _ _ => _ end] => destruct x as [[e|u] cfg]
  end.
  - exists cfg, [EvLog WARNING "Failed to load config from {}: {}"
                       [PStr path; PStr (exn_str py e)]].
    split; [reflexivity|]. intros p Hp. rewrite count_cons, Hp. reflexivity.
  - exists cfg, []. split; reflexivity.
Qed.

Lemma parse_args_modes (argv : Argv) (args : Namespace) :
  parse_args argv = Some args ->
  (args_mode args = "analyze" \/ args_mode args = "health") /\
  args_config args = opt_config argv /\ args_image args = opt_image argv.
Proof.
  unfold parse_args.
  destruct (existsb _ _) eqn:E; [|discriminate].
  intros H. injection H as <-. simpl. split; [|split; reflexivity].
  simpl in E. rewrite orb_false_r in E. apply orb_true_iff in E.
  destruct E as [E|E]; apply String.eqb_eq in E; [left | right]; exact E.
Qed.

Lemma analyze_image_returns (image_path custom : value) (P : Proc) :
  exists (result : dict) (P' : Proc),
    analyze_image py env image_path custom P = (inr result, P').
Proof.
  rewrite analyze_image_unfold.
  destruct (analyze_body py env image_path (started env P) (entered custom P))
    as [[e|d] P1].
  - rewrite analyze_handler_unfold. eexists _, _. reflexivity.
  - eexists _, _. reflexivity.
Qed.

(** X14: one run of the script on a command line of the three flags. For
    every command line that holds only [--config], [--mode] and [--image],
    each with a value or absent (so argparse neither prints its help nor
    refuses the form of an argument), and whatever the files and the
    libraries do: the process ends with an exit status and has not read
    standard input; it has called [from_pretrained] at most once and the
    model at most twice. When the imports fail it prints the [import_error]
    record and exits with 1. When the value of [--mode] is outside the
    choices it prints no document and exits with 2. Otherwise it prints
    exactly one document, and the status is 0 in the health mode and, in
    the analyze mode, 0 exactly when the [status] of the document printed
    is [success]. *)
Theorem script_prints_one_document (argv : Argv) (t : Trace) :
  exists (code : Z) (new : list Event),
    script py env argv t = (inr code, new ++ t) /\
    count is_stdin new = 0 /\ count is_load new <= 1 /\ count is_query new <= 2 /\
    match import_error env with
    | Some msg =>
        code = 1%Z /\
        stdout_of new
        = [PDict (obj [ ("error", PStr ("Failed to import required libraries: " ++ msg));
                        ("status", PStr "import_error") ])]
    | None =>
        match parse_args argv with
        | None => code = 2%Z /\ stdout_of new = []
        | Some args =>
            exists doc : dict,
              stdout_of new = [PDict doc] /\
              code = if String.eqb (args_mode args) "health" then 0%Z
                     else status_code doc
        end
    end.
Proof.
  unfold script. destruct (import_error env) as [msg|].
  { eexists _, [_]. split; [reflexivity|].
    split; [reflexivity|]. split; [apply Nat.le_0_l|]. split; [apply Nat.le_0_l|].
    split; reflexivity. }
  unfold main. destruct (parse_args argv) as [args|] eqn:Hp.
  2:{ exists 2%Z, []. split; [reflexivity|].
      split; [reflexivity|]. split; [apply Nat.le_0_l|]. split; [apply Nat.le_0_l|].
      split; reflexivity. }
  destruct (parse_args_modes _ _ Hp) as (Hm & _ & _).
  unfold bind at 1. unfold emit_t at 1.
  unfold bind at 1. unfold __init__. unfold bind at 1.
  match goal with
  | |- context [_load_config py env ?p ?t0] =>
      destruct (load_config_events p t0) as (cfg & nc & Hc & Hn)
  end.
  pose proof (Hn is_load (fun _ _ _ => eq_refl)) as C1.
  pose proof (Hn is_query (fun _ _ _ => eq_refl)) as C2.
  pose proof (Hn is_stdout (fun _ _ _ => eq_refl)) as C3.
  pose proof (Hn is_stdin (fun _ _ _ => eq_refl)) as C4.
  clear Hn.
  rewrite Hc. unfold ret at 1. cbv beta iota. unfold with_service.
  destruct Hm as [Hm|Hm]; rewrite Hm.
  - change (String.eqb "analyze" "health") with false.
    change (String.eqb "analyze" "analyze") with true. cbv iota.
    destruct (truthy (opt_value (args_image args))); cbn [negb].
    + cbv beta iota zeta delta [bind emit print_json ret self caller_settings trace fst snd].
      match goal with
      | |- context [analyze_image py env ?a ?b ?P0] =>
          destruct (analyze_image_returns a b P0) as (result & [s2 c2 t2] & Ha);
          destruct (analyze_image_events _ _ _ _ _ Ha) as (na & E & L1 & L2 & L3 & L4);
          rewrite Ha
      end.
      cbn [trace] in E. subst t2. cbv beta iota.
      destruct (truthy (dict_get_default result "tags" PNone)); cbv beta iota.
      * eexists _, (_ :: _ :: _ :: na ++ _ :: nc ++ [_]).
        split; [simpl; rewrite <- !app_assoc; simpl; rewrite <- !app_assoc; reflexivity|].
        rewrite !count_cons, !count_app, !count_cons, !count_app, !count_cons.
        rewrite !stdout_of_cons, !stdout_of_app, !stdout_of_cons, !stdout_of_app.
        rewrite !stdout_of_cons.
        rewrite (stdout_of_none na L3), (stdout_of_none nc C3).
        unfold count in *. simpl. split; [lia|]. split; [lia|]. split; [lia|].
        exists result. split; reflexivity.
      * eexists _, (_ :: _ :: na ++ _ :: nc ++ [_]).
        split; [simpl; rewrite <- !app_assoc; simpl; rewrite <- !app_assoc; reflexivity|].
        rewrite !count_cons, !count_app, !count_cons, !count_app, !count_cons.
        rewrite !stdout_of_cons, !stdout_of_app, !stdout_of_cons, !stdout_of_app.
        rewrite !stdout_of_cons.
        rewrite (stdout_of_none na L3), (stdout_of_none nc C3).
        unfold count in *. simpl. split; [lia|]. split; [lia|]. split; [lia|].
        exists result. split; reflexivity.
    + cbv beta iota zeta delta [bind emit print_json ret self caller_settings trace fst snd].
      eexists _, (_ :: nc ++ [_]).
      split; [simpl; rewrite <- !app_assoc; reflexivity|].
      rewrite !count_cons, !count_app, !count_cons.
      rewrite !stdout_of_cons, !stdout_of_app, !stdout_of_cons.
      rewrite (stdout_of_none nc C3).
      unfold count in *. simpl. split; [lia|]. split; [lia|]. split; [lia|].
      eexists. split; reflexivity.
  - change (String.eqb "health" "health") with true. cbv iota.
    match goal with
    | |- context [mkProc ?s0 ?c0 ?t0] =>
        destruct (health_check_record py env (mkProc s0 c0 t0))
          as (b & [s2 c2 t2] & _ & Hh);
        destruct (health_check_events _ _ _ Hh) as (nh & E & L1 & L2 & L3 & L4)
    end.
    unfold bind. rewrite Hh. unfold print_json, emit, ret. cbn [fst snd trace].
    cbn [trace] in E. subst t2.
    eexists _, (_ :: nh ++ nc ++ [_]).
    split; [simpl; rewrite <- !app_assoc; reflexivity|].
    rewrite !count_cons, !count_app, !count_cons.
    rewrite !stdout_of_cons, !stdout_of_app, !stdout_of_cons.
    rewrite (stdout_of_none nh L3), (stdout_of_none nc C3).
    unfold count in *. simpl. split; [lia|]. split; [lia|]. split; [lia|].
    eexists. split; reflexivity.
Qed.


(** ** The branch of [main] that reads a request (lines 269-313) *)

Ltac run_request :=
  cbv beta iota zeta delta [bind lift emit print_json ret try_except].

Ltac one_document :=
  eexists _, _, [_; _]; split; [reflexivity|]; split; [reflexivity|];
  split; [reflexivity|]; split; [reflexivity|];
  split; [right; reflexivity|]; split; [apply Nat.le_0_l | apply Nat.le_0_l].

Ltac request_fails e :=
  destruct (is_JSONDecodeError e); run_request; one_document.

(** X16: the branch that reads a request never raises and answers once.
    Whatever standard input holds, the branch reads it once, prints exactly
    one document and returns 0 or 1; it calls [from_pretrained] at most once
    and the model at most twice. *)
Theorem interactive_answers_once (P : Proc) :
  exists (code : Z) (P' : Proc) (new : list Event),
    interactive py env P = (inr code, P') /\
    trace P' = new ++ trace P /\
    count is_stdin new = 1 /\ count is_stdout new = 1 /\
    (code = 0%Z \/ code = 1%Z) /\
    count is_load new <= 1 /\ count is_query new <= 2.
Proof.
  unfold interactive. run_request.
  destruct (stdin_text env) as [e|text]; run_request; [request_fails e|].
  destruct (json_loads py text) as [e|v]; run_request; [request_fails e|].
  destruct (py_get v "action" PNone) as [e|action]; run_request; [request_fails e|].
  destruct (eq_str action "analyze"); run_request.
  - destruct (py_get v "image_path" PNone) as [e|ip]; run_request; [request_fails e|].
    destruct (py_get v "settings" PNone) as [e|cs]; run_request; [request_fails e|].
    destruct (truthy ip); cbn [negb]; run_request; [|one_document].
    match goal with
    | |- context [analyze_image py env ?a ?b ?P0] =>
        destruct (analyze_image_returns a b P0) as (result & [s2 c2 t2] & Ha);
        destruct (analyze_image_events _ _ _ _ _ Ha) as (na & E & L1 & L2 & L3 & L4);
        rewrite Ha
    end.
    cbn [trace] in E. subst t2. run_request. cbn [self caller_settings trace].
    eexists _, _, (_ :: na ++ [_]).
    split; [reflexivity|].
    split; [cbn [trace]; simpl; rewrite <- app_assoc; reflexivity|].
    rewrite !count_cons, !count_app, !count_cons.
    unfold count in *. simpl.
    split; [lia|]. split; [lia|].
    split; [unfold status_code; destruct (eq_str _ _); [left | right]; reflexivity|].
    split; lia.
  - destruct (eq_str action "health"); run_request; [|one_document].
    match goal with
    | |- context [health_check py env ?P0] =>
        destruct (health_check_record py env P0) as (b & [s2 c2 t2] & _ & Hh);
        destruct (health_check_events _ _ _ Hh) as (nh & E & L1 & L2 & L3 & L4);
        rewrite Hh
    end.
    cbn [trace] in E. subst t2. run_request. cbn [self caller_settings trace].
    eexists _, _, (_ :: nh ++ [_]).
    split; [reflexivity|].
    split; [cbn [trace]; simpl; rewrite <- app_assoc; reflexivity|].
    rewrite !count_cons, !count_app, !count_cons.
    unfold count in *. simpl.
    split; [lia|]. split; [lia|]. split; [left; reflexivity|]. split; lia.
Qed.

(** X17: a request that cannot be read. When reading or decoding standard
    input raises, the branch prints [json_error] for a
    [json.JSONDecodeError] and [unexpected_error], with the text of the
    exception, for any other; when the input decodes to a value that is not
    an object (a list, a number, a string, null), the [.get] of line 275
    raises and the branch prints [unexpected_error] for it. In each case it
    returns 1 and leaves the service alone. *)
Theorem unreadable_request_is_an_error (P : Proc) :
  (forall e : exn,
     stdin_text env = inl e \/
     (exists text, stdin_text env = inr text /\ json_loads py text = inl e) ->
     interactive py env P
     = (inr 1%Z,
        mkProc (self P) (caller_settings P)
          (EvStdout
             (PDict (if is_JSONDecodeError e
                     then obj [ ("error", PStr "Invalid JSON input");
                                ("status", PStr "json_error") ]
                     else obj [ ("error", PStr ("Unexpected error: " ++ exn_str py e));
                                ("status", PStr "unexpected_error") ])) None
           :: EvStdin :: trace P))) /\
  (forall (text : string) (v : value),
     stdin_text env = inr text ->
     json_loads py text = inr v ->
     (forall d : dict, v <> PDict d) ->
     interactive py env P
     = (inr 1%Z,
        mkProc (self P) (caller_settings P)
          (EvStdout
             (PDict (obj [ ("error", PStr ("Unexpected error: "
                                           ++ exn_str py (NoAttribute v "get")));
                           ("status", PStr "unexpected_error") ])) None
           :: EvStdin :: trace P))).
Proof.
  split.
  - intros e [H | (text & H & H')]; unfold interactive; run_request;
      rewrite H; run_request; [|rewrite H'; run_request];
      destruct (is_JSONDecodeError e); reflexivity.
  - intros text v H H' Hv. unfold interactive. run_request.
    rewrite H. run_request. rewrite H'. run_request.
    destruct v; try reflexivity. destruct (Hv d eq_refl).
Qed.

(** ** A configuration file that holds a list (lines 67-73) *)

Lemma update_seq_pairs (pairs : list (string * value)) (rest : list value)
    (i : nat) (d : dict) :
  update_seq py i (map pair_item pairs ++ rest) d
  = update_seq py (i + List.length pairs) rest
      (fold_left (fun acc kv => dict_set py acc (PStr (fst kv)) (snd kv)) pairs d).
Proof.
  revert i d. induction pairs as [|[k v] r IH]; intros i d.
  - simpl. rewrite Nat.add_0_r. reflexivity.
  - simpl map. simpl app. simpl fold_left. simpl List.length.
    rewrite Nat.add_succ_r. rewrite <- (IH (S i)). reflexivity.
Qed.

(** X18: a configuration file that holds a list is applied pair by pair,
    and a failure does not undo what was stored. When the file decodes to a
    list that begins with pairs [[key, value]], [update] stores them in
    order over the defaults. If the list ends there, that is the
    configuration and nothing is logged; if the next element is null, a
    boolean or a number, [update] raises on it, a warning is logged, and
    the configuration returned still holds the pairs stored before it. *)
Theorem config_list_is_applied_until_it_fails
    (path text : string) (pairs : list (string * value)) (rest : list value)
    (t : Trace) :
  path <> "" ->
  path_exists env path = true ->
  read_text env path = inr text ->
  json_loads py text = inr (PList (map pair_item pairs ++ rest)) ->
  (rest = [] ->
   _load_config py env (Some path) t
   = (inr (fold_left (fun acc kv => dict_set py acc (PStr (fst kv)) (snd kv))
                     pairs default_config), t)) /\
  (forall (bad : value) (rest' : list value),
     rest = bad :: rest' ->
     bad = PNone \/ (exists b, bad = PBool b) \/ (exists n, bad = PInt n) \/
     (exists f, bad = PFloat f) ->
     _load_config py env (Some path) t
     = (inr (fold_left (fun acc kv => dict_set py acc (PStr (fst kv)) (snd kv))
                       pairs default_config),
        EvLog WARNING "Failed to load config from {}: {}"
              [PStr path;
               PStr (exn_str py (BadUpdateElement (List.length pairs) bad))] :: t)).
Proof.
  intros Hne Hex Hr Hj.
  assert (Hc : negb (String.eqb path "") && path_exists env path = true).
  { rewrite Hex. destruct (String.eqb path "") eqn:E; [|reflexivity].
    apply String.eqb_eq in E. contradiction. }
  unfold _load_config. rewrite Hc.
  cbv beta iota zeta delta [bind lift]. rewrite Hr. cbv beta iota. rewrite Hj.
  cbv beta iota.
  change (dict_update py (PList (map pair_item pairs ++ rest)) default_config)
    with (update_seq py 0 (map pair_item pairs ++ rest) default_config).
  rewrite update_seq_pairs. simpl Nat.add.
  split.
  - intros ->. reflexivity.
  - intros bad rest' -> [-> | [(b & ->) | [(n & ->) | (f & ->)]]]; reflexivity.
Qed.


End Further.

(** * The properties on concrete runs *)

Import Example.


(** C7 on a file that is not an image: [Image.open] raises, and the call
    returns the record of the error with the time elapsed. *)
Lemma analyze_image_never_raises_witness :
  exists (result : dict) (P' : Proc),
    analyze_image lib (home plain_response) (PStr "notes.txt") PNone start
    = (inr result, P') /\
    result = obj [ ("error", PStr "cannot identify image file");
                   ("status", PStr "analysis_error");
                   ("processing_time", PFloat 1%float) ].
Proof.
  destruct (analyze_image_never_raises lib (home plain_response)
              (PStr "notes.txt") PNone start) as (result & P' & Hrun & Hraise).
  exists result, P'. split; [exact Hrun|].
  rewrite (Hraise (LibraryError "cannot identify image file")
                  (entered PNone start) eq_refl).
  reflexivity.
Defined.

(** C3 on a path that does not exist. *)
Lemma missing_image_is_file_error_witness :
  os_path_exists (home plain_response) (PStr "dog.png") = inr false /\
  exists (result : dict) (P' : Proc),
    analyze_image lib (home plain_response) (PStr "dog.png") PNone start
    = (inr result, P') /\
    dict_get result "status" = Some (PStr "file_error") /\
    self P' = fresh /\
    filter is_load (trace P') = [].
Proof.
  split; [reflexivity|].
  destruct (missing_image_is_file_error lib (home plain_response)
              (PStr "dog.png") PNone start eq_refl)
    as (result & P' & Hrun & Hs & Hself & _ & _ & _ & Hl).
  exists result, P'. repeat split; assumption.
Defined.

(** C5 on a response of sixteen tags. *)
Lemma success_has_at_most_15_tags_witness :
  exists (result : dict) (P' : Proc),
    analyze_image lib (home sixteen_tags_response) (PStr "cat.png") PNone start
    = (inr result, P') /\
    dict_get result "status" = Some (PStr "success") /\
    exists (v : value) (n : nat),
      dict_get result "tags" = Some v /\
      py_len v = Some n /\ n <= 15 /\
      ((exists l, v = PList l) \/ (exists s, v = PStr s)).
Proof.
  eexists _, _. split; [vm_compute; reflexivity|]. split; [reflexivity|].
  eapply (success_has_at_most_15_tags lib (home sixteen_tags_response)
            (PStr "cat.png") PNone start);
    [vm_compute; reflexivity | reflexivity].
Defined.


(** C4 (as amended) on an object inside some prose, on a plain list, and
    on an object whose [tags] is an integer of 4301 digits. *)
Lemma tag_response_parse_witness :
  (exists (result : dict) (P' : Proc),
     analyze_image lib (home prose_response) (PStr "cat.png") PNone start
     = (inr result, P') /\
     dict_get result "status" = Some (PStr "success") /\
     dict_get result "tags" = Some (PList [PStr "cat"; PStr "sofa"]) /\
     dict_get result "analysis"
     = Some (PDict (obj [ ("objects", PList []); ("scene", PStr "indoor");
                          ("colors", PList []); ("actions", PList []) ]))) /\
  (exists (result : dict) (P' : Proc),
     analyze_image lib (home plain_response) (PStr "cat.png") PNone start
     = (inr result, P') /\
     dict_get result "status" = Some (PStr "success") /\
     dict_get result "tags" = Some (PList [PStr "cat"; PStr "sofa"; PStr "indoor"]) /\
     dict_get result "analysis"
     = Some (PDict (obj [ ("objects", PList []); ("scene", PStr "");
                          ("colors", PList []); ("actions", PList []) ]))) /\
  (exists (result : dict) (P' : Proc),
     analyze_image strict (home huge_tags_response) (PStr "cat.png") PNone start
     = (inr result, P') /\
     dict_get result "status" = Some (PStr "analysis_error") /\
     dict_get result "error" = Some (PStr digit_limit) /\
     dict_get result "tags" = None /\
     dict_get result "analysis" = None).
Proof.
  assert (Hfresh : consistent (self start)) by (intros H; discriminate).
  split; [|split].
  - destruct (tag_response_parse lib (home prose_response) (PStr "cat.png") PNone
                cat "A cat on a sofa." prose_response start _ Hfresh
                ltac:(vm_compute; reflexivity)) as (Hobject & _).
    exact (Hobject _ _ _ eq_refl ltac:(vm_compute; reflexivity) eq_refl).
  - destruct (tag_response_parse lib (home plain_response) (PStr "cat.png") PNone
                cat "A cat on a sofa." plain_response start _ Hfresh
                ltac:(vm_compute; reflexivity)) as (_ & Hplain & _).
    exact (Hplain (or_introl eq_refl)).
  - destruct (tag_response_parse strict (home huge_tags_response) (PStr "cat.png") PNone
                cat "A cat on a sofa." huge_tags_response start _ Hfresh
                ltac:(vm_compute; reflexivity)) as (_ & _ & Hother).
    exact (Hother huge_tags_response (LibraryError digit_limit)
                  ltac:(vm_compute; reflexivity) ltac:(vm_compute; reflexivity)
                  eq_refl).
Defined.

(** C4 as first stated fails on two responses. The first holds an
    object that decodes, with [objects] in it, and the result is an
    [analysis_error] without any of the fields: the [tags] of the object is
    null and cannot be sliced. The second holds sixteen tags and no object,
    and the result keeps fifteen of them. *)
Lemma tag_response_counterexample :
  (search_braces null_tags_response = Some null_tags_response /\
   json_loads lib null_tags_response
   = inr (PDict (obj [("tags", PNone); ("objects", PList [PStr "cat"])])) /\
   exists (result : dict) (P' : Proc),
     analyze_image lib (home null_tags_response) (PStr "cat.png") PNone start
     = (inr result, P') /\
     dict_get result "status" = Some (PStr "analysis_error") /\
     dict_get result "analysis" = None) /\
  (search_braces sixteen_tags_response = None /\
   List.length (comma_tags sixteen_tags_response) = 16 /\
   exists (result : dict) (P' : Proc) (kept : list value),
     analyze_image lib (home sixteen_tags_response) (PStr "cat.png") PNone start
     = (inr result, P') /\
     dict_get result "tags" = Some (PList kept) /\
     List.length kept = 15 /\
     PList kept <> PList (map PStr (comma_tags sixteen_tags_response))).
Proof.
  split.
  - split; [reflexivity|]. split; [reflexivity|].
    eexists _, _. split; [vm_compute; reflexivity|]. split; reflexivity.
  - split; [reflexivity|]. split; [reflexivity|].
    eexists _, _, _. split; [vm_compute; reflexivity|].
    split; [reflexivity|]. split; [reflexivity|]. discriminate.
Qed.

(** C2 on a machine whose model loads and on one whose model does not. *)
Lemma health_mode_exits_zero_witness :
  (exists t' : Trace,
     script lib (home plain_response) (mkArgv None (Some "health") None) []
     = (inr 0%Z, t') /\
     List.length (stdout_of t') = 1) /\
  (exists t' : Trace,
     script lib configured (mkArgv (Some "broken.json") (Some "health") None) []
     = (inr 0%Z, t') /\
     List.length (stdout_of t') = 1).
Proof.
  split.
  - destruct (health_mode_exits_zero lib (home plain_response)
                (mkArgv None (Some "health") None) [] eq_refl eq_refl)
      as (cfg & b & t0 & t' & _ & Hrun & Hout).
    exists t'. split; [exact Hrun|]. rewrite Hout. reflexivity.
  - destruct (health_mode_exits_zero lib configured
                (mkArgv (Some "broken.json") (Some "health") None) [] eq_refl eq_refl)
      as (cfg & b & t0 & t' & _ & Hrun & Hout).
    exists t'. split; [exact Hrun|]. rewrite Hout. reflexivity.
Defined.

(** C8 on the request [{"action": "frobnicate"}]. *)
Lemma unknown_action_is_rejected_witness :
  exists P' : Proc,
    interactive lib (asking unknown_request) start = (inr 1%Z, P') /\
    self P' = fresh /\
    stdout_of (trace P')
    = [PDict (obj [ ("error", PStr "Unknown action: frobnicate");
                    ("status", PStr "unknown_action") ])] /\
    filter is_load (trace P') = [] /\
    filter is_query (trace P') = [].
Proof.
  destruct (unknown_action_is_rejected lib (asking unknown_request) start
              unknown_request (obj [("action", PStr "frobnicate")])
              eq_refl eq_refl eq_refl eq_refl)
    as (P' & Hrun & Hself & Htrace & Hl & Hq).
  exists P'. split; [exact Hrun|]. split; [exact Hself|].
  split; [rewrite Htrace; reflexivity|]. split; assumption.
Defined.

(** C6 on three paths: none, a truncated file, and a file that overlays
    [timeout] and [model]. *)
Lemma load_config_keeps_defaults_on_failure_witness :
  _load_config lib configured None [] = (inr default_config, []) /\
  (exists warning : Event,
     _load_config lib configured (Some "broken.json") []
     = (inr default_config, [warning])) /\
  (exists cfg : dict,
     _load_config lib configured (Some "settings.json") [] = (inr cfg, []) /\
     dict_get cfg "timeout" = Some (PInt 5) /\
     dict_get cfg "model" = Some (PDict (obj [("name", PStr "tiny")])) /\
     dict_get cfg "architecture" = Some (PStr "arm64")).
Proof.
  split; [|split].
  - destruct (load_config_keeps_defaults_on_failure lib configured None [])
      as (cfg & t' & Hrun & Hnone & _).
    destruct (Hnone (or_introl eq_refl)) as [Ec Et]. rewrite Ec, Et in Hrun.
    exact Hrun.
  - destruct (load_config_keeps_defaults_on_failure lib configured
                (Some "broken.json") [])
      as (cfg & t' & Hrun & _ & Hbad & _).
    destruct (Hbad "broken.json" (JSONDecodeError "Expecting value") eq_refl
                ltac:(discriminate) eq_refl
                (or_intror (ex_intro _ broken_text (conj eq_refl eq_refl))))
      as [Ec Et].
    rewrite Ec, Et in Hrun. eexists. exact Hrun.
  - destruct (load_config_keeps_defaults_on_failure lib configured
                (Some "settings.json") [])
      as (cfg & t' & Hrun & _ & _ & Hgood).
    destruct (Hgood "settings.json" settings_text
                (obj [("timeout", PInt 5);
                      ("model", PDict (obj [("name", PStr "tiny")]))])
                eq_refl ltac:(discriminate) eq_refl eq_refl eq_refl)
      as (Et & _ & Hget).
    exists cfg. rewrite Et in Hrun. split; [exact Hrun|].
    rewrite !Hget. repeat split; reflexivity.
Defined.

(** Beside C6: a configuration file that holds a list of pairs. The pairs
    in front of the element that is not one are stored before [update]
    raises, and [_load_config] returns the defaults so changed. *)
Lemma update_with_a_sequence :
  dict_update lib (PList [PList [PStr "timeout"; PInt 5]; PInt 7]) default_config
  = (inl (BadUpdateElement 1 (PInt 7)),
     dict_set lib default_config (PStr "timeout") (PInt 5)).
Proof. reflexivity. Qed.

(** * The further properties on concrete runs *)

(** X1 on a response with blanks and an empty segment. *)
Lemma fallback_tags_are_clean_witness :
  In "sofa" (comma_tags plain_response) /\
  "sofa" <> EmptyString /\ strip "sofa" = "sofa" /\ mentions ","%char "sofa" = false.
Proof.
  assert (H : In "sofa" (comma_tags plain_response)) by (right; left; reflexivity).
  split; [exact H | exact (fallback_tags_are_clean plain_response "sofa" H)].
Defined.

(** X3 on a file that holds a number. *)
Lemma config_of_wrong_type_is_ignored_witness :
  exists warning : Event,
    _load_config lib (world [("seven.json", "7")] [] (fun _ => true)
                            (fun _ => answer "") "")
                 (Some "seven.json") []
    = (inr default_config, [warning]).
Proof.
  destruct (config_of_wrong_type_is_ignored lib
              (world [("seven.json", "7")] [] (fun _ => true) (fun _ => answer "") "")
              "seven.json" "7" (PInt 7) []
              ltac:(discriminate) eq_refl eq_refl eq_refl) as [Hscalar _].
  eexists. exact (Hscalar (or_intror (or_intror (or_introl (ex_intro _ 7%Z eq_refl))))).
Defined.

(** X4 on a service whose configuration gives a name where the mapping
    should be. *)
Lemma misconfigured_model_never_loads_witness :
  exists (h : dict) (P' : Proc),
    health_check lib (home plain_response)
      (mkProc (mkService (obj [("model", PStr "moondream2")]) None PNone false) PNone [])
    = (inr h, P') /\
    dict_get h "status" = Some (PStr "not_healthy") /\
    filter is_load (trace P') = [].
Proof.
  destruct (misconfigured_model_never_loads lib (home plain_response)
              (mkProc (mkService (obj [("model", PStr "moondream2")]) None PNone false)
                      PNone [])
              (PStr "moondream2") eq_refl eq_refl ltac:(discriminate))
    as (_ & h & P' & Hrun & Hs & _ & _ & Hl).
  exists h, P'. repeat split; assumption.
Defined.

(** X8 on the service whose model has been loaded. *)
Lemma loaded_service_is_not_reloaded_witness :
  exists new : list Event,
    trace (snd (analyze_image lib (home plain_response) (PStr "cat.png") PNone
                  (snd (_load_model lib (home plain_response) start))))
    = new ++ trace (snd (_load_model lib (home plain_response) start)) /\
    count is_load new = 0.
Proof.
  destruct (loaded_service_is_not_reloaded lib (home plain_response)
              (snd (_load_model lib (home plain_response) start)) eq_refl)
    as [_ H].
  destruct (H (PStr "cat.png") PNone) as (new & E & C & _).
  exists new. split; [exact E | exact C].
Defined.

(** X9 on the image [cat.png]. *)
Lemma success_asks_twice_witness :
  exists (result : dict) (P' : Proc),
    analyze_image lib (home plain_response) (PStr "cat.png") PNone start
    = (inr result, P') /\
    exists (m : Model) (image : Image),
      Image_open (home plain_response) (PStr "cat.png") = inr image /\
      model (self P') = Some m /\
      filter is_query (trace P')
      = EvQuery m image tags_prompt :: EvQuery m image caption_prompt
        :: filter is_query (trace start) /\
      dict_get result "image_size" = Some (size_value image).
Proof.
  eexists _, _. split; [vm_compute; reflexivity|].
  eapply (success_asks_twice lib (home plain_response) (PStr "cat.png") PNone start);
    [vm_compute; reflexivity | reflexivity].
Defined.

(** X10 on a machine whose load fails. *)
Lemma model_error_touches_nothing_witness :
  exists (result : dict) (P' : Proc),
    analyze_image lib flaky (PStr "cat.png") long_settings start = (inr result, P') /\
    _model_loaded (self P') = false /\
    config (self P') = default_config /\
    caller_settings P' = long_settings /\
    filter is_query (trace P') = [].
Proof.
  eexists _, _. split; [vm_compute; reflexivity|].
  match goal with
  | |- _model_loaded (self ?P') = _ /\ _ =>
      destruct (model_error_touches_nothing lib flaky (PStr "cat.png") long_settings
                  start P' _ ltac:(vm_compute; reflexivity) eq_refl)
        as (_ & _ & Hf & Hc & Hs & Hq)
  end.
  repeat split; assumption.
Defined.

(** X11 on a file that is not an image. *)
Lemma failure_before_the_load_witness :
  analyze_image lib (home plain_response) (PStr "notes.txt") PNone start
  = (inr (obj [ ("error", PStr "cannot identify image file");
                ("status", PStr "analysis_error");
                ("processing_time", PFloat 1%float) ]),
     mkProc fresh PNone
            [ EvTime;
              EvLog ERROR "Error analyzing image: {}"
                    [PStr "cannot identify image file"];
              EvTime ]).
Proof.
  exact (failure_before_the_load lib (home plain_response) (PStr "notes.txt") PNone
           start (LibraryError "cannot identify image file")
           (or_intror (conj eq_refl eq_refl))).
Defined.


(** X18 on a file that holds one pair and then a number. *)
Lemma config_list_is_applied_until_it_fails_witness :
  exists warning : Event,
    _load_config lib listed (Some "pairs.json") []
    = (inr (dict_set lib default_config (PStr "timeout") (PInt 5)), [warning]).
Proof.
  destruct (config_list_is_applied_until_it_fails lib listed
              "pairs.json" pairs_text [("timeout", PInt 5)] [PInt 7] []
              ltac:(discriminate) eq_refl eq_refl eq_refl) as [_ Hbad].
  eexists.
  exact (Hbad (PInt 7) [] eq_refl
              (or_intror (or_intror (or_introl (ex_intro _ 7%Z eq_refl))))).
Defined.
